(** * Python_for_Data_Quality: the news-feed pipeline and the city store

    A shallow embedding of [src/HomeTask10.py] (record model, content
    hash, JSON and XML decoders, SQLite store, publisher) and of the
    coordinate table of [src/Final.py], with the properties the
    specification states about them.

    Conventions.
    - A Python [str] is a [string] whose characters are the code points
      below 256; [str.lower] and [str.strip] are given on that range.
    - A Python [float] is a binary64 [float]; comparisons are the IEEE
      ones, as in Python.  A [REAL] column of SQLite gives back the
      binary64 that was written, except that negative zero comes back
      as positive zero.
    - SQLite tables are lists of rows in rowid order.  The database file
      is assumed reachable: I/O failures of the driver are not modelled. *)

From Stdlib Require Import Bool Ascii String List ZArith NArith Lia.
From Stdlib Require Import Floats.PrimFloat.
Import ListNotations.

Set Warnings "-inexact-float,-register-all".

Local Open Scope string_scope.
Local Open Scope list_scope.

(** ** Python and SQLite string primitives *)

Module Str.

Definition code (c : ascii) : N := N_of_ascii c.

Definition is_ascii_upper (c : ascii) : bool :=
  ((65 <=? code c) && (code c <=? 90))%N.

(** Code points 192..222 except the multiplication sign 215: the
    upper-case letters of the Latin-1 supplement. *)
Definition is_latin1_upper (c : ascii) : bool :=
  ((192 <=? code c) && (code c <=? 222) && negb (code c =? 215))%N.

Definition shift_case (c : ascii) : ascii := ascii_of_N (code c + 32).

(** SQLite's built-in [LOWER()] folds the 26 ASCII letters only. *)
Definition sqlite_lower_char (c : ascii) : ascii :=
  if is_ascii_upper c then shift_case c else c.

Fixpoint sqlite_lower (s : string) : string :=
  match s with
  | EmptyString => EmptyString
  | String c s' => String (sqlite_lower_char c) (sqlite_lower s')
  end.

(** Python's [str.lower()] on code points below 256. *)
Definition lower_char (c : ascii) : ascii :=
  if is_ascii_upper c || is_latin1_upper c then shift_case c else c.

Fixpoint lower (s : string) : string :=
  match s with
  | EmptyString => EmptyString
  | String c s' => String (lower_char c) (lower s')
  end.

(** [str.isspace] for one code point below 256. *)
Definition is_space (c : ascii) : bool :=
  let n := code c in
  ((9 <=? n) && (n <=? 13) || (28 <=? n) && (n <=? 32)
   || (n =? 133) || (n =? 160))%N.

Fixpoint lstrip (s : string) : string :=
  match s with
  | EmptyString => EmptyString
  | String c s' => if is_space c then lstrip s' else s
  end.

(** Drops the trailing white space: a character is kept when something
    that is kept follows it, or when it is not white space itself. *)
Fixpoint rstrip (s : string) : string :=
  match s with
  | EmptyString => EmptyString
  | String c s' =>
      match rstrip s' with
      | EmptyString => if is_space c then EmptyString else String c EmptyString
      | r => String c r
      end
  end.

Definition strip (s : string) : string := rstrip (lstrip s).

(** Truth value of a [str]: non-empty. *)
Definition truthy (s : string) : bool :=
  match s with EmptyString => false | _ => true end.

(** Two characters that differ at most by the case of an ASCII letter. *)
Definition ascii_case_eqb (a b : ascii) : bool :=
  Ascii.eqb a b
  || (is_ascii_upper a && (code b =? code a + 32)%N)
  || (is_ascii_upper b && (code a =? code b + 32)%N).

(** [b] is a casing of [a] in which only ASCII letters changed case. *)
Fixpoint ascii_casing (a b : string) : bool :=
  match a, b with
  | EmptyString, EmptyString => true
  | String x a', String y b' => ascii_case_eqb x y && ascii_casing a' b'
  | _, _ => false
  end.

End Str.

(** ** [Final.py]: the coordinate table of the distance calculator *)

Module Final.

(** A [REAL] column.  SQLite writes a real that equals an integer as
    that integer and converts it back to a real when the column is
    read.  The binary64 that comes back is the one that was written,
    with one exception: negative zero is written, like positive zero,
    as the integer 0 and comes back as positive zero.  [real_column f]
    is what the column gives back for [f].  (A NaN is bound as [NULL],
    which [NOT NULL] refuses; no [INSERT] below is reached with one:
    the constants of [populate_initial_cities] are numbers, and
    [save_city_coordinates] checks the ranges first, which a NaN
    fails.) *)
Definition real_column (f : float) : float :=
  if PrimFloat.eqb f 0%float then 0%float else f.

(** One row of table [cities]:
    [id INTEGER PRIMARY KEY AUTOINCREMENT, name TEXT UNIQUE NOT NULL,
     latitude REAL NOT NULL, longitude REAL NOT NULL, country TEXT,
     created_at DATETIME DEFAULT CURRENT_TIMESTAMP].
    The two [REAL] cells are kept as binary64 values. *)
Record city_row := mk_city {
  id : Z;
  name : string;
  stored_latitude : float;
  stored_longitude : float;
  country : string;
  created_at : string
}.

(** What a [SELECT] gives for the columns [latitude] and [longitude] of
    a row: no cell, however the table came to be, reads as negative
    zero. *)
Definition latitude (r : city_row) : float := real_column (stored_latitude r).
Definition longitude (r : city_row) : float := real_column (stored_longitude r).

(** The database: the rows of [cities] in rowid order, and the counter
    that [AUTOINCREMENT] keeps in [sqlite_sequence]. *)
Record database := mk_db {
  cities : list city_row;
  sequence : Z
}.

Definition empty_database : database := mk_db [] 0.

(** The rowid an [AUTOINCREMENT] insert takes: one more than the largest
    rowid ever used. *)
Definition next_rowid (db : database) : Z :=
  1 + fold_right (fun r m => Z.max (id r) m) (sequence db) (cities db).

(** [INSERT INTO cities (name, latitude, longitude, country) VALUES ...]
    without conflict clause: the [UNIQUE] constraint on [name] (binary
    collation) rejects the row with [IntegrityError], here [None].  The
    coordinates are written to [REAL] columns. *)
Definition insert_city (now : string) (db : database)
    (n : string) (lat lon : float) (c : string) : option database :=
  if existsb (fun r => String.eqb (name r) n) (cities db) then None
  else
    let i := next_rowid db in
    Some (mk_db (cities db
                   ++ [mk_city i n (real_column lat) (real_column lon) c now]) i).

(** [INSERT OR REPLACE]: the rows that hold the same [name] are deleted,
    then the new row is added under a fresh rowid, its coordinates as
    the [REAL] columns keep them. *)
Definition insert_or_replace_city (now : string) (db : database)
    (n : string) (lat lon : float) (c : string) : database :=
  let i := next_rowid db in
  mk_db (filter (fun r => negb (String.eqb (name r) n)) (cities db)
           ++ [mk_city i n (real_column lat) (real_column lon) c now]) i.

Local Open Scope float_scope.

Definition A_tilde : string := String "195"%char EmptyString.
Definition a_tilde : string := String "227"%char EmptyString.

Definition initial_cities : list (string * float * float * string) :=
  [ ("New York", 40.7128, -74.0060, "USA");
    ("London", 51.5074, -0.1278, "UK");
    ("Paris", 48.8566, 2.3522, "France");
    ("Tokyo", 35.6762, 139.6503, "Japan");
    ("Sydney", -33.8688, 151.2093, "Australia");
    ("Los Angeles", 34.0522, -118.2437, "USA");
    ("Berlin", 52.5200, 13.4050, "Germany");
    ("Moscow", 55.7558, 37.6176, "Russia");
    ("Mumbai", 19.0760, 72.8777, "India");
    ("Beijing", 39.9042, 116.4074, "China");
    ("Cairo", 30.0444, 31.2357, "Egypt");
    ("S" ++ a_tilde ++ "o Paulo", -23.5505, -46.6333, "Brazil");
    ("Mexico City", 19.4326, -99.1332, "Mexico");
    ("Buenos Aires", -34.6118, -58.3960, "Argentina");
    ("Lagos", 6.5244, 3.3792, "Nigeria");
    ("Bangkok", 13.7563, 100.5018, "Thailand");
    ("Istanbul", 41.0082, 28.9784, "Turkey");
    ("Seoul", 37.5665, 126.9780, "South Korea");
    ("Dubai", 25.2048, 55.2708, "UAE");
    ("Singapore", 1.3521, 103.8198, "Singapore") ]%string.

(** [populate_initial_cities]: only an empty table is filled; a row the
    [UNIQUE] constraint rejects is skipped. *)
Definition populate_initial_cities (now : string) (db : database) : database :=
  if (Z.of_nat (length (cities db)) =? 0)%Z then
    fold_left
      (fun d '(n, lat, lon, c) =>
         match insert_city now d n lat lon c with
         | Some d' => d'
         | None => d
         end)
      initial_cities db
  else db.

(** [get_city_coordinates]: the first row whose [LOWER(name)] equals
    [LOWER(?)], or [None]; the pair is what the two [REAL] columns of
    that row give back. *)
Definition get_city_coordinates (db : database) (city_name : string)
    : option (float * float) :=
  match
    find (fun r => String.eqb (Str.sqlite_lower (name r))
                              (Str.sqlite_lower city_name)) (cities db)
  with
  | Some result => Some (latitude result, longitude result)
  | None => None
  end.

Definition valid_latitude (latitude : float) : bool :=
  PrimFloat.leb (-90) latitude && PrimFloat.leb latitude 90.

Definition valid_longitude (longitude : float) : bool :=
  PrimFloat.leb (-180) longitude && PrimFloat.leb longitude 180.

(** [save_city_coordinates]: the new database and the returned flag. *)
Definition save_city_coordinates (now : string) (db : database)
    (city_name : string) (latitude longitude : float) (country : string)
    : database * bool :=
  if negb (valid_latitude latitude) then (db, false)
  else if negb (valid_longitude longitude) then (db, false)
  else (insert_or_replace_city now db city_name latitude longitude country, true).

(** The claim of case-insensitive lookup read with the casing of the
    application itself ([city1.lower() == city2.lower()] in
    [handle_distance_calculation]). *)
Definition lookup_ignores_case : Prop :=
  forall (db : database) (r : city_row) (n : string),
    In r (cities db) ->
    Str.lower n = Str.lower (name r) ->
    get_city_coordinates db n = get_city_coordinates db (name r).

(** Names and tables used in the statements below. *)
Definition sao_paulo : string := ("S" ++ a_tilde ++ "o Paulo")%string.
Definition SAO_PAULO : string := ("S" ++ A_tilde ++ "O PAULO")%string.

(** The table as [CityDistanceCalculator()] leaves a new database. *)
Definition initial_database : database :=
  populate_initial_cities "2024-03-01 11:00:00" empty_database.

Definition sao_paulo_row : city_row :=
  mk_city 12 sao_paulo (-23.5505)%float (-46.6333)%float "Brazil"
          "2024-03-01 11:00:00".

Definition london_row : city_row :=
  mk_city 2 "London" 51.5074%float (-0.1278)%float "UK" "2024-03-01 11:00:00".

Definition named (n : string) (r : city_row) : bool := String.eqb (name r) n.
Definition not_named (n : string) (r : city_row) : bool := negb (String.eqb (name r) n).

End Final.


(** ** [HomeTask10.py]: records, decoders, store and publisher *)

Module Feed.

(** *** Python values *)

(** The values [json.load] produces, which are also the values a record
    field can hold: the decoders store what they are given. *)
Inductive pyval : Type :=
| PNone
| PBool (b : bool)
| PInt (z : Z)
| PFloat (f : float)
| PStr (s : string)
| PList (l : list pyval)
| PDict (d : list (string * pyval)).

(** A [dict] with [str] keys, in insertion order. *)
Definition dict : Type := list (string * pyval).

Fixpoint lookup {V : Type} (k : string) (d : list (string * V)) : option V :=
  match d with
  | [] => None
  | (k', v) :: d' => if String.eqb k' k then Some v else lookup k d'
  end.

(** Truth value of an object, as [not x] tests it. *)
Definition truthy (v : pyval) : bool :=
  match v with
  | PNone => false
  | PBool b => b
  | PInt z => negb (z =? 0)%Z
  | PFloat f => negb (PrimFloat.eqb f 0%float)
  | PStr s => Str.truthy s
  | PList l => match l with [] => false | _ => true end
  | PDict d => match d with [] => false | _ => true end
  end.

Inductive exn : Type :=
| ValueError (msg : string)
| KeyError (key : string)
| AttributeError (attr : string)
| TypeError (what : string)
| RecursionError
| EOFError
| IntegrityError (what : string)
| BindingError
| OverflowError
| OperationalError (what : string).

Inductive Res (A : Type) : Type :=
| Ok (a : A)
| Raise (e : exn).
Arguments Ok {A} a.
Arguments Raise {A} e.

(** [s in t] for two [str]: [s] occurs in [t]. *)
Fixpoint is_substring (s t : string) : bool :=
  String.prefix s t ||
  match t with
  | EmptyString => false
  | String _ t' => is_substring s t'
  end.

Definition is_PStr (k : string) (v : pyval) : bool :=
  match v with PStr s => String.eqb s k | _ => false end.

(** [k in x] where [k] is a [str]. *)
Definition py_contains (k : string) (x : pyval) : Res bool :=
  match x with
  | PDict d => Ok (match lookup k d with Some _ => true | None => false end)
  | PList l => Ok (existsb (is_PStr k) l)
  | PStr s => Ok (is_substring k s)
  | _ => Raise (TypeError "argument is not iterable")
  end.

(** [x[k]] where [k] is a [str]. *)
Definition py_getitem (x : pyval) (k : string) : Res pyval :=
  match x with
  | PDict d => match lookup k d with Some v => Ok v | None => Raise (KeyError k) end
  | PList _ | PStr _ => Raise (TypeError "indices must be integers")
  | _ => Raise (TypeError "object is not subscriptable")
  end.

(** [x.get(k, default)]: only a [dict] has the method. *)
Definition py_get (x : pyval) (k : string) (default : pyval) : Res pyval :=
  match x with
  | PDict d => Ok (match lookup k d with Some v => v | None => default end)
  | _ => Raise (AttributeError "get")
  end.

(** [x.lower()] and [x.strip()]: only a [str] has the methods. *)
Definition py_lower (x : pyval) : Res string :=
  match x with
  | PStr s => Ok (Str.lower s)
  | _ => Raise (AttributeError "lower")
  end.

Definition py_strip (x : pyval) : Res string :=
  match x with
  | PStr s => Ok (Str.strip s)
  | _ => Raise (AttributeError "strip")
  end.

Fixpoint chars (s : string) : list pyval :=
  match s with
  | EmptyString => []
  | String c s' => PStr (String c EmptyString) :: chars s'
  end.

(** [len(x)], and the sequence [for ... in x] walks through. *)
Definition py_len (x : pyval) : Res nat :=
  match x with
  | PList l => Ok (length l)
  | PDict d => Ok (length d)
  | PStr s => Ok (String.length s)
  | _ => Raise (TypeError "object has no len()")
  end.

Definition py_iter (x : pyval) : Res (list pyval) :=
  match x with
  | PList l => Ok l
  | PDict d => Ok (map (fun kv => PStr (fst kv)) d)
  | PStr s => Ok (chars s)
  | _ => Raise (TypeError "object is not iterable")
  end.

(** *** [xml.etree.ElementTree.Element] *)

Inductive Element : Type :=
| mk_element (tag : string) (attrib : list (string * string))
             (text : option string) (children : list Element).

Definition tag (e : Element) : string :=
  match e with mk_element t _ _ _ => t end.
Definition attrib (e : Element) : list (string * string) :=
  match e with mk_element _ a _ _ => a end.
Definition text (e : Element) : option string :=
  match e with mk_element _ _ t _ => t end.
Definition children (e : Element) : list Element :=
  match e with mk_element _ _ _ c => c end.

(** [element.find(name)]: the first child with that tag. *)
Definition find (e : Element) (name : string) : option Element :=
  List.find (fun c => String.eqb (tag c) name) (children e).

(** [element.findall(name)]: the children with that tag, in order. *)
Definition findall (e : Element) (name : string) : list Element :=
  filter (fun c => String.eqb (tag c) name) (children e).

(** [element.get(key, default)]. *)
Definition xml_get (e : Element) (key default : string) : string :=
  match lookup key (attrib e) with Some v => v | None => default end.

(** *** [datetime] *)

Record datetime := mk_datetime {
  year : Z; month : Z; day : Z;
  hour : Z; minute : Z; second : Z; microsecond : Z
}.

Definition is_leap (y : Z) : bool :=
  ((y mod 4 =? 0) && (negb (y mod 100 =? 0) || (y mod 400 =? 0)))%Z.

Definition days_in_month (y m : Z) : Z :=
  if (m =? 2)%Z then (if is_leap y then 29 else 28)%Z
  else if ((m =? 4) || (m =? 6) || (m =? 9) || (m =? 11))%Z then 30%Z
  else 31%Z.

Definition days_before_year (y : Z) : Z :=
  let p := (y - 1)%Z in (p * 365 + p / 4 - p / 100 + p / 400)%Z.

Definition days_before_month (y m : Z) : Z :=
  fold_right Z.add 0%Z
    (map (days_in_month y) (map Z.of_nat (seq 1 (Z.to_nat (m - 1))))).

(** [date.toordinal()]: 1 for 0001-01-01. *)
Definition toordinal (d : datetime) : Z :=
  (days_before_year (year d) + days_before_month (year d) (month d) + day d)%Z.

Definition microseconds_per_day : Z := 86400000000.

(** Microseconds since the midnight that begins 0001-01-01, minus one day. *)
Definition to_microseconds (d : datetime) : Z :=
  (toordinal d * microseconds_per_day
   + ((hour d * 60 + minute d) * 60 + second d) * 1000000 + microsecond d)%Z.

(** [(a - b).days]: a [timedelta] keeps its seconds and microseconds non
    negative, so [days] is the floor of the difference. *)
Definition timedelta_days (a b : datetime) : Z :=
  ((to_microseconds a - to_microseconds b) / microseconds_per_day)%Z.

Definition digit (c : ascii) : option Z :=
  let n := Str.code c in
  if ((48 <=? n) && (n <=? 57))%N then Some (Z.of_N n - 48)%Z else None.

(** The alternatives of the [%m] group, [1[0-2]|0[1-9]|[1-9]], in the
    order the regular expression tries them: value and rest. *)
Definition month_alternatives (s : string) : list (Z * string) :=
  match s with
  | String a r1 =>
      match digit a with
      | Some x =>
          (match r1 with
           | String b r2 =>
               match digit b with
               | Some y =>
                   (if ((x =? 1) && (y <=? 2))%Z then [((10 + y)%Z, r2)] else [])
                   ++ (if ((x =? 0) && (1 <=? y))%Z then [(y, r2)] else [])
               | None => []
               end
           | EmptyString => []
           end)
          ++ (if (1 <=? x)%Z then [(x, r1)] else [])
      | None => []
      end
  | EmptyString => []
  end.

(** The [%d] group, [3[01]|[12]\d|0[1-9]|[1-9]| [1-9]]: the first
    alternative that matches. *)
Definition day_group (s : string) : option (Z * string) :=
  match s with
  | String a r1 =>
      let two :=
        match r1 with
        | String b r2 =>
            match digit a, digit b with
            | Some x, Some y =>
                if ((x =? 3) && (y <=? 1))%Z then Some ((30 + y)%Z, r2)
                else if ((x =? 1) || (x =? 2))%Z then Some ((10 * x + y)%Z, r2)
                else if ((x =? 0) && (1 <=? y))%Z then Some (y, r2)
                else None
            | _, _ => None
            end
        | EmptyString => None
        end in
      match two with
      | Some r => Some r
      | None =>
          match digit a with
          | Some x => if (1 <=? x)%Z then Some (x, r1) else None
          | None =>
              if Ascii.eqb a " " then
                match r1 with
                | String b r2 =>
                    match digit b with
                    | Some y => if (1 <=? y)%Z then Some (y, r2) else None
                    | None => None
                    end
                | EmptyString => None
                end
              else None
          end
      end
  | EmptyString => None
  end.

(** The month alternative the match settles on: the first one after
    which a dash and a day follow. *)
Fixpoint first_month_day (alts : list (Z * string)) : option (Z * Z * string) :=
  match alts with
  | [] => None
  | (m, String "-" r) :: alts' =>
      match day_group r with
      | Some (d, rest) => Some (m, d, rest)
      | None => first_month_day alts'
      end
  | _ :: alts' => first_month_day alts'
  end.

(** [datetime.strptime(s, "%Y-%m-%d")] on a [str]: [None] stands for
    [ValueError] (no match, unconverted data, or no such day). *)
Definition strptime_ymd (s : string) : option datetime :=
  match s with
  | String a (String b (String c (String d (String "-" r)))) =>
      match digit a, digit b, digit c, digit d with
      | Some y3, Some y2, Some y1, Some y0 =>
          let y := (((y3 * 10 + y2) * 10 + y1) * 10 + y0)%Z in
          match first_month_day (month_alternatives r) with
          | Some (m, dd, EmptyString) =>
              if ((1 <=? y) && (dd <=? days_in_month y m))%Z
              then Some (mk_datetime y m dd 0 0 0 0)
              else None
          | _ => None
          end
      | _, _, _, _ => None
      end
  | _ => None
  end.

(** [datetime.strptime(x, "%Y-%m-%d")] on any object. *)
Definition strptime (x : pyval) : Res datetime :=
  match x with
  | PStr s =>
      match strptime_ymd s with
      | Some d => Ok d
      | None => Raise (ValueError "time data does not match format")
      end
  | _ => Raise (TypeError "strptime() argument 1 must be str")
  end.

Definition digit_char (z : Z) : ascii := ascii_of_N (48 + Z.to_N (z mod 10)).

(** [z] written with [width] decimal digits, zero padded. *)
Fixpoint pad (width : nat) (z : Z) : string :=
  match width with
  | O => EmptyString
  | S w => pad w (z / 10) ++ String (digit_char z) EmptyString
  end.

Definition format_date (d : datetime) : string :=
  pad 4 (year d) ++ "-" ++ pad 2 (month d) ++ "-" ++ pad 2 (day d).

(** [strftime("%Y-%m-%d %H:%M")]. *)
Definition strftime_minutes (d : datetime) : string :=
  format_date d ++ " " ++ pad 2 (hour d) ++ ":" ++ pad 2 (minute d).

(** [isoformat()]: the fraction is written only when it is not zero. *)
Definition isoformat (d : datetime) : string :=
  format_date d ++ "T" ++ pad 2 (hour d) ++ ":" ++ pad 2 (minute d)
    ++ ":" ++ pad 2 (second d)
    ++ (if (microsecond d =? 0)%Z then "" else "." ++ pad 6 (microsecond d)).

(** *** The records *)

(** The three concrete classes.  [text] and [timestamp] are set by
    [FeedRecord.__init__]; the other fields hold whatever object the
    caller passed. *)
Inductive FeedRecord : Type :=
| NewsRecord (text : string) (timestamp : datetime) (city : pyval)
| PrivateAdRecord (text : string) (timestamp : datetime)
    (expiration_date_str : pyval) (expiration_date : option datetime)
    (days_left : Z)
| WeatherAlertRecord (text : string) (timestamp : datetime)
    (severity location : pyval) (alert_id : string).

Definition record_text (r : FeedRecord) : string :=
  match r with
  | NewsRecord t _ _ => t
  | PrivateAdRecord t _ _ _ _ => t
  | WeatherAlertRecord t _ _ _ _ => t
  end.

Definition record_timestamp (r : FeedRecord) : datetime :=
  match r with
  | NewsRecord _ ts _ => ts
  | PrivateAdRecord _ ts _ _ _ => ts
  | WeatherAlertRecord _ ts _ _ _ => ts
  end.

(** [days_left] of a private ad ([None] for the other classes, which
    have no such attribute). *)
Definition record_days_left (r : FeedRecord) : option Z :=
  match r with
  | PrivateAdRecord _ _ _ _ d => Some d
  | _ => None
  end.

Definition get_record_type_name (r : FeedRecord) : string :=
  match r with
  | NewsRecord _ _ _ => "News"
  | PrivateAdRecord _ _ _ _ _ => "Private Ad"
  | WeatherAlertRecord _ _ _ _ _ => "Weather Alert"
  end.

Definition get_duplicate_check_fields (r : FeedRecord) : list string :=
  match r with
  | NewsRecord _ _ _ => ["text"; "city"]
  | PrivateAdRecord _ _ _ _ _ => ["text"; "expiration_date"]
  | WeatherAlertRecord _ _ _ _ _ => ["text"; "severity"; "location"]
  end.

(** *** The store *)

(** A stored row: the rowid, the bound columns, and [created_at]. *)
Record db_row := mk_row {
  row_id : Z;
  row_data : dict;
  row_created_at : string
}.

Record table := mk_table {
  rows : list db_row;
  autoincrement : Z;
  not_null : list string
}.

(** Tables by name. *)
Definition Database : Type := list (string * table).

Definition table_schemas : list (string * (string * list string)) :=
  [ ("news", ("news_records", ["text"; "city"; "timestamp"; "content_hash"]));
    ("private_ad", ("private_ad_records",
       ["text"; "expiration_date"; "timestamp"; "content_hash"]));
    ("weather_alert", ("weather_alert_records",
       ["text"; "severity"; "location"; "alert_id"; "timestamp"; "content_hash"])) ].

(** [initialize_database] on a fresh file: [CREATE TABLE IF NOT EXISTS]
    for each schema. *)
Definition initialize_database : Database :=
  map (fun s => (fst (snd s), mk_table [] 0 (snd (snd s)))) table_schemas.

Fixpoint set_table (name : string) (t : table) (db : Database) : Database :=
  match db with
  | [] => []
  | (n, t') :: db' =>
      if String.eqb n name then (n, t) :: db' else (n, t') :: set_table name t db'
  end.

(** *** What the program prints *)

Inductive Printed : Type :=
| MultipleFormat (n : nat)
| RecordProcessed (i : nat) (record_type : string)
| RecordError (i : nat) (e : exn)
| SingleFormat
| SingleProcessed (record_type : string)
| SingleError (e : exn)
| DuplicateCheckError (e : exn)
| DuplicateDetected (type_name : string)
| RecordSaved (type_name : string) (record_id : Z)
| IntegrityDuplicate (e : exn)
| SaveError (e : exn)
| NotSavedToDatabase
| PublishedToFile
| PublishError (e : exn)
| Prompt (msg : string)
| Line (msg : string).

(** *** The world the program runs in *)

Record World := mk_world {
  clock : nat -> datetime;       (* what [datetime.now()] answers, call by call *)
  ticks : nat;                   (* calls of [datetime.now()] so far *)
  rng : nat -> nat;              (* the random source, draw by draw *)
  draws : nat;                   (* draws so far *)
  sqlite_clock : nat -> string;  (* [CURRENT_TIMESTAMP] at each tick *)
  stdin : list string;           (* the lines [input()] will read *)
  stdout : list Printed;         (* printed so far, oldest first *)
  output_file : string;          (* the content of the news feed file *)
  database : Database
}.

Definition set_ticks (n : nat) (w : World) : World :=
  mk_world (clock w) n (rng w) (draws w) (sqlite_clock w) (stdin w)
           (stdout w) (output_file w) (database w).
Definition set_draws (n : nat) (w : World) : World :=
  mk_world (clock w) (ticks w) (rng w) n (sqlite_clock w) (stdin w)
           (stdout w) (output_file w) (database w).
Definition set_stdin (l : list string) (w : World) : World :=
  mk_world (clock w) (ticks w) (rng w) (draws w) (sqlite_clock w) l
           (stdout w) (output_file w) (database w).
Definition set_stdout (l : list Printed) (w : World) : World :=
  mk_world (clock w) (ticks w) (rng w) (draws w) (sqlite_clock w) (stdin w)
           l (output_file w) (database w).
Definition set_output_file (s : string) (w : World) : World :=
  mk_world (clock w) (ticks w) (rng w) (draws w) (sqlite_clock w) (stdin w)
           (stdout w) s (database w).
Definition set_database (d : Database) (w : World) : World :=
  mk_world (clock w) (ticks w) (rng w) (draws w) (sqlite_clock w) (stdin w)
           (stdout w) (output_file w) d.

(** *** Computations: a state that survives a raised exception *)

Definition M (S A : Type) : Type := S -> Res A * S.

Definition ret {S A : Type} (a : A) : M S A := fun s => (Ok a, s).

Definition raise {S A : Type} (e : exn) : M S A := fun s => (Raise e, s).

Definition bind {S A B : Type} (m : M S A) (k : A -> M S B) : M S B :=
  fun s =>
    match m s with
    | (Ok a, s') => k a s'
    | (Raise e, s') => (Raise e, s')
    end.

(** [try: m  except Exception as e: h e]. *)
Definition try_except {S A : Type} (m : M S A) (h : exn -> M S A) : M S A :=
  fun s =>
    match m s with
    | (Ok a, s') => (Ok a, s')
    | (Raise e, s') => h e s'
    end.

Definition lift {S A : Type} (r : Res A) : M S A := fun s => (r, s).

Declare Scope py_scope.
Delimit Scope py_scope with py.
Notation "'let*' x ':=' m 'in' k" := (bind m (fun x => k))
  (at level 10, x name, m at level 100, k at level 200) : py_scope.
Notation "m ';;' k" := (bind m (fun _ => k))
  (at level 100, k at level 200, right associativity) : py_scope.
Local Open Scope py_scope.

(** A record that is being worked on, with the world around it: a method
    may change both. *)
Definition Obj : Type := FeedRecord * World.

Definition in_world {A : Type} (m : M World A) : M Obj A :=
  fun '(r, w) => let '(a, w') := m w in (a, (r, w')).

Definition self : M Obj FeedRecord := fun '(r, w) => (Ok r, (r, w)).

Definition set_self (r : FeedRecord) : M Obj unit := fun '(_, w) => (Ok tt, (r, w)).

Definition datetime_now : M World datetime :=
  fun w => (Ok (clock w (ticks w)), set_ticks (S (ticks w)) w).

Definition print (p : Printed) : M World unit :=
  fun w => (Ok tt, set_stdout (stdout w ++ [p]) w).

(** [input(prompt)]: the prompt is written, the next line is read;
    [EOFError] when there is none. *)
Definition input (prompt : string) : M World string :=
  fun w =>
    let w1 := set_stdout (stdout w ++ [Prompt prompt]) w in
    match stdin w with
    | [] => (Raise EOFError, w1)
    | l :: rest => (Ok l, set_stdin rest w1)
    end.

(** [while cond: body], for a loop whose body reads one line with
    [input()]: [step] tests the condition and runs the body, answering
    whether the loop goes on.  [n] is the number of lines left on
    [stdin] when the loop starts; the loop cannot turn more often. *)
Fixpoint while_input (n : nat) (step : M Obj bool) : M Obj unit :=
  let* again := step in
  if again then
    match n with
    | O => raise EOFError
    | S n' => while_input n' step
    end
  else ret tt.

Definition lines_left : M Obj nat := fun '(r, w) => (Ok (length (stdin w)), (r, w)).

(** [z] in decimal, as [str(int)] writes it. *)
Fixpoint decimal_digits (fuel : nat) (z : Z) : string :=
  match fuel with
  | O => EmptyString
  | S f =>
      (if (z <? 10)%Z then EmptyString else decimal_digits f (z / 10))
        ++ String (digit_char z) EmptyString
  end.

Definition decimal (z : Z) : string :=
  if (z <? 0)%Z then "-" ++ decimal_digits (S (Z.to_nat (Z.log2 (- z)))) (- z)
  else decimal_digits (S (Z.to_nat (Z.log2 z))) z.

Section Library.

(** What the standard library computes and this development does not
    look into: [hashlib.sha256(s.encode('utf-8')).hexdigest()], [str(x)]
    for an object that is not a [str], and [str.title]. *)
Variable sha256_hexdigest : string -> string.
Variable str_of : pyval -> string.
Variable title : string -> string.

(** [str(x)], also what an f-string writes for [x]. *)
Definition py_str (x : pyval) : string :=
  match x with
  | PStr s => s
  | PInt z => decimal z
  | _ => str_of x
  end.

(** **** Construction *)

(** [FeedRecord.__init__]: the stripped text and the capture time. *)
Definition FeedRecord_init (text : pyval) : M World (string * datetime) :=
  let* t := lift (py_strip text) in
  let* ts := datetime_now in
  ret (t, ts).

Definition NewsRecord_init (text city : pyval) : M World FeedRecord :=
  let* base := FeedRecord_init text in
  ret (NewsRecord (fst base) (snd base) city).

Definition PrivateAdRecord_init (text expiration_date : pyval) : M World FeedRecord :=
  let* base := FeedRecord_init text in
  ret (PrivateAdRecord (fst base) (snd base) expiration_date None 0).

Definition alphabet : list ascii :=
  list_ascii_of_string "ABCDEFGHIJKLMNOPQRSTUVWXYZ0123456789".

Definition random_choice : M World ascii :=
  fun w => (Ok (nth (rng w (draws w) mod 36) alphabet "A"%char),
            set_draws (S (draws w)) w).

Definition _generate_alert_id : M World string :=
  let* a := random_choice in
  let* b := random_choice in
  let* c := random_choice in
  let* d := random_choice in
  ret ("WA-" ++ string_of_list_ascii [a; b; c; d])%string.

Definition WeatherAlertRecord_init (text severity location : pyval)
    : M World FeedRecord :=
  let* base := FeedRecord_init text in
  let* alert_id := _generate_alert_id in
  ret (WeatherAlertRecord (fst base) (snd base) severity location alert_id).

(** **** Content hash and database data *)

(** The loop of [generate_content_hash]: the fields that are keys of
    [db_data], written one after the other. *)
Definition hash_content (check_fields : list string) (db_data : dict) : string :=
  fold_left
    (fun acc field =>
       match lookup field db_data with
       | Some v => (acc ++ py_str v)%string
       | None => acc
       end)
    check_fields "".

(** [except ValueError: pass]. *)
Definition pass_ValueError (m : M Obj unit) : M Obj unit :=
  try_except m (fun e => match e with ValueError _ => ret tt | _ => raise e end).

(** The two assignments under [try] in [PrivateAdRecord]: parse the
    expiration date, then count the days from now. *)
Definition parse_expiration_date : M Obj unit :=
  let* r := self in
  match r with
  | PrivateAdRecord t ts s _ dl =>
      let* e := lift (strptime s) in
      set_self (PrivateAdRecord t ts s (Some e) dl) ;;
      let* now := in_world datetime_now in
      set_self (PrivateAdRecord t ts s (Some e) (timedelta_days e now))
  | _ => ret tt
  end.

(** The head of [PrivateAdRecord.get_database_data]:
    [if self.expiration_date is None and self.expiration_date_str]. *)
Definition ensure_expiration_date : M Obj unit :=
  let* r := self in
  match r with
  | PrivateAdRecord _ _ s None _ =>
      if truthy s then pass_ValueError parse_expiration_date else ret tt
  | _ => ret tt
  end.

(** [generate_content_hash] asks [get_database_data] for the dictionary,
    and [get_database_data] asks [generate_content_hash] for its
    ['content_hash'] entry.  [depth] is the number of nested calls the
    interpreter still allows; a call beyond it raises [RecursionError]. *)
Fixpoint generate_content_hash (depth : nat) : M Obj string :=
  match depth with
  | O => raise RecursionError
  | S d =>
      let* r := self in
      let check_fields := get_duplicate_check_fields r in
      let* db_data := get_database_data d in
      ret (sha256_hexdigest (hash_content check_fields db_data))
  end
with get_database_data (depth : nat) : M Obj dict :=
  match depth with
  | O => raise RecursionError
  | S d =>
      ensure_expiration_date ;;
      let* r := self in
      match r with
      | NewsRecord t ts city =>
          let* h := generate_content_hash d in
          ret [("text", PStr t); ("city", city);
               ("timestamp", PStr (isoformat ts)); ("content_hash", PStr h)]
      | PrivateAdRecord t ts s _ dl =>
          let* h := generate_content_hash d in
          ret [("text", PStr t); ("expiration_date", s); ("days_left", PInt dl);
               ("timestamp", PStr (isoformat ts)); ("content_hash", PStr h)]
      | WeatherAlertRecord t ts sev loc aid =>
          let* h := generate_content_hash d in
          ret [("text", PStr t); ("severity", sev); ("location", loc);
               ("alert_id", PStr aid); ("timestamp", PStr (isoformat ts));
               ("content_hash", PStr h)]
      end
  end.

(** **** Interactive completion of a record *)

Definition record_city (r : FeedRecord) : pyval :=
  match r with NewsRecord _ _ c => c | _ => PNone end.
Definition record_severity (r : FeedRecord) : pyval :=
  match r with WeatherAlertRecord _ _ s _ _ => s | _ => PNone end.
Definition record_location (r : FeedRecord) : pyval :=
  match r with WeatherAlertRecord _ _ _ l _ => l | _ => PNone end.

Definition set_city (c : pyval) : M Obj unit :=
  let* r := self in
  match r with
  | NewsRecord t ts _ => set_self (NewsRecord t ts c)
  | _ => ret tt
  end.

Definition set_expiration_date_str (s : pyval) : M Obj unit :=
  let* r := self in
  match r with
  | PrivateAdRecord t ts _ e dl => set_self (PrivateAdRecord t ts s e dl)
  | _ => ret tt
  end.

Definition set_severity (s : pyval) : M Obj unit :=
  let* r := self in
  match r with
  | WeatherAlertRecord t ts _ l a => set_self (WeatherAlertRecord t ts s l a)
  | _ => ret tt
  end.

Definition set_location (l : pyval) : M Obj unit :=
  let* r := self in
  match r with
  | WeatherAlertRecord t ts s _ a => set_self (WeatherAlertRecord t ts s l a)
  | _ => ret tt
  end.

(** [self.<field> = input(prompt).strip()], then
    [while not self.<field>: print(complaint); self.<field> = input(prompt).strip()]. *)
Definition input_until_given (prompt complaint : string)
    (get : FeedRecord -> pyval) (set : pyval -> M Obj unit) : M Obj unit :=
  let* x := in_world (input prompt) in
  set (PStr (Str.strip x)) ;;
  let* n := lines_left in
  while_input n
    (let* r := self in
     if negb (truthy (get r)) then
       in_world (print (Line complaint)) ;;
       let* y := in_world (input prompt) in
       set (PStr (Str.strip y)) ;;
       ret true
     else ret false).

Definition NewsRecord_get_user_input : M Obj unit :=
  let* r := self in
  if negb (truthy (record_city r)) then
    input_until_given "Enter city where news happened: " "City cannot be empty!"
      record_city set_city
  else ret tt.

Definition PrivateAdRecord_get_user_input : M Obj unit :=
  let* r := self in
  match r with
  | PrivateAdRecord _ _ s _ _ =>
      if negb (truthy s) then
        let* n := lines_left in
        while_input n
          (let* x := in_world (input "Enter expiration date (YYYY-MM-DD): ") in
           set_expiration_date_str (PStr (Str.strip x)) ;;
           try_except (parse_expiration_date ;; ret false)
             (fun e =>
                match e with
                | ValueError _ =>
                    in_world (print (Line
                      "Invalid date format. Please use YYYY-MM-DD format.")) ;;
                    ret true
                | _ => raise e
                end))
      else
        try_except parse_expiration_date
          (fun e =>
             match e with
             | ValueError _ =>
                 raise (ValueError
                   ("Invalid expiration date format: " ++ py_str s)%string)
             | _ => raise e
             end)
  | _ => ret tt
  end.

Definition severity_options : list string := ["Low"; "Medium"; "High"; "Critical"].

Definition WeatherAlertRecord_get_user_input : M Obj unit :=
  let* r := self in
  (if negb (truthy (record_severity r)) then
     in_world (print (Line
       "Available severity levels: Low, Medium, High, Critical")) ;;
     let* n := lines_left in
     while_input n
       (let* x := in_world (input "Enter alert severity level: ") in
        let s := title (Str.strip x) in
        set_severity (PStr s) ;;
        if existsb (String.eqb s) severity_options then ret false
        else
          in_world (print (Line
            "Invalid severity. Please choose from: Low, Medium, High, Critical")) ;;
          ret true)
   else ret tt) ;;
  let* r' := self in
  if negb (truthy (record_location r')) then
    input_until_given "Enter location for weather alert: "
      "Location cannot be empty!" record_location set_location
  else ret tt.

Definition get_user_input : M Obj unit :=
  let* r := self in
  match r with
  | NewsRecord _ _ _ => NewsRecord_get_user_input
  | PrivateAdRecord _ _ _ _ _ => PrivateAdRecord_get_user_input
  | WeatherAlertRecord _ _ _ _ _ => WeatherAlertRecord_get_user_input
  end.

(** **** Rendering *)

Definition newline : string := String "010"%char EmptyString.

Definition format_for_publication : M Obj string :=
  let* r := self in
  match r with
  | NewsRecord t ts city =>
      ret ("News -------------------------" ++ newline
           ++ t ++ newline
           ++ py_str city ++ ", " ++ strftime_minutes ts ++ newline ++ newline)%string
  | PrivateAdRecord _ _ _ e _ =>
      (match e with None => get_user_input | Some _ => ret tt end) ;;
      let* r' := self in
      match r' with
      | PrivateAdRecord t _ s _ dl =>
          ret ("Private Ad -------------------" ++ newline
               ++ t ++ newline
               ++ "Actual until: " ++ py_str s ++ ", " ++ decimal dl
               ++ " days left" ++ newline ++ newline)%string
      | _ => ret EmptyString
      end
  | WeatherAlertRecord _ _ sev loc _ =>
      (if negb (truthy sev) || negb (truthy loc) then get_user_input else ret tt) ;;
      let* r' := self in
      match r' with
      | WeatherAlertRecord t ts sev' loc' aid =>
          ret ("Weather Alert ----------------" ++ newline
               ++ "Alert ID: " ++ aid ++ newline
               ++ "Severity: " ++ py_str sev' ++ newline
               ++ t ++ newline
               ++ "Location: " ++ py_str loc' ++ ", " ++ strftime_minutes ts
               ++ newline ++ newline)%string
      | _ => ret EmptyString
      end
  end.

(** **** Decoding from JSON *)

Definition NewsRecord_from_json_data (data : pyval) : M World FeedRecord :=
  let* text := lift (py_get data "text" (PStr "")) in
  let* city := lift (py_get data "city" (PStr "")) in
  if negb (truthy text) then
    raise (ValueError "News record requires 'text' field")
  else if negb (truthy city) then
    raise (ValueError "News record requires 'city' field")
  else NewsRecord_init text city.

Definition PrivateAdRecord_from_json_data (data : pyval) : M World FeedRecord :=
  let* text := lift (py_get data "text" (PStr "")) in
  let* expiration_date := lift (py_get data "expiration_date" (PStr "")) in
  if negb (truthy text) then
    raise (ValueError "Private Ad record requires 'text' field")
  else if negb (truthy expiration_date) then
    raise (ValueError "Private Ad record requires 'expiration_date' field")
  else PrivateAdRecord_init text expiration_date.

Definition WeatherAlertRecord_from_json_data (data : pyval) : M World FeedRecord :=
  let* text := lift (py_get data "text" (PStr "")) in
  let* severity := lift (py_get data "severity" (PStr "")) in
  let* location := lift (py_get data "location" (PStr "")) in
  if negb (truthy text) then
    raise (ValueError "Weather Alert record requires 'text' field")
  else if negb (truthy severity) then
    raise (ValueError "Weather Alert record requires 'severity' field")
  else if negb (truthy location) then
    raise (ValueError "Weather Alert record requires 'location' field")
  else WeatherAlertRecord_init text severity location.

(** **** Decoding from XML *)

(** [elem is None or not elem.text] fails; otherwise the text. *)
Definition element_content (elem : option Element) : option string :=
  match elem with
  | Some e =>
      match text e with
      | Some s => if Str.truthy s then Some s else None
      | None => None
      end
  | None => None
  end.

Definition NewsRecord_from_xml_element (element : Element) : M World FeedRecord :=
  match element_content (find element "text") with
  | None => raise (ValueError "News record requires 'text' element with content")
  | Some t =>
      match element_content (find element "city") with
      | None => raise (ValueError "News record requires 'city' element with content")
      | Some c => NewsRecord_init (PStr (Str.strip t)) (PStr (Str.strip c))
      end
  end.

Definition PrivateAdRecord_from_xml_element (element : Element) : M World FeedRecord :=
  match element_content (find element "text") with
  | None =>
      raise (ValueError "Private Ad record requires 'text' element with content")
  | Some t =>
      match element_content (find element "expiration_date") with
      | None =>
          raise (ValueError
            "Private Ad record requires 'expiration_date' element with content")
      | Some d => PrivateAdRecord_init (PStr (Str.strip t)) (PStr (Str.strip d))
      end
  end.

Definition WeatherAlertRecord_from_xml_element (element : Element)
    : M World FeedRecord :=
  match element_content (find element "text") with
  | None =>
      raise (ValueError "Weather Alert record requires 'text' element with content")
  | Some t =>
      match element_content (find element "severity") with
      | None =>
          raise (ValueError
            "Weather Alert record requires 'severity' element with content")
      | Some s =>
          match element_content (find element "location") with
          | None =>
              raise (ValueError
                "Weather Alert record requires 'location' element with content")
          | Some l =>
              WeatherAlertRecord_init (PStr (Str.strip t)) (PStr (Str.strip s))
                (PStr (Str.strip l))
          end
      end
  end.

(** **** The file processors *)

Inductive record_class : Type :=
| NewsRecord_class
| PrivateAdRecord_class
| WeatherAlertRecord_class.

Definition record_type_mapping : list (string * record_class) :=
  [ ("news", NewsRecord_class);
    ("private_ad", PrivateAdRecord_class);
    ("weather_alert", WeatherAlertRecord_class) ].

(** [self.record_type_mapping[record_type]]. *)
Definition mapping_getitem (record_type : string) : Res record_class :=
  match lookup record_type record_type_mapping with
  | Some c => Ok c
  | None => Raise (KeyError record_type)
  end.

Definition from_json_data (cls : record_class) (data : pyval) : M World FeedRecord :=
  match cls with
  | NewsRecord_class => NewsRecord_from_json_data data
  | PrivateAdRecord_class => PrivateAdRecord_from_json_data data
  | WeatherAlertRecord_class => WeatherAlertRecord_from_json_data data
  end.

Definition from_xml_element (cls : record_class) (element : Element)
    : M World FeedRecord :=
  match cls with
  | NewsRecord_class => NewsRecord_from_xml_element element
  | PrivateAdRecord_class => PrivateAdRecord_from_xml_element element
  | WeatherAlertRecord_class => WeatherAlertRecord_from_xml_element element
  end.

(** The statements under [try] for one envelope, up to the record: the
    record and the tag it was built for. *)
Definition json_envelope (record_info : pyval) : M World (FeedRecord * string) :=
  let* t := lift (py_get record_info "type" (PStr "")) in
  let* record_type := lift (py_lower t) in
  let* record_data := lift (py_get record_info "data" (PDict [])) in
  let* record_class := lift (mapping_getitem record_type) in
  let* record := from_json_data record_class record_data in
  ret (record, record_type).

Definition xml_envelope (record_element : Element) : M World (FeedRecord * string) :=
  let record_type := Str.lower (xml_get record_element "type" "") in
  let* record_class := lift (mapping_getitem record_type) in
  let* record := from_xml_element record_class record_element in
  ret (record, record_type).

(** The [for i, x in enumerate(xs, 1)] loop of both processors: each
    element is decoded under its own [try]; a failure is printed and the
    loop goes on. *)
Fixpoint parse_each {X : Type} (envelope : X -> M World (FeedRecord * string))
    (i : nat) (xs : list X) (records : list FeedRecord)
    : M World (list FeedRecord) :=
  match xs with
  | [] => ret records
  | x :: rest =>
      let* records' :=
        try_except
          (let* p := envelope x in
           print (RecordProcessed i (snd p)) ;;
           ret (records ++ [fst p]))
          (fun e => print (RecordError i e) ;; ret records) in
      parse_each envelope (S i) rest records'
  end.

(** The single-record branch of both processors. *)
Definition parse_single {X : Type} (envelope : X -> M World (FeedRecord * string))
    (x : X) : M World (list FeedRecord) :=
  print SingleFormat ;;
  try_except
    (let* p := envelope x in
     print (SingleProcessed (snd p)) ;;
     ret [fst p])
    (fun e => print (SingleError e) ;; ret []).

Definition _parse_json_records (json_data : pyval) : M World (list FeedRecord) :=
  let* has_records := lift (py_contains "records" json_data) in
  if has_records then
    let* entries := lift (py_getitem json_data "records") in
    let* n := lift (py_len entries) in
    print (MultipleFormat n) ;;
    let* xs := lift (py_iter entries) in
    parse_each json_envelope 1 xs []
  else
    let* has_type := lift (py_contains "type" json_data) in
    let* has_data :=
      if has_type then lift (py_contains "data" json_data) else ret false in
    if has_data then parse_single json_envelope json_data
    else raise (ValueError
      "Invalid JSON format. Expected 'records' array or single record with 'type' and 'data'").

Definition _parse_xml_records (root : Element) : M World (list FeedRecord) :=
  if String.eqb (tag root) "records" then
    let record_elements := findall root "record" in
    print (MultipleFormat (length record_elements)) ;;
    parse_each xml_envelope 1 record_elements []
  else if String.eqb (tag root) "record" then parse_single xml_envelope root
  else raise (ValueError
    "Invalid XML format. Expected root element 'records' or 'record'").

(** **** [DatabaseManager] *)

Definition get_table_name_for_record (r : FeedRecord) : string :=
  match r with
  | NewsRecord _ _ _ => "news_records"
  | PrivateAdRecord _ _ _ _ _ => "private_ad_records"
  | WeatherAlertRecord _ _ _ _ _ => "weather_alert_records"
  end.

Definition get_table (table_name : string) : M World table :=
  fun w =>
    match lookup table_name (database w) with
    | Some t => (Ok t, w)
    | None => (Raise (OperationalError "no such table"), w)
    end.

(** The rows whose [content_hash] column holds the text [h]. *)
Definition has_hash (h : string) (row : db_row) : bool :=
  match lookup "content_hash" (row_data row) with
  | Some v => is_PStr h v
  | None => false
  end.

(** [SELECT COUNT( * ) FROM table WHERE content_hash = ?]. *)
Definition count_hash (table_name h : string) : M World nat :=
  let* t := get_table table_name in
  ret (length (filter (has_hash h) (rows t))).

(** What the driver accepts as a parameter of a statement. *)
Definition bind_parameter (v : pyval) : Res unit :=
  match v with
  | PList _ | PDict _ => Raise BindingError
  | PInt z =>
      if ((- 2 ^ 63 <=? z) && (z <? 2 ^ 63))%Z then Ok tt else Raise OverflowError
  | _ => Ok tt
  end.

Fixpoint bind_parameters (values : list pyval) : Res unit :=
  match values with
  | [] => Ok tt
  | v :: rest =>
      match bind_parameter v with
      | Ok _ => bind_parameters rest
      | Raise e => Raise e
      end
  end.

Definition is_null (column : string) (record_data : dict) : bool :=
  match lookup column record_data with
  | Some PNone | None => true
  | Some _ => false
  end.

Definition hash_taken (record_data : dict) (t : table) : bool :=
  match lookup "content_hash" record_data with
  | Some (PStr h) => existsb (has_hash h) (rows t)
  | _ => false
  end.

(** [INSERT INTO table (columns) VALUES (values)], then [commit]: the
    new rowid.  The parameters are bound first; [NOT NULL] and the
    [UNIQUE] constraint on [content_hash] raise [IntegrityError]. *)
Definition insert_row (table_name : string) (record_data : dict) : M World Z :=
  lift (bind_parameters (map snd record_data)) ;;
  let* t := get_table table_name in
  if existsb (fun c => is_null c record_data) (not_null t) then
    raise (IntegrityError "NOT NULL constraint failed")
  else if hash_taken record_data t then
    raise (IntegrityError "UNIQUE constraint failed")
  else
    fun w =>
      let i := (1 + fold_right (fun r m => Z.max (row_id r) m)
                      (autoincrement t) (rows t))%Z in
      let row := mk_row i record_data (sqlite_clock w (ticks w)) in
      (Ok i, set_database
               (set_table table_name
                  (mk_table (rows t ++ [row]) i (not_null t)) (database w)) w).

Definition check_duplicate (depth : nat) : M Obj bool :=
  try_except
    (let* r := self in
     let table_name := get_table_name_for_record r in
     let* content_hash := generate_content_hash depth in
     let* count := in_world (count_hash table_name content_hash) in
     ret (Nat.ltb 0 count))
    (fun e => in_world (print (DuplicateCheckError e)) ;; ret false).

Definition save_record (depth : nat) : M Obj bool :=
  try_except
    (let* duplicate := check_duplicate depth in
     if duplicate then
       let* r := self in
       in_world (print (DuplicateDetected (get_record_type_name r))) ;;
       ret false
     else
       let* r := self in
       let table_name := get_table_name_for_record r in
       let* record_data := get_database_data depth in
       let* record_id := in_world (insert_row table_name record_data) in
       let* r' := self in
       in_world (print (RecordSaved (get_record_type_name r') record_id)) ;;
       ret true)
    (fun e =>
       match e with
       | IntegrityError _ => in_world (print (IntegrityDuplicate e)) ;; ret false
       | _ => in_world (print (SaveError e)) ;; ret false
       end).

(** **** [EnhancedNewsFeedManager] *)

Definition append_to_file (content : string) : M World unit :=
  (fun w => (Ok tt, set_output_file (output_file w ++ content) w)) ;;
  print PublishedToFile.

(** The publisher calls [save_record] of its database manager; [save]
    stands for that method. *)
Definition publish_with (save : M Obj bool) (save_to_database : bool) : M Obj bool :=
  try_except
    (let* go :=
       if save_to_database then
         let* db_success := save in
         if negb db_success then
           in_world (print NotSavedToDatabase) ;;
           ret false
         else ret true
       else ret true in
     if go then
       let* formatted_content := format_for_publication in
       in_world (append_to_file formatted_content) ;;
       ret true
     else ret false)
    (fun e => in_world (print (PublishError e)) ;; ret false).

Definition publish_record (depth : nat) (save_to_database : bool) : M Obj bool :=
  publish_with (save_record depth) save_to_database.

End Library.

(** A world to run examples in: the clock stands at noon of 2024-03-01
    and moves one second per reading; nothing was printed, read or
    stored yet. *)
Definition sample_world : World :=
  mk_world (fun n => mk_datetime 2024 3 1 12 0 (Z.of_nat n mod 60) 0) 0
           (fun n => (7 * n + 3)%nat) 0
           (fun _ => "2024-03-01 11:00:00") [] [] "" initialize_database.

(** *** Vocabulary of the statements *)

(** The part of the world a publication is meant to change. *)
Definition same_store (w w' : World) : Prop :=
  database w' = database w /\ output_file w' = output_file w.

(** [w'] differs from [w] at most by the number of clock readings. *)
Definition only_ticks (w w' : World) : Prop := w' = set_ticks (ticks w') w.

(** What the cycle between [generate_content_hash] and
    [get_database_data] can end in. *)
Definition cycle_error (e : exn) : Prop :=
  e = RecursionError \/ e = TypeError "strptime() argument 1 must be str".

(** An envelope the decoder accepts, or rejects, whatever the clock and
    the random source say; decoding prints nothing. *)
Definition accepted {X : Type} (envelope : X -> M World (FeedRecord * string))
    (x : X) : Prop :=
  forall w, exists r ty w',
    envelope x w = (Ok (r, ty), w') /\ stdout w' = stdout w.

Definition rejected {X : Type} (envelope : X -> M World (FeedRecord * string))
    (x : X) : Prop :=
  forall w, exists e w',
    envelope x w = (Raise e, w') /\ stdout w' = stdout w.

(** [r] is a record the decoder builds from [x]. *)
Definition decodes {X : Type} (envelope : X -> M World (FeedRecord * string))
    (x : X) (r : FeedRecord) : Prop :=
  exists w ty w', envelope x w = (Ok (r, ty), w').

(** [out] reports one processed record for each of the positions
    [i], [i + 1], ... *)
Definition processed_reports (i : nat) (out : list Printed) : Prop :=
  Forall2 (fun j p => exists ty, p = RecordProcessed j ty)
          (seq i (length out)) out.

(** What a processor answers for a collection [pre ++ bad :: post] in
    which [bad] alone is rejected: the records of [pre] and of [post] in
    order, one error report, at the position of [bad] (counted from 1),
    between the reports of the records before and after it. *)
Definition batch_outcome {X : Type} (envelope : X -> M World (FeedRecord * string))
    (pre post : list X) (w : World) (result : Res (list FeedRecord) * World)
    : Prop :=
  exists rs1 rs2 out1 out2 e w',
    result = (Ok (rs1 ++ rs2), w')
    /\ Forall2 (decodes envelope) pre rs1
    /\ Forall2 (decodes envelope) post rs2
    /\ stdout w'
         = stdout w ++ [MultipleFormat (length pre + 1 + length post)]
             ++ out1 ++ [RecordError (S (length pre)) e] ++ out2
    /\ length out1 = length pre /\ processed_reports 1 out1
    /\ length out2 = length post /\ processed_reports (2 + length pre) out2.

Definition supported_tags : list string := ["news"; "private_ad"; "weather_alert"].

(** C7 read to the letter, for a single JSON envelope: a tag that is not
    one of the three supported strings yields no record. *)
Definition unsupported_tag_yields_nothing : Prop :=
  forall (t : string) (data : pyval) (w : World),
    ~ In t supported_tags ->
    fst (_parse_json_records (PDict [("type", PStr t); ("data", data)]) w) = Ok [].

(** [<record type="private_ad"><text>Sale</text>
     <expiration_date>2099-01-01</expiration_date></record>]. *)
Definition ad_2099 : Element :=
  mk_element "record" [("type", "private_ad")] None
    [ mk_element "text" [] (Some "Sale") [];
      mk_element "expiration_date" [] (Some "2099-01-01") [] ].

(** The system date is well before 2099-01-01: every reading of the
    clock is at least one day earlier. *)
Definition well_before_2099 (w : World) : Prop :=
  forall n,
    (to_microseconds (clock w n) + microseconds_per_day
     <= to_microseconds (mk_datetime 2099 1 1 0 0 0 0))%Z.

(** C8 read to the letter: the record the parser returns has a strictly
    positive [days_left]. *)
Definition parsed_ad_has_days_left : Prop :=
  forall w, well_before_2099 w ->
    exists r w', _parse_xml_records ad_2099 w = (Ok [r], w')
      /\ exists d, record_days_left r = Some d /\ (0 < d)%Z.

(** Sample inputs. *)

Definition first_of_2099 : datetime := mk_datetime 2099 1 1 0 0 0 0.

(** The record the XML decoder builds from [ad_2099] at time [ts], and
    the same record once its expiration date was parsed. *)
Definition sale_ad (ts : datetime) : FeedRecord :=
  PrivateAdRecord "Sale" ts (PStr "2099-01-01") None 0.

Definition sale_ad_dated (ts : datetime) (days : Z) : FeedRecord :=
  PrivateAdRecord "Sale" ts (PStr "2099-01-01") (Some first_of_2099) days.

Definition noon : datetime := mk_datetime 2024 3 1 12 0 0 0.

Definition fire_downtown : FeedRecord :=
  NewsRecord "Fire downtown" noon (PStr "Springfield").

(** [{"text": "   ", "city": "Springfield"}]. *)
Definition blank_news_data : pyval :=
  PDict [("text", PStr "   "); ("city", PStr "Springfield")].

(** [<record type="news"><text>   </text><city>Springfield</city></record>]. *)
Definition blank_news_element : Element :=
  mk_element "record" [("type", "news")] None
    [ mk_element "text" [] (Some "   ") [];
      mk_element "city" [] (Some "Springfield") [] ].

(** [{"type": "NEWS", "data": {"text": "Fire downtown", "city": "Springfield"}}]. *)
Definition capital_tag_data : pyval :=
  PDict [("text", PStr "Fire downtown"); ("city", PStr "Springfield")].

(** Stand-ins for the library functions in closed examples. *)
Definition sample_sha256 (s : string) : string := ("sha256:" ++ s)%string.
Definition sample_str (x : pyval) : string := "<object>".
Definition sample_title (s : string) : string := s.

Definition good_json (body : string) : pyval :=
  PDict [("type", PStr "news");
         ("data", PDict [("text", PStr body); ("city", PStr "Springfield")])].

(** [{"type": "video", "data": {"text": "Clip"}}] and
    [<record type="video"><text>Clip</text></record>]. *)
Definition video_json : pyval :=
  PDict [("type", PStr "video"); ("data", PDict [("text", PStr "Clip")])].

Definition video_xml : Element :=
  mk_element "record" [("type", "video")] None
    [ mk_element "text" [] (Some "Clip") [] ].

(** A news envelope without city. *)
Definition bad_json : pyval :=
  PDict [("type", PStr "news"); ("data", PDict [("text", PStr "No city")])].

Definition good_xml (body : string) : Element :=
  mk_element "record" [("type", "news")] None
    [ mk_element "text" [] (Some body) [];
      mk_element "city" [] (Some "Springfield") [] ].

Definition bad_xml : Element :=
  mk_element "record" [("type", "news")] None
    [ mk_element "text" [] (Some "No city") [] ].

(** [{"records": [first, bad, third]}] and
    [<records>first bad third</records>]. *)
Definition sample_json_batch : dict :=
  [("records", PList [good_json "First"; bad_json; good_json "Third"])].

Definition sample_xml_batch : Element :=
  mk_element "records" [] None [good_xml "First"; bad_xml; good_xml "Third"].

End Feed.

(** ** [Final.py]: the console side of the distance calculator *)

Module Cli.

Import Final.

(** The table constraints: names are unique, rowids are unique and none
    exceeds the [AUTOINCREMENT] counter. *)
Definition well_formed (db : database) : Prop :=
  NoDup (map name (cities db))
  /\ NoDup (map id (cities db))
  /\ Forall (fun r => (id r <= sequence db)%Z) (cities db).

(** The test of the [WHERE] clause of [get_city_coordinates]. *)
Definition matches (city_name : string) (r : city_row) : bool :=
  String.eqb (Str.sqlite_lower (name r)) (Str.sqlite_lower city_name).

Section Console.

(** [float(s)], [None] standing for [ValueError]; the great-circle
    formula, whose trigonometry is not looked into; and what
    [CURRENT_TIMESTAMP] answers.  What is printed is not modelled; the
    console is the list of lines [input()] has still to read. *)
Variable float_of_string : string -> option float.
Variable haversine_distance : float -> float -> float -> float -> float.
Variable now : string.

(** One of the two [while True] loops of
    [get_city_coordinates_from_user]: lines are read until one, stripped,
    is not empty, converts to a float and is within range.  [None] when
    the input ends first ([EOFError]). *)
Fixpoint read_coordinate (valid : float -> bool) (lines : list string)
    : option float * list string :=
  match lines with
  | [] => (None, [])
  | l :: rest =>
      let s := Str.strip l in
      if negb (Str.truthy s) then read_coordinate valid rest
      else
        match float_of_string s with
        | Some f => if valid f then (Some f, rest) else read_coordinate valid rest
        | None => read_coordinate valid rest
        end
  end.

(** [get_city_coordinates_from_user]: latitude, longitude and country
    are read, the row is saved; any exception ends in [None]. *)
Definition get_city_coordinates_from_user (db : database) (city_name : string)
    (lines : list string) : option (float * float) * database * list string :=
  match read_coordinate valid_latitude lines with
  | (None, rest) => (None, db, rest)
  | (Some latitude, rest1) =>
      match read_coordinate valid_longitude rest1 with
      | (None, rest) => (None, db, rest)
      | (Some longitude, rest2) =>
          match rest2 with
          | [] => (None, db, [])
          | l :: rest3 =>
              let country := Str.strip l in
              let (db', saved) :=
                save_city_coordinates now db city_name latitude longitude country in
              if saved then (Some (latitude, longitude), db', rest3)
              else (None, db', rest3)
          end
      end
  end.

(** The coordinates of one city for [calculate_distance_between_cities]:
    from the table, else from the user. *)
Definition coordinates_of (db : database) (city : string) (lines : list string)
    : option (float * float) * database * list string :=
  match get_city_coordinates db city with
  | Some coords => (Some coords, db, lines)
  | None => get_city_coordinates_from_user db city lines
  end.

Definition calculate_distance_between_cities (db : database) (city1 city2 : string)
    (lines : list string) : option float * database * list string :=
  match coordinates_of db city1 lines with
  | (None, db1, rest1) => (None, db1, rest1)
  | (Some coords1, db1, rest1) =>
      match coordinates_of db1 city2 rest1 with
      | (None, db2, rest2) => (None, db2, rest2)
      | (Some coords2, db2, rest2) =>
          (Some (haversine_distance (fst coords1) (snd coords1)
                                    (fst coords2) (snd coords2)), db2, rest2)
      end
  end.

(** How [handle_distance_calculation] ends. *)
Inductive handled : Type :=
| EmptyCityName
| SameCity
| DistanceShown (distance : float)
| CalculationFailed
| InputEnded.

Definition handle_distance_calculation (db : database) (lines : list string)
    : handled * database * list string :=
  match lines with
  | [] => (InputEnded, db, [])
  | l1 :: rest1 =>
      let city1 := Str.strip l1 in
      if negb (Str.truthy city1) then (EmptyCityName, db, rest1)
      else
        match rest1 with
        | [] => (InputEnded, db, [])
        | l2 :: rest2 =>
            let city2 := Str.strip l2 in
            if negb (Str.truthy city2) then (EmptyCityName, db, rest2)
            else if String.eqb (Str.lower city1) (Str.lower city2)
            then (SameCity, db, rest2)
            else
              match calculate_distance_between_cities db city1 city2 rest2 with
              | (Some distance, db', rest) => (DistanceShown distance, db', rest)
              | (None, db', rest) => (CalculationFailed, db', rest)
              end
        end
  end.

End Console.

(** Stand-ins for closed examples: [float] knows four spellings. *)
Definition sample_float (s : string) : option float :=
  if String.eqb s "48.2" then Some 48.2%float
  else if String.eqb s "16.37" then Some 16.37%float
  else if String.eqb s "123" then Some 123%float
  else if String.eqb s "-0" then Some (-0)%float
  else None.

Definition sample_haversine (lat1 lon1 lat2 lon2 : float) : float := 0%float.

(** A table in which Vienna is stored under two spellings. *)
Definition two_viennas : database :=
  mk_db [ mk_city 1 "VIENNA" 1%float 2%float "" "2024-03-01 10:00:00";
          mk_city 2 "Vienna" 3%float 4%float "" "2024-03-01 10:30:00" ] 2.

End Cli.

(** ** [HomeTask10.py]: counting, clearing and publishing in bulk *)

Module FeedMore.

Import Feed.
Local Open Scope py_scope.

(** The tick and the cross that open some printed lines, U+2713 and
    U+2717, lie outside the code points of [string]; they are written
    as the three bytes of their UTF-8 form. *)
Definition tick : string :=
  String "226"%char (String "156"%char (String "147"%char EmptyString)).
Definition cross : string :=
  String "226"%char (String "156"%char (String "151"%char EmptyString)).

(** [rows] of a table counted, [SELECT COUNT( * ) FROM table]. *)
Definition count_rows (table_name : string) : M World nat :=
  let* t := get_table table_name in
  ret (length (rows t)).

(** [for rec_type, table_info in self.table_schemas.items(): ...]. *)
Fixpoint count_each (schemas : list (string * (string * list string)))
    : M World (list (string * nat)) :=
  match schemas with
  | [] => ret []
  | (rec_type, (table_name, _)) :: rest =>
      let* n := count_rows table_name in
      let* counts := count_each rest in
      ret ((rec_type, n) :: counts)
  end.

(** [DELETE FROM table] for every table, within one transaction: when a
    statement fails, the ones before it are rolled back. *)
Fixpoint delete_each (schemas : list (string * (string * list string)))
    (db : Database) : Res Database :=
  match schemas with
  | [] => Ok db
  | (_, (table_name, _)) :: rest =>
      match lookup table_name db with
      | Some t =>
          delete_each rest
            (set_table table_name (mk_table [] (autoincrement t) (not_null t)) db)
      | None => Raise (OperationalError "no such table")
      end
  end.

Section Library.

(** [str(e)] for an exception, with the library functions of [Feed]. *)
Variable str_of_exn : exn -> string.
Variable sha256_hexdigest : string -> string.
Variable str_of : pyval -> string.
Variable title : string -> string.

(** [get_record_count(record_type)]: the count of one table when the
    type is a key of the schemas, of every table otherwise. *)
Definition get_record_count (record_type : option string)
    : M World (list (string * nat)) :=
  try_except
    (match record_type with
     | Some t =>
         match (if Str.truthy t then lookup t table_schemas else None) with
         | Some (table_name, _) =>
             let* n := count_rows table_name in
             ret [(t, n)]
         | None => count_each table_schemas
         end
     | None => count_each table_schemas
     end)
    (fun e =>
       print (Line ("Error getting record counts: " ++ str_of_exn e)%string) ;;
       ret []).

(** [clear_all_records]. *)
Definition clear_all_records : M World bool :=
  try_except
    ((fun w =>
        match delete_each table_schemas (database w) with
        | Ok db => (Ok tt, set_database db w)
        | Raise e => (Raise e, w)
        end) ;;
     print (Line "All database records cleared successfully") ;;
     ret true)
    (fun e =>
       print (Line ("Error clearing database records: " ++ str_of_exn e)%string) ;;
       ret false).

(** A method called on one record of a list: the world goes on, the
    record stays with the list. *)
Definition on_record {A : Type} (record : FeedRecord) (m : M Obj A) : M World A :=
  fun w => let '(a, (_, w')) := m (record, w) in (a, w').

(** The [for i, record in enumerate(records, 1)] loop of
    [_process_file_records], with its two counters. *)
Fixpoint publish_each (depth : nat) (save_to_database : bool) (i : nat)
    (records : list FeedRecord) (published_count skipped_count : nat)
    : M World (nat * nat) :=
  match records with
  | [] => ret (published_count, skipped_count)
  | record :: rest =>
      let* counts :=
        try_except
          (let* published :=
             on_record record
               (publish_record sha256_hexdigest str_of title depth save_to_database) in
           if published then
             print (Line ("  " ++ tick ++ " Record " ++ decimal (Z.of_nat i)
                          ++ " published successfully")%string) ;;
             ret (S published_count, skipped_count)
           else
             print (Line ("  - Record " ++ decimal (Z.of_nat i)
                          ++ " skipped (duplicate)")%string) ;;
             ret (published_count, S skipped_count))
          (fun e =>
             print (Line ("  " ++ cross ++ " Error publishing record "
                          ++ decimal (Z.of_nat i) ++ ": " ++ str_of_exn e)%string) ;;
             ret (published_count, skipped_count)) in
      publish_each depth save_to_database (S i) rest (fst counts) (snd counts)
  end.

Definition count_line (label : string) (count total : nat) : string :=
  (label ++ decimal (Z.of_nat count) ++ "/" ++ decimal (Z.of_nat total)
   ++ " records")%string.

(** [_process_file_records(records, processor)];
    [cleanup_processed_files] is the method of the processor passed. *)
Definition _process_file_records (depth : nat) (records : list FeedRecord)
    (cleanup_processed_files : M World unit) : M World unit :=
  try_except
    (match records with
     | [] => print (Line "No records to publish.")
     | _ :: _ =>
         let* answer := input "Save records to database? (y/n, default: y): " in
         let save_to_database :=
           negb (String.eqb (Str.lower (Str.strip answer)) "n") in
         print (Line ("" ++ newline ++ "Publishing "
                      ++ decimal (Z.of_nat (length records)) ++ " records...")%string) ;;
         let* counts := publish_each depth save_to_database 1 records 0 0 in
         print (Line ("" ++ newline ++ "Publication completed:")%string) ;;
         print (Line (count_line "  - Published: " (fst counts) (length records))) ;;
         print (Line (count_line "  - Skipped (duplicates): " (snd counts)
                        (length records))) ;;
         let* cleanup_choice :=
           input ("" ++ newline ++ "Remove processed file? (y/n): ")%string in
         if String.eqb (Str.lower (Str.strip cleanup_choice)) "y"
         then cleanup_processed_files
         else ret tt
     end)
    (fun e =>
       print (Line ("Error processing file records: " ++ str_of_exn e)%string)).

End Library.

(** *** Vocabulary of the statements *)

(** What a record keeps for life: its class, its text, its capture time
    and, for a weather alert, its identifier. *)
Definition same_identity (r r' : FeedRecord) : Prop :=
  match r, r' with
  | NewsRecord t ts _, NewsRecord t' ts' _ => t' = t /\ ts' = ts
  | PrivateAdRecord t ts _ _ _, PrivateAdRecord t' ts' _ _ _ => t' = t /\ ts' = ts
  | WeatherAlertRecord t ts _ _ a, WeatherAlertRecord t' ts' _ _ a' =>
      t' = t /\ ts' = ts /\ a' = a
  | _, _ => False
  end.

(** Every run of [m] takes an object to one that [R] relates to it. *)
Definition preserves {A : Type} (R : Obj -> Obj -> Prop) (m : M Obj A) : Prop :=
  forall o res o', m o = (res, o') -> R o o'.

(** Two objects whose records are related by [Rr] and whose worlds are
    related by [Rw]. *)
Definition related (Rr : FeedRecord -> FeedRecord -> Prop)
    (Rw : World -> World -> Prop) (o o' : Obj) : Prop :=
  Rr (fst o) (fst o') /\ Rw (snd o) (snd o').

Definition any_record (r r' : FeedRecord) : Prop := True.
Definition any_world (w w' : World) : Prop := True.

(** The same, for a computation on the world alone. *)
Definition keeps {A : Type} (R : World -> World -> Prop) (m : M World A) : Prop :=
  forall w res w', m w = (res, w') -> R w w'.

(** A record that [format_for_publication] can render without asking:
    a private ad with a date text or a parsed date, a weather alert with
    severity and location. *)
Definition needs_no_input (r : FeedRecord) : bool :=
  match r with
  | NewsRecord _ _ _ => true
  | PrivateAdRecord _ _ s e _ =>
      match e with Some _ => true | None => truthy s end
  | WeatherAlertRecord _ _ sev loc _ => truthy sev && truthy loc
  end.

(** What decoding one envelope does to the world when it succeeds with
    record [r]: the clock was read once, for the timestamp of [r];
    nothing was printed, read, stored or appended; the random source was
    drawn from four times for a weather alert and not at all otherwise. *)
Definition decoded (r : FeedRecord) (w w' : World) : Prop :=
  record_timestamp r = clock w (ticks w)
  /\ ticks w' = S (ticks w)
  /\ stdout w' = stdout w /\ stdin w' = stdin w
  /\ database w' = database w /\ output_file w' = output_file w
  /\ draws w' = (match r with WeatherAlertRecord _ _ _ _ _ => 4 | _ => 0 end
                 + draws w)%nat.

(** What one decoder call can do: fail and leave the world as it was,
    or build a record with stripped text in a world that [decoded]
    describes.  [record_of] picks the record out of the result. *)
Definition decode_outcome {A : Type} (record_of : A -> FeedRecord) (w : World)
    (run : Res A * World) : Prop :=
  match run with
  | (Raise _, w') => w' = w
  | (Ok a, w') =>
      decoded (record_of a) w w'
      /\ Str.strip (record_text (record_of a)) = record_text (record_of a)
  end.

(** The record itself, where a decoder answers just that. *)
Definition here (r : FeedRecord) : FeedRecord := r.

(** A report of a decoded record. *)
Definition is_processed (p : Printed) : bool :=
  match p with RecordProcessed _ _ => true | _ => false end.

(** What a processor answers for a single envelope that is refused with
    [e]: it announces the single format, prints the error and answers no
    record; nothing else has changed. *)
Definition refused_single (e : exn) (w : World)
    (run : Res (list FeedRecord) * World) : Prop :=
  run = (Ok [], set_stdout (stdout w ++ [SingleFormat; SingleError e]) w).

(** What a processor answers for a collection in which the entry that
    follows [n_before] others and is followed by [n_after] is refused
    with [e], whatever the other entries are: it does not abort; after
    the line that announces the collection come the reports of the
    entries before, one each, then the error [e] for that position
    (counted from 1), then the reports of the entries after, one each;
    and the records answered are as many as the other entries have
    reports of a processed record, those of the entries before first:
    none stands for the refused entry. *)
Definition refused_in_collection (n_before n_after : nat) (e : exn) (w : World)
    (run : Res (list FeedRecord) * World) : Prop :=
  exists rs1 rs2 out1 out2 w',
    run = (Ok (rs1 ++ rs2), w')
    /\ stdout w'
         = stdout w ++ MultipleFormat (n_before + 1 + n_after)
             :: out1 ++ RecordError (S n_before) e :: out2
    /\ length out1 = n_before /\ length rs1 = length (filter is_processed out1)
    /\ length out2 = n_after /\ length rs2 = length (filter is_processed out2).

(** A value that has no length: [len(x)] raises [TypeError]. *)
Definition unsized (x : pyval) : bool :=
  match x with
  | PNone | PBool _ | PInt _ | PFloat _ => true
  | _ => false
  end.

(** The three tables exist. *)
Definition has_tables (db : Database) : Prop :=
  forall s, In s table_schemas -> lookup (fst (snd s)) db <> None.

(** Table [n] exists and is empty. *)
Definition emptied (db : Database) (n : string) : Prop :=
  exists t, lookup n db = Some t /\ rows t = [].

(** One of the 36 characters an alert identifier is drawn from. *)
Definition is_alert_char (c : ascii) : bool :=
  let n := Str.code c in
  ((65 <=? n) && (n <=? 90) || (48 <=? n) && (n <=? 57))%N.

(** The block a private ad is rendered to. *)
Definition private_ad_block (text date : string) (days : Z) : string :=
  ("Private Ad -------------------" ++ newline ++ text ++ newline
   ++ "Actual until: " ++ date ++ ", " ++ decimal days ++ " days left"
   ++ newline ++ newline)%string.

(** Sample inputs. *)

Definition sample_str_of_exn (e : exn) : string := "<exception>".

Definition storm : FeedRecord :=
  WeatherAlertRecord "Storm" noon (PStr "High") (PStr "Kyiv") "WA-AB12".

(** A world whose news table holds one row. *)
Definition world_with_row : World :=
  set_database
    (set_table "news_records"
       (mk_table [mk_row 1 [("text", PStr "Old"); ("content_hash", PStr "h")]
                         "2024-02-01 10:00:00"] 1
                 ["text"; "city"; "timestamp"; "content_hash"])
       initialize_database)
    sample_world.

(** [{"records": [first, video, third]}] and
    [<records>first video third</records>]. *)
Definition video_json_batch : dict :=
  [("records", PList [good_json "First"; video_json; good_json "Third"])].

Definition video_xml_batch : Element :=
  mk_element "records" [] None [good_xml "First"; video_xml; good_xml "Third"].

(** [<record type="weather_alert"><text>Storm</text>
     <severity>High</severity><location> </location></record>]. *)
Definition blank_location_alert : Element :=
  mk_element "record" [("type", "weather_alert")] None
    [ mk_element "text" [] (Some "Storm") [];
      mk_element "severity" [] (Some "High") [];
      mk_element "location" [] (Some " ") [] ].

End FeedMore.

(** * Properties *)

(** ** Strings *)

Module StrFacts.

Import Str.

Lemma code_shift_case (c : ascii) :
  (code c + 32 < 256)%N -> code (shift_case c) = (code c + 32)%N.
Proof.
  intros H. unfold shift_case, code. now rewrite N_ascii_embedding.
Qed.

Lemma code_inj (a b : ascii) : code a = code b -> a = b.
Proof.
  unfold code. intros H.
  rewrite <- (ascii_N_embedding a), <- (ascii_N_embedding b). now rewrite H.
Qed.

(** The lower-case partner of an ASCII capital is left alone by
    [sqlite_lower_char], and is what the capital is folded to. *)
Lemma sqlite_lower_char_partner (a b : ascii) :
  is_ascii_upper a = true -> code b = (code a + 32)%N ->
  sqlite_lower_char a = b /\ sqlite_lower_char b = b.
Proof.
  unfold sqlite_lower_char, is_ascii_upper. intros Ha Hb.
  apply andb_true_iff in Ha. destruct Ha as [H1 H2].
  apply N.leb_le in H1. apply N.leb_le in H2.
  rewrite Hb.
  replace ((65 <=? code a) && (code a <=? 90))%N with true
    by (symmetry; apply andb_true_iff; split; apply N.leb_le; assumption).
  replace ((65 <=? code a + 32) && (code a + 32 <=? 90))%N with false
    by (symmetry; apply andb_false_iff; right; apply N.leb_gt; lia).
  split; [| reflexivity].
  apply code_inj. rewrite code_shift_case by lia. now rewrite Hb.
Qed.

Lemma ascii_case_eqb_sqlite_lower (a b : ascii) :
  ascii_case_eqb a b = true -> sqlite_lower_char a = sqlite_lower_char b.
Proof.
  unfold ascii_case_eqb. intros H.
  apply orb_true_iff in H. destruct H as [H | H].
  - apply orb_true_iff in H. destruct H as [H | H].
    + apply Ascii.eqb_eq in H. now subst.
    + apply andb_true_iff in H. destruct H as [Hu Hc]. apply N.eqb_eq in Hc.
      destruct (sqlite_lower_char_partner a b Hu Hc) as [E1 E2]. congruence.
  - apply andb_true_iff in H. destruct H as [Hu Hc]. apply N.eqb_eq in Hc.
    destruct (sqlite_lower_char_partner b a Hu Hc) as [E1 E2]. congruence.
Qed.

Lemma ascii_casing_sqlite_lower (a b : string) :
  ascii_casing a b = true -> sqlite_lower a = sqlite_lower b.
Proof.
  revert b. induction a as [| x a IH]; intros [| y b] H; simpl in *;
    try discriminate; try reflexivity.
  apply andb_true_iff in H. destruct H as [Hc Hr].
  rewrite (ascii_case_eqb_sqlite_lower _ _ Hc), (IH _ Hr). reflexivity.
Qed.

End StrFacts.

(** ** The coordinate table *)

Module FinalProps.

Import Final.

(** The lookup does not ignore case as the program itself understands
    case: SQLite folds ASCII letters only, so the capitalised name of a
    city stored with a non-ASCII letter is not found. *)
Lemma lookup_ignores_case_fails : ~ lookup_ignores_case.
Proof.
  intros H.
  specialize (H initial_database sao_paulo_row SAO_PAULO).
  assert (Hin : In sao_paulo_row (cities initial_database)).
  { vm_compute. do 11 right. left. reflexivity. }
  specialize (H Hin eq_refl).
  vm_compute in H. discriminate H.
Qed.

(** C9: the lookup that the source announces as case-insensitive is not,
    where a name has a letter outside ASCII.  In the table the program
    itself fills, the row of Sao Paulo (written with a-tilde) is stored
    and its name is found; the upper-case spelling of that name, which
    [str.lower], the test of [handle_distance_calculation], takes to the
    same string, is answered [None]. *)
Theorem upper_case_spelling_is_not_found :
  In sao_paulo_row (cities initial_database)
  /\ Str.lower SAO_PAULO = Str.lower (name sao_paulo_row)
  /\ get_city_coordinates initial_database (name sao_paulo_row)
       = Some ((-23.5505)%float, (-46.6333)%float)
  /\ get_city_coordinates initial_database SAO_PAULO = None.
Proof.
  split; [| split; [| split]]; try reflexivity.
  vm_compute. do 11 right. left. reflexivity.
Qed.

Lemma find_lower_hit (rows : list city_row) (r : city_row) (key : string) :
  In r rows -> Str.sqlite_lower (name r) = key ->
  List.find (fun x => String.eqb (Str.sqlite_lower (name x)) key) rows <> None.
Proof.
  intros Hin Hk Hnone.
  apply (find_none _ _ Hnone) in Hin. simpl in Hin.
  rewrite Hk, String.eqb_refl in Hin. discriminate.
Qed.

(** X23: the lookup ignores the case of ASCII letters.  For every stored
    row and every spelling of its name in which only ASCII letters
    change case, [get_city_coordinates] finds a row and answers the same
    pair as for the stored name. *)
Theorem get_city_coordinates_ascii_casing
    (db : database) (r : city_row) (n : string) :
  In r (cities db) ->
  Str.ascii_casing (name r) n = true ->
  get_city_coordinates db n = get_city_coordinates db (name r)
  /\ get_city_coordinates db n <> None.
Proof.
  intros Hin Hcase.
  apply StrFacts.ascii_casing_sqlite_lower in Hcase.
  unfold get_city_coordinates. rewrite <- Hcase. split; [reflexivity |].
  pose proof (find_lower_hit (cities db) r _ Hin eq_refl) as Hhit.
  destruct (List.find _ (cities db)); [discriminate | contradiction].
Qed.

(** The lookup of ["london"] in the table the program starts with. *)
Lemma get_city_coordinates_ascii_casing_witness :
  get_city_coordinates initial_database "london"
    = get_city_coordinates initial_database "London"
  /\ get_city_coordinates initial_database "london" <> None.
Proof.
  apply (get_city_coordinates_ascii_casing initial_database london_row "london").
  - vm_compute. right. left. reflexivity.
  - reflexivity.
Defined.

Lemma filter_app_single (f : city_row -> bool) (l : list city_row) (x : city_row) :
  filter f (l ++ [x]) = filter f l ++ (if f x then [x] else []).
Proof.
  rewrite filter_app. simpl. destruct (f x); reflexivity.
Qed.

Lemma filter_none (f g : city_row -> bool) (l : list city_row) :
  (forall x, f x = true -> g x = false) -> filter f (filter g l) = [].
Proof.
  intros H. induction l as [| x l IH]; simpl; [reflexivity |].
  destruct (g x) eqn:Eg; simpl; [| exact IH].
  destruct (f x) eqn:Ef; [| exact IH].
  apply H in Ef. congruence.
Qed.

Lemma filter_same (f : city_row -> bool) (l : list city_row) :
  filter f (filter f l) = filter f l.
Proof.
  induction l as [| x l IH]; simpl; [reflexivity |].
  destruct (f x) eqn:Ef; simpl; [rewrite Ef, IH |]; auto.
Qed.

(** C10: [save_city_coordinates] answers [False] and leaves the database
    as it was when the latitude is not within [-90, 90] or the longitude
    not within [-180, 180]; with both in range and a name that is
    already stored it answers [True], the table then holds exactly one
    row of that name, with the new country and the new coordinates as
    the [REAL] columns keep them (a negative zero as positive zero), and
    the rows of every other name are as before. *)
Theorem save_city_coordinates_validates_and_replaces
    (now : string) (db : database) (city_name : string)
    (lat lon : float) (c : string) :
  (valid_latitude lat && valid_longitude lon = false ->
   save_city_coordinates now db city_name lat lon c = (db, false))
  /\
  (valid_latitude lat && valid_longitude lon = true ->
   existsb (named city_name) (cities db) = true ->
   let (db', saved) := save_city_coordinates now db city_name lat lon c in
   saved = true
   /\ filter (named city_name) (cities db')
        = [mk_city (next_rowid db) city_name (real_column lat) (real_column lon)
             c now]
   /\ filter (not_named city_name) (cities db')
        = filter (not_named city_name) (cities db)).
Proof.
  unfold save_city_coordinates. split.
  - intros H. apply andb_false_iff in H. destruct H as [H | H].
    + rewrite H. reflexivity.
    + rewrite H. destruct (valid_latitude lat); reflexivity.
  - intros H _. apply andb_true_iff in H. destruct H as [H1 H2].
    rewrite H1, H2. simpl. split; [reflexivity |].
    fold (not_named city_name). split.
    + rewrite filter_app_single. unfold named at 2. simpl.
      rewrite String.eqb_refl.
      rewrite filter_none; [reflexivity |].
      intros x Hx. unfold named in Hx. unfold not_named. now rewrite Hx.
    + rewrite filter_app_single. unfold not_named at 3. simpl.
      rewrite String.eqb_refl. simpl. rewrite app_nil_r. apply filter_same.
Qed.

(** A latitude of 91 is refused; new coordinates for London, the
    latitude a negative zero, replace the row the table starts with, and
    the new row holds positive zero. *)
Lemma save_city_coordinates_validates_and_replaces_witness :
  save_city_coordinates "2024-03-02 09:00:00" initial_database
      "London" 91%float 0%float "UK" = (initial_database, false)
  /\
  (let (db', saved) :=
     save_city_coordinates "2024-03-02 09:00:00" initial_database
       "London" (-0)%float (-0.12)%float "England" in
   saved = true
   /\ filter (named "London") (cities db')
        = [mk_city (next_rowid initial_database) "London" 0%float
             (-0.12)%float "England" "2024-03-02 09:00:00"]
   /\ filter (not_named "London") (cities db')
        = filter (not_named "London") (cities initial_database)).
Proof.
  split.
  - apply (save_city_coordinates_validates_and_replaces
             "2024-03-02 09:00:00" initial_database "London" 91%float 0%float "UK").
    reflexivity.
  - apply (save_city_coordinates_validates_and_replaces
             "2024-03-02 09:00:00" initial_database "London"
             (-0)%float (-0.12)%float "England").
    + reflexivity.
    + reflexivity.
Defined.

End FinalProps.

(** ** The news feed *)

Module FeedProps.

Import Feed.

Lemma bind_ok {S A B : Type} (m : M S A) (k : A -> M S B) (s s' : S) (a : A) :
  m s = (Ok a, s') -> bind m k s = k a s'.
Proof. intros H. unfold bind. now rewrite H. Qed.

Lemma bind_raise {S A B : Type} (m : M S A) (k : A -> M S B) (s s' : S) (e : exn) :
  m s = (Raise e, s') -> bind m k s = (Raise e, s').
Proof. intros H. unfold bind. now rewrite H. Qed.

Lemma only_ticks_refl (w : World) : only_ticks w w.
Proof. destruct w. reflexivity. Qed.

Lemma only_ticks_trans (w1 w2 w3 : World) :
  only_ticks w1 w2 -> only_ticks w2 w3 -> only_ticks w1 w3.
Proof.
  unfold only_ticks. intros H12 H23. rewrite H23, H12. destruct w1. reflexivity.
Qed.

Lemma only_ticks_same_store (w w' : World) : only_ticks w w' -> same_store w w'.
Proof. intros H. rewrite H. destruct w. split; reflexivity. Qed.

Lemma only_ticks_set (w : World) (n : nat) : only_ticks w (set_ticks n w).
Proof. destruct w. reflexivity. Qed.

Lemma bind_assoc {S A B C : Type} (m : M S A) (k : A -> M S B) (k' : B -> M S C)
    (s : S) :
  bind (bind m k) k' s = bind m (fun a => bind (k a) k') s.
Proof. unfold bind. destruct (m s) as [[a | e] s']; reflexivity. Qed.

Lemma bind_ext {S A B : Type} (m : M S A) (k k' : A -> M S B) (s : S) :
  (forall a s', k a s' = k' a s') -> bind m k s = bind m k' s.
Proof. intros H. unfold bind. destruct (m s) as [[a | e] s']; auto. Qed.

Create HintDb frame.
#[local] Hint Resolve only_ticks_refl only_ticks_set only_ticks_trans : frame.

Section Library.

Variable sha256_hexdigest : string -> string.
Variable str_of : pyval -> string.
Variable title : string -> string.

Local Abbreviation generate_content_hash := (Feed.generate_content_hash sha256_hexdigest str_of).
Local Abbreviation get_database_data := (Feed.get_database_data sha256_hexdigest str_of).
Local Abbreviation check_duplicate := (Feed.check_duplicate sha256_hexdigest str_of).
Local Abbreviation save_record := (Feed.save_record sha256_hexdigest str_of).
Local Abbreviation publish_record := (Feed.publish_record sha256_hexdigest str_of title).
Local Abbreviation publish_with := (Feed.publish_with str_of title).
Local Abbreviation format_for_publication := (Feed.format_for_publication str_of title).

(** Parsing the expiration date changes the record and reads the clock,
    nothing else; it lets through only the [TypeError] of [strptime]. *)
Lemma ensure_expiration_date_frame (r : FeedRecord) (w : World) :
  exists res r' w',
    ensure_expiration_date (r, w) = (res, (r', w')) /\ only_ticks w w'
    /\ (res = Ok tt \/ res = Raise (TypeError "strptime() argument 1 must be str")).
Proof.
  destruct r as [t ts c | t ts s [e |] dl | t ts sv l a];
    try (do 3 eexists; split; [reflexivity | auto with frame]).
  unfold ensure_expiration_date, bind, self.
  destruct (truthy s); [| do 3 eexists; split; [reflexivity | auto with frame]].
  unfold pass_ValueError, try_except, parse_expiration_date, bind, self, lift.
  destruct s as [| b | z | f | s | l | d]; simpl;
    try (do 3 eexists; split; [reflexivity | auto with frame]).
  destruct (strptime_ymd s);
    do 3 eexists; (split; [reflexivity | simpl; auto with frame]).
Qed.

(** The cycle between [generate_content_hash] and [get_database_data]
    has no way out: whatever the recursion limit, both end in an
    exception, and only the record and the clock have moved. *)
Lemma hash_cycle_raises (depth : nat) :
  (forall r w, exists e r' w',
      generate_content_hash depth (r, w) = (Raise e, (r', w'))
      /\ only_ticks w w' /\ cycle_error e)
  /\
  (forall r w, exists e r' w',
      get_database_data depth (r, w) = (Raise e, (r', w'))
      /\ only_ticks w w' /\ cycle_error e).
Proof.
  induction depth as [| d [IHh IHd]].
  - split; intros r w; exists RecursionError, r, w;
      (split; [reflexivity | split; [auto with frame | now left]]).
  - split; intros r w.
    + destruct (IHd r w) as (e & r' & w' & Hrun & Hfr & He).
      exists e, r', w'. split; [| now split].
      simpl. unfold bind at 1. simpl. unfold bind at 1. now rewrite Hrun.
    + destruct (ensure_expiration_date_frame r w)
        as (res & r1 & w1 & Hens & Hfr1 & [Hres | Hres]); subst res.
      * destruct (IHh r1 w1) as (e & r2 & w2 & Hrun & Hfr2 & He).
        exists e, r2, w2. split; [| split; [eauto with frame | exact He]].
        simpl. unfold bind at 1. rewrite Hens.
        unfold bind at 1. simpl.
        destruct r1; unfold bind; rewrite Hrun; reflexivity.
      * eexists _, r1, w1. split; [| split; [exact Hfr1 | now right]].
        simpl. unfold bind at 1. now rewrite Hens.
Qed.

Lemma same_store_refl (w : World) : same_store w w.
Proof. split; reflexivity. Qed.

Lemma same_store_trans (w1 w2 w3 : World) :
  same_store w1 w2 -> same_store w2 w3 -> same_store w1 w3.
Proof. intros [A B] [C D]. split; congruence. Qed.

Lemma same_store_print (w : World) (p : Printed) :
  same_store w (set_stdout (stdout w ++ [p]) w).
Proof. split; reflexivity. Qed.

#[local] Hint Resolve same_store_refl same_store_print only_ticks_same_store : frame.

(** [check_duplicate] catches what the hash raised and answers [False]. *)
Lemma check_duplicate_answers_false (depth : nat) (r : FeedRecord) (w : World) :
  exists r' w',
    check_duplicate depth (r, w) = (Ok false, (r', w')) /\ same_store w w'.
Proof.
  destruct (proj1 (hash_cycle_raises depth) r w) as (e & r' & w' & Hrun & Hfr & _).
  exists r', (set_stdout (stdout w' ++ [DuplicateCheckError e]) w'). split.
  - unfold Feed.check_duplicate, try_except, bind at 1. simpl.
    unfold bind at 1. rewrite Hrun. reflexivity.
  - apply same_store_trans with w';
      [apply only_ticks_same_store, Hfr | apply same_store_print].
Qed.

(** [save_record] never stores a row: the duplicate check answers
    [False], then [get_database_data] raises under the outer [try]. *)
Lemma save_record_answers_false (depth : nat) (r : FeedRecord) (w : World) :
  exists r' w',
    save_record depth (r, w) = (Ok false, (r', w')) /\ same_store w w'.
Proof.
  destruct (check_duplicate_answers_false depth r w) as (r1 & w1 & Hdup & Hfr1).
  destruct (proj2 (hash_cycle_raises depth) r1 w1) as (e & r2 & w2 & Hrun & Hfr2 & _).
  assert (Hbody : exists p,
    save_record depth (r, w)
      = (Ok false, (r2, set_stdout (stdout w2 ++ [p]) w2))).
  { unfold Feed.save_record, try_except, bind at 1. rewrite Hdup.
    unfold bind at 1. simpl. unfold bind at 1. rewrite Hrun.
    destruct e; eexists; reflexivity. }
  destruct Hbody as (p & Hbody).
  exists r2, (set_stdout (stdout w2 ++ [p]) w2). split; [exact Hbody |].
  apply same_store_trans with w1; [exact Hfr1 |].
  apply same_store_trans with w2;
    [apply only_ticks_same_store, Hfr2 | apply same_store_print].
Qed.

(** Whatever [save] is, when it answers [False] the publisher prints
    that the record was not saved and stops there. *)
Lemma publish_with_skips (save : M Obj bool) (o o1 : Obj) :
  save o = (Ok false, o1) ->
  publish_with save true o
    = (Ok false,
       (fst o1, set_stdout (stdout (snd o1) ++ [NotSavedToDatabase]) (snd o1))).
Proof.
  intros H. destruct o1 as [r1 w1].
  unfold Feed.publish_with, try_except, bind at 1. unfold bind at 1. rewrite H.
  reflexivity.
Qed.

(** The loop of [generate_content_hash] on its own does what C1 and C2
    describe: it writes the listed fields that are keys of the
    dictionary, in order, and passes over a field that is absent. *)
Lemma hash_content_reads_listed_fields (t c ts h : string) :
  Feed.hash_content str_of ["text"; "city"]
    [("text", PStr t); ("city", PStr c); ("timestamp", PStr ts);
     ("content_hash", PStr h)]
  = (t ++ c)%string.
Proof. reflexivity. Qed.

Lemma hash_content_skips_absent_field (t : string) :
  Feed.hash_content str_of ["text"; "city"] [("text", PStr t)] = t.
Proof. reflexivity. Qed.

(** C1 (code defect): the fingerprint is meant to be a function of the
    duplicate-check fields, but no fingerprint is ever computed: for
    every record, world and recursion limit, [generate_content_hash]
    does not return a digest. *)
Theorem content_hash_is_never_computed
    (depth : nat) (r : FeedRecord) (w : World) (h : string) :
  fst (generate_content_hash depth (r, w)) <> Ok h.
Proof.
  destruct (proj1 (hash_cycle_raises depth) r w) as (e & r' & w' & Hrun & _).
  rewrite Hrun. discriminate.
Qed.

(** C2 (code defect): computing the content hash does not return
    without error.  For every record, world and recursion limit it
    raises [RecursionError], or the [TypeError] of [strptime] when a
    private ad holds an expiration date that is not a [str]; database
    and news feed file are as before. *)
Theorem content_hash_raises (depth : nat) (r : FeedRecord) (w : World) :
  exists e r' w',
    generate_content_hash depth (r, w) = (Raise e, (r', w'))
    /\ cycle_error e /\ same_store w w'.
Proof.
  destruct (proj1 (hash_cycle_raises depth) r w) as (e & r' & w' & Hrun & Hfr & He).
  exists e, r', w'. auto with frame.
Qed.

Lemma publish_record_is_skipped (depth : nat) (r : FeedRecord) (w : World) :
  exists r' w',
    publish_record depth true (r, w) = (Ok false, (r', w')) /\ same_store w w'.
Proof.
  destruct (save_record_answers_false depth r w) as (r1 & w1 & Hsave & Hfr).
  exists r1, (set_stdout (stdout w1 ++ [NotSavedToDatabase]) w1). split.
  - unfold Feed.publish_record. now rewrite (publish_with_skips _ _ _ Hsave).
  - apply same_store_trans with w1; [exact Hfr | apply same_store_print].
Qed.

(** C3 (code defect): publishing with persistence enabled is skipped
    the first time already.  For any two records published one after
    the other, both calls answer [False], and the tables and the news
    feed file are what they were: no row is stored. *)
Theorem publishing_twice_stores_nothing
    (depth : nat) (r1 r2 : FeedRecord) (w : World) :
  exists r1' w1 r2' w2,
    publish_record depth true (r1, w) = (Ok false, (r1', w1))
    /\ publish_record depth true (r2, w1) = (Ok false, (r2', w2))
    /\ database w2 = database w
    /\ output_file w2 = output_file w.
Proof.
  destruct (publish_record_is_skipped depth r1 w) as (r1' & w1 & H1 & F1).
  destruct (publish_record_is_skipped depth r2 w1) as (r2' & w2 & H2 & F2).
  exists r1', w1, r2', w2.
  destruct (same_store_trans _ _ _ F1 F2) as [Hd Hf]. auto.
Qed.

(** C5: when [save_record] answers [False], [publish_record] with
    [save_to_database=True] answers [False] too; it prints that the
    record was not saved and does nothing more: record and world are as
    [save_record] left them, and the news feed file is unchanged. *)
Theorem publish_record_skips_unsaved
    (depth : nat) (o o1 : Obj) :
  save_record depth o = (Ok false, o1) ->
  publish_record depth true o
    = (Ok false,
       (fst o1, set_stdout (stdout (snd o1) ++ [NotSavedToDatabase]) (snd o1)))
  /\ output_file (snd o1) = output_file (snd o).
Proof.
  intros Hsave. split.
  - unfold Feed.publish_record. apply publish_with_skips, Hsave.
  - destruct o as [r w].
    destruct (save_record_answers_false depth r w) as (r' & w' & Hrun & _ & Hfile).
    rewrite Hrun in Hsave. injection Hsave as <-. exact Hfile.
Qed.

End Library.

(** Publishing [fire_downtown] with persistence in the sample world. *)
Lemma publish_record_skips_unsaved_witness :
  Feed.publish_record sample_sha256 sample_str sample_title 1000 true
      (fire_downtown, sample_world)
    = (Ok false,
       (fire_downtown,
        set_stdout [DuplicateCheckError RecursionError; SaveError RecursionError;
                    NotSavedToDatabase] sample_world))
  /\ output_file
       (set_stdout [DuplicateCheckError RecursionError; SaveError RecursionError]
          sample_world)
     = output_file sample_world.
Proof.
  apply (publish_record_skips_unsaved sample_sha256 sample_str sample_title 1000
           (fire_downtown, sample_world)
           (fire_downtown,
            set_stdout [DuplicateCheckError RecursionError; SaveError RecursionError]
              sample_world)).
  vm_compute. reflexivity.
Defined.

(** C6 (code defect): the decoders test the text before they strip it,
    so a body of white space passes and the record is built with an
    empty text, from JSON as from XML. *)
Theorem blank_text_is_accepted :
  fst (from_json_data NewsRecord_class blank_news_data sample_world)
    = Ok (NewsRecord "" noon (PStr "Springfield"))
  /\ fst (from_xml_element NewsRecord_class blank_news_element sample_world)
    = Ok (NewsRecord "" noon (PStr "Springfield"))
  /\ record_text (NewsRecord "" noon (PStr "Springfield")) = "".
Proof. repeat split. Qed.

(** *** The processors *)

Section Loop.

Context {X : Type} (envelope : X -> M World (FeedRecord * string)).

(** One turn of the loop on an element that is decoded. *)
Lemma parse_each_decoded (i : nat) (x : X) (rest : list X)
    (records : list FeedRecord) (w w' : World) (r : FeedRecord) (ty : string) :
  envelope x w = (Ok (r, ty), w') ->
  parse_each envelope i (x :: rest) records w
    = parse_each envelope (S i) rest (records ++ [r])
        (set_stdout (stdout w' ++ [RecordProcessed i ty]) w').
Proof.
  intros H. simpl. unfold bind at 1, try_except, bind at 1. rewrite H. reflexivity.
Qed.

(** One turn of the loop on an element whose decoding raises: the list
    of records is as before, the error is printed, the loop goes on. *)
Lemma parse_each_failed (i : nat) (x : X) (rest : list X)
    (records : list FeedRecord) (w w' : World) (e : exn) :
  envelope x w = (Raise e, w') ->
  parse_each envelope i (x :: rest) records w
    = parse_each envelope (S i) rest records
        (set_stdout (stdout w' ++ [RecordError i e]) w').
Proof.
  intros H. simpl. unfold bind at 1, try_except, bind at 1. rewrite H. reflexivity.
Qed.

(** The single-record branch on an element whose decoding raises: no
    record, the error is printed. *)
Lemma parse_single_failed (x : X) (w w' : World) (e : exn) :
  envelope x (set_stdout (stdout w ++ [SingleFormat]) w) = (Raise e, w') ->
  parse_single envelope x w
    = (Ok [], set_stdout (stdout w' ++ [SingleError e]) w').
Proof.
  intros H. unfold parse_single, bind at 1. simpl.
  unfold try_except, bind at 1. rewrite H. reflexivity.
Qed.

End Loop.

Lemma mapping_getitem_unsupported (k : string) :
  ~ In k supported_tags -> mapping_getitem k = Raise (KeyError k).
Proof.
  intros H. unfold mapping_getitem, record_type_mapping, lookup.
  destruct (String.eqb_spec "news" k) as [E | _];
    [exfalso; apply H; simpl; auto |].
  destruct (String.eqb_spec "private_ad" k) as [E | _];
    [exfalso; apply H; simpl; auto |].
  destruct (String.eqb_spec "weather_alert" k) as [E | _];
    [exfalso; apply H; simpl; auto |].
  reflexivity.
Qed.

Lemma json_envelope_unsupported (record_info : pyval) (t : string) (w : World) :
  py_get record_info "type" (PStr "") = Ok (PStr t) ->
  ~ In (Str.lower t) supported_tags ->
  json_envelope record_info w = (Raise (KeyError (Str.lower t)), w).
Proof.
  intros Hget Htag.
  destruct record_info as [| b | z | f | s | l | d]; try discriminate Hget.
  unfold json_envelope, bind at 1, lift. rewrite Hget.
  unfold bind at 1. simpl. unfold bind at 1. simpl. unfold bind at 1.
  now rewrite (mapping_getitem_unsupported _ Htag).
Qed.

Lemma xml_envelope_unsupported (record_element : Element) (w : World) :
  ~ In (Str.lower (xml_get record_element "type" "")) supported_tags ->
  xml_envelope record_element w
    = (Raise (KeyError (Str.lower (xml_get record_element "type" ""))), w).
Proof.
  intros Htag. unfold xml_envelope, bind at 1, lift.
  now rewrite (mapping_getitem_unsupported _ Htag).
Qed.


Section Batch.

Context {X : Type} (envelope : X -> M World (FeedRecord * string)).

Lemma processed_reports_cons (i : nat) (ty : string) (out : list Printed) :
  processed_reports (S i) out ->
  processed_reports i (RecordProcessed i ty :: out).
Proof.
  unfold processed_reports. simpl. intros H. constructor; [now exists ty | exact H].
Qed.

(** A run of accepted elements: every one yields its record and its
    report, in order. *)
Lemma parse_each_all_accepted (xs : list X) :
  Forall (accepted envelope) xs ->
  forall i records w, exists rs out w',
    parse_each envelope i xs records w = (Ok (records ++ rs), w')
    /\ Forall2 (decodes envelope) xs rs
    /\ stdout w' = stdout w ++ out
    /\ length out = length xs
    /\ processed_reports i out.
Proof.
  induction 1 as [| x xs Hx _ IH]; intros i records w.
  - exists [], [], w. simpl. rewrite !app_nil_r.
    repeat split; constructor.
  - destruct (Hx w) as (r & ty & w1 & Hrun & Hout).
    rewrite (parse_each_decoded envelope i x xs records w w1 r ty Hrun).
    destruct (IH (S i) (records ++ [r])
                (set_stdout (stdout w1 ++ [RecordProcessed i ty]) w1))
      as (rs & out & w' & Hrest & Hdec & Hstd & Hlen & Hrep).
    exists (r :: rs), (RecordProcessed i ty :: out), w'.
    rewrite Hrest, <- app_assoc. simpl. split; [reflexivity |].
    split; [constructor; [now exists w, ty, w1 | exact Hdec] |].
    split; [| split; [now rewrite Hlen | now apply processed_reports_cons]].
    rewrite Hstd. destruct w1. simpl in *. rewrite Hout, <- app_assoc. reflexivity.
Qed.

Lemma parse_each_app (xs ys : list X) :
  forall i records w,
    parse_each envelope i (xs ++ ys) records w
      = bind (parse_each envelope i xs records)
             (fun records' => parse_each envelope (i + length xs) ys records') w.
Proof.
  induction xs as [| x xs IH]; intros i records w.
  - simpl. unfold bind, ret. now rewrite Nat.add_0_r.
  - simpl parse_each. rewrite bind_assoc. apply bind_ext.
    intros records' w1. rewrite IH. now rewrite Nat.add_succ_r.
Qed.

(** The loop on a collection with one rejected element. *)
Lemma parse_each_one_rejected (pre post : list X) (bad : X) (w : World) :
  Forall (accepted envelope) pre -> rejected envelope bad ->
  Forall (accepted envelope) post ->
  exists rs1 rs2 out1 out2 e w',
    parse_each envelope 1 (pre ++ bad :: post) [] w = (Ok (rs1 ++ rs2), w')
    /\ Forall2 (decodes envelope) pre rs1
    /\ Forall2 (decodes envelope) post rs2
    /\ stdout w' = stdout w ++ out1 ++ [RecordError (S (length pre)) e] ++ out2
    /\ length out1 = length pre /\ processed_reports 1 out1
    /\ length out2 = length post /\ processed_reports (2 + length pre) out2.
Proof.
  intros Hpre Hbad Hpost.
  destruct (parse_each_all_accepted pre Hpre 1 [] w)
    as (rs1 & out1 & w1 & Hrun1 & Hdec1 & Hstd1 & Hlen1 & Hrep1).
  destruct (Hbad w1) as (e & w2 & Hrun2 & Hstd2).
  destruct (parse_each_all_accepted post Hpost (2 + length pre) rs1
              (set_stdout (stdout w2 ++ [RecordError (S (length pre)) e]) w2))
    as (rs2 & out2 & w3 & Hrun3 & Hdec3 & Hstd3 & Hlen3 & Hrep3).
  exists rs1, rs2, out1, out2, e, w3.
  split.
  - rewrite parse_each_app, (bind_ok _ _ _ _ _ Hrun1). simpl app at 1.
    rewrite (parse_each_failed envelope _ bad post _ w1 w2 e Hrun2).
    exact Hrun3.
  - repeat (split; [assumption |]). split; [| auto].
    rewrite Hstd3. destruct w2. simpl in *. rewrite Hstd2, Hstd1, <- !app_assoc.
    reflexivity.
Qed.

End Batch.

Lemma lookup_contains (k : string) (d : dict) (v : pyval) :
  lookup k d = Some v ->
  py_contains k (PDict d) = Ok true /\ py_getitem (PDict d) k = Ok v.
Proof. intros H. simpl. now rewrite H. Qed.

(** C4: when a collection holds entries of which exactly one, at
    position [k] (the entries before it are [pre], those after it
    [post]), fails to decode, the processor does not abort: it answers
    the records of all the other entries, in order, prints one error
    report, for that position, and the reports of the entries after it
    follow; so for [_parse_json_records] on [{"records": [...]}] as for
    [_parse_xml_records] on [<records>...</records>]. *)
Theorem one_bad_record_is_skipped :
  (forall (d : dict) (pre post : list pyval) (bad : pyval) (w : World),
     lookup "records" d = Some (PList (pre ++ bad :: post)) ->
     Forall (accepted json_envelope) pre ->
     rejected json_envelope bad ->
     Forall (accepted json_envelope) post ->
     batch_outcome json_envelope pre post w (_parse_json_records (PDict d) w))
  /\
  (forall (root : Element) (pre post : list Element) (bad : Element) (w : World),
     tag root = "records" ->
     findall root "record" = pre ++ bad :: post ->
     Forall (accepted xml_envelope) pre ->
     rejected xml_envelope bad ->
     Forall (accepted xml_envelope) post ->
     batch_outcome xml_envelope pre post w (_parse_xml_records root w)).
Proof.
  split.
  - intros d pre post bad w Hd Hpre Hbad Hpost.
    destruct (lookup_contains _ _ _ Hd) as [Hin Hget].
    destruct (parse_each_one_rejected json_envelope pre post bad
                (set_stdout (stdout w ++ [MultipleFormat (length (pre ++ bad :: post))]) w)
                Hpre Hbad Hpost)
      as (rs1 & rs2 & out1 & out2 & e & w' & Hrun & H1 & H2 & Hstd & Hrest).
    exists rs1, rs2, out1, out2, e, w'. split.
    + unfold _parse_json_records, bind at 1, lift at 1. rewrite Hin.
      unfold bind at 1, lift at 1. rewrite Hget.
      unfold bind at 1, lift at 1. simpl py_len.
      unfold bind at 1. simpl print. unfold bind at 1, lift. simpl py_iter.
      exact Hrun.
    + repeat (split; [assumption |]). split; [| exact Hrest].
      rewrite Hstd. destruct w. simpl. rewrite <- app_assoc, length_app. simpl.
      replace (length pre + 1 + length post) with (length pre + S (length post))
        by lia.
      reflexivity.
  - intros root pre post bad w Htag Hall Hpre Hbad Hpost.
    destruct (parse_each_one_rejected xml_envelope pre post bad
                (set_stdout (stdout w ++ [MultipleFormat (length (pre ++ bad :: post))]) w)
                Hpre Hbad Hpost)
      as (rs1 & rs2 & out1 & out2 & e & w' & Hrun & H1 & H2 & Hstd & Hrest).
    exists rs1, rs2, out1, out2, e, w'. split.
    + unfold _parse_xml_records. rewrite Htag. simpl String.eqb. cbv iota.
      rewrite Hall. unfold bind at 1. simpl print. exact Hrun.
    + repeat (split; [assumption |]). split; [| exact Hrest].
      rewrite Hstd. destruct w. simpl. rewrite <- app_assoc, length_app. simpl.
      replace (length pre + 1 + length post) with (length pre + S (length post))
        by lia.
      reflexivity.
Qed.

(** Three entries of which the second has no city, in JSON and in XML. *)
Lemma one_bad_record_is_skipped_witness :
  batch_outcome json_envelope [good_json "First"] [good_json "Third"] sample_world
    (_parse_json_records (PDict sample_json_batch) sample_world)
  /\
  batch_outcome xml_envelope [good_xml "First"] [good_xml "Third"] sample_world
    (_parse_xml_records sample_xml_batch sample_world).
Proof.
  destruct one_bad_record_is_skipped as [Hjson Hxml]. split.
  - apply (Hjson sample_json_batch [good_json "First"] [good_json "Third"]
             bad_json sample_world).
    + reflexivity.
    + constructor; [| constructor].
      intros w. do 3 eexists. split; reflexivity.
    + intros w. do 2 eexists. split; reflexivity.
    + constructor; [| constructor].
      intros w. do 3 eexists. split; reflexivity.
  - apply (Hxml sample_xml_batch [good_xml "First"] [good_xml "Third"]
             bad_xml sample_world).
    + reflexivity.
    + reflexivity.
    + constructor; [| constructor].
      intros w. do 3 eexists. split; reflexivity.
    + intros w. do 2 eexists. split; reflexivity.
    + constructor; [| constructor].
      intros w. do 3 eexists. split; reflexivity.
Defined.

(** *** The private ad of 2099 *)

Lemma sample_world_well_before_2099 : well_before_2099 sample_world.
Proof.
  intros n. unfold sample_world, clock, to_microseconds, microseconds_per_day.
  cbn [year month day hour minute second microsecond].
  change (toordinal (mk_datetime 2024 3 1 12 0 (Z.of_nat n mod 60) 0)) with 738946%Z.
  change (toordinal (mk_datetime 2099 1 1 0 0 0 0)) with 766280%Z.
  pose proof (Z.mod_pos_bound (Z.of_nat n) 60 eq_refl). lia.
Qed.

(** C8, as stated, fails: the decoder stores the date as text and
    leaves [days_left] at the 0 that [__init__] gave it; in a world
    whose clock stands in 2024 the parsed record has [days_left = 0]. *)
Lemma parsed_ad_has_days_left_fails : ~ parsed_ad_has_days_left.
Proof.
  intros H.
  destruct (H sample_world sample_world_well_before_2099)
    as (r & w' & Hrun & d & Hd & Hpos).
  vm_compute in Hrun. injection Hrun as <- _.
  simpl in Hd. injection Hd as <-. discriminate Hpos.
Qed.

Lemma days_until_2099_positive (now : datetime) :
  (to_microseconds now + microseconds_per_day <= to_microseconds first_of_2099)%Z ->
  (0 < timedelta_days first_of_2099 now)%Z.
Proof.
  intros H. unfold timedelta_days.
  apply Z.lt_le_trans with 1%Z; [reflexivity |].
  apply Z.div_le_lower_bound; [reflexivity | lia].
Qed.

(** One day is needed: at noon of 2098-12-31 the difference is half a
    day and [days_left] is 0. *)
Lemma days_left_zero_on_the_eve :
  timedelta_days first_of_2099 (mk_datetime 2098 12 31 12 0 0 0) = 0%Z.
Proof. reflexivity. Qed.

Section Rendering.

Variable str_of : pyval -> string.
Variable title : string -> string.

(** C8, amended: parsing the markup yields one private ad with text
    [Sale], expiration date ["2099-01-01"] and [days_left] still 0; when
    that record is rendered for publication, under a clock that is at
    least one day before 2099-01-01, its date is parsed and [days_left]
    becomes strictly positive. *)
Theorem parsed_ad_days_left_after_rendering (w w2 : World) :
  well_before_2099 w2 ->
  exists w1,
    _parse_xml_records ad_2099 w = (Ok [sale_ad (clock w (ticks w))], w1)
    /\ exists out d w3,
         Feed.format_for_publication str_of title (sale_ad (clock w (ticks w)), w2)
           = (Ok out, (sale_ad_dated (clock w (ticks w)) d, w3))
         /\ (0 < d)%Z.
Proof.
  intros Hclock. eexists. split; [reflexivity |].
  exists ("Private Ad -------------------" ++ newline ++ "Sale" ++ newline
          ++ "Actual until: 2099-01-01, "
          ++ decimal (timedelta_days first_of_2099 (clock w2 (ticks w2)))
          ++ " days left" ++ newline ++ newline)%string,
         (timedelta_days first_of_2099 (clock w2 (ticks w2))),
         (set_ticks (S (ticks w2)) w2).
  split; [reflexivity |].
  apply days_until_2099_positive, Hclock.
Qed.

End Rendering.

(** The ad of 2099 parsed and rendered under a clock that stands in
    2024. *)
Lemma parsed_ad_days_left_after_rendering_witness :
  exists w1,
    _parse_xml_records ad_2099 sample_world = (Ok [sale_ad noon], w1)
    /\ exists out d w3,
         Feed.format_for_publication sample_str sample_title (sale_ad noon, sample_world)
           = (Ok out, (sale_ad_dated noon d, w3))
         /\ (0 < d)%Z.
Proof.
  apply (parsed_ad_days_left_after_rendering sample_str sample_title
           sample_world sample_world).
  exact sample_world_well_before_2099.
Defined.

End FeedProps.

(** ** More on the coordinate table *)

Module FinalExtra.

Import Final Cli.

Lemma fold_max_bounds (rows : list city_row) (s : Z) :
  (s <= fold_right (fun r m => Z.max (id r) m) s rows)%Z
  /\ Forall (fun r => (id r <= fold_right (fun r m => Z.max (id r) m) s rows)%Z) rows.
Proof.
  induction rows as [| x rows [IHs IHr]]; simpl.
  - split; [lia | constructor].
  - split; [lia |]. constructor; [lia |].
    eapply Forall_impl; [| exact IHr]. simpl. intros r Hr. lia.
Qed.

Lemma next_rowid_above (db : database) :
  (sequence db < next_rowid db)%Z
  /\ Forall (fun r => (id r < next_rowid db)%Z) (cities db).
Proof.
  unfold next_rowid.
  destruct (fold_max_bounds (cities db) (sequence db)) as [Hs Hr].
  set (m := fold_right _ _ _) in *. clearbody m. split; [lia |].
  eapply Forall_impl; [| exact Hr]. cbv beta. intros r H. lia.
Qed.

Lemma filter_keeps_unique {C : Type} (column : Final.city_row -> C)
    (keep : Final.city_row -> bool) (rows : list Final.city_row) :
  NoDup (map column rows) -> NoDup (map column (filter keep rows)).
Proof.
  intros Hrows. induction rows as [| r rows IH]; simpl; [constructor |].
  apply NoDup_cons_iff in Hrows. destruct Hrows as [Hr Hrest].
  destruct (keep r); simpl; [| auto].
  apply NoDup_cons; [| auto].
  rewrite in_map_iff. intros (r' & Hcol & Hin).
  apply filter_In in Hin. apply Hr, in_map_iff. exists r'. tauto.
Qed.

Lemma NoDup_snoc {A : Type} (l : list A) (x : A) :
  NoDup l -> ~ In x l -> NoDup (l ++ [x]).
Proof.
  intros Hl Hx. induction Hl as [| y l Hy Hl IH]; simpl.
  - constructor; [intros [] | constructor].
  - constructor.
    + intros Hin. apply in_app_or in Hin. destruct Hin as [Hin | [E | []]];
        [contradiction | subst; apply Hx; now left].
    + apply IH. intros Hin. apply Hx. now right.
Qed.

Lemma id_not_in (rows : list city_row) (i : Z) :
  Forall (fun r => (id r < i)%Z) rows -> ~ In i (map id rows).
Proof.
  intros H Hin. apply in_map_iff in Hin. destruct Hin as (r & E & Hr).
  rewrite Forall_forall in H. specialize (H r Hr). lia.
Qed.

Lemma Forall_filter_keep {A : Type} (P : A -> Prop) (p : A -> bool) (l : list A) :
  Forall P l -> Forall P (filter p l).
Proof.
  rewrite !Forall_forall. intros H x Hx. apply filter_In in Hx. apply H, Hx.
Qed.

Lemma insert_or_replace_city_well_formed
    (now : string) (db : database) (n : string) (lat lon : float) (c : string) :
  well_formed db -> well_formed (insert_or_replace_city now db n lat lon c).
Proof.
  intros (Hn & Hi & Hs).
  destruct (next_rowid_above db) as [Hseq Hrows].
  unfold well_formed, insert_or_replace_city. simpl.
  rewrite !map_app. simpl. repeat split.
  - apply NoDup_snoc; [now apply filter_keeps_unique |].
    intros Hin. apply in_map_iff in Hin. destruct Hin as (r & E & Hr).
    apply filter_In in Hr. destruct Hr as [_ Hr]. rewrite E, String.eqb_refl in Hr.
    discriminate.
  - apply NoDup_snoc; [now apply filter_keeps_unique |].
    apply id_not_in. now apply Forall_filter_keep.
  - apply Forall_app. split.
    + apply Forall_filter_keep. eapply Forall_impl; [| exact Hrows].
      simpl. intros r H. lia.
    + constructor; [simpl; lia | constructor].
Qed.

Lemma insert_city_well_formed
    (now : string) (db db' : database) (n : string) (lat lon : float) (c : string) :
  well_formed db -> insert_city now db n lat lon c = Some db' -> well_formed db'.
Proof.
  intros (Hn & Hi & Hs). unfold insert_city.
  destruct (existsb _ (cities db)) eqn:Hex; [discriminate |].
  intros E. injection E as <-.
  destruct (next_rowid_above db) as [Hseq Hrows].
  unfold well_formed. simpl. rewrite !map_app. simpl. repeat split.
  - apply NoDup_snoc; [assumption |].
    intros Hin. apply in_map_iff in Hin. destruct Hin as (r & E & Hr).
    assert (Ht : existsb (fun r => String.eqb (name r) n) (cities db) = true).
    { apply existsb_exists. exists r. split; [exact Hr |].
      rewrite E. apply String.eqb_refl. }
    congruence.
  - apply NoDup_snoc; [assumption |]. now apply id_not_in.
  - apply Forall_app. split.
    + eapply Forall_impl; [| exact Hrows]. simpl. intros r H. lia.
    + constructor; [simpl; lia | constructor].
Qed.

Lemma populate_fold_well_formed (now : string)
    (l : list (string * float * float * string)) (db : database) :
  well_formed db ->
  well_formed
    (fold_left
       (fun d '(n, lat, lon, c) =>
          match insert_city now d n lat lon c with
          | Some d' => d'
          | None => d
          end) l db).
Proof.
  revert db. induction l as [| [[[n lat] lon] c] l IH]; intros db H; simpl; [exact H |].
  apply IH. destruct (insert_city now db n lat lon c) eqn:E; [| exact H].
  eapply insert_city_well_formed; eauto.
Qed.

Lemma populate_initial_cities_well_formed (now : string) (db : database) :
  well_formed db -> well_formed (populate_initial_cities now db).
Proof.
  intros H. unfold populate_initial_cities.
  destruct (Z.of_nat (length (cities db)) =? 0)%Z; [| exact H].
  now apply populate_fold_well_formed.
Qed.

Lemma empty_database_well_formed : well_formed empty_database.
Proof. repeat split; constructor. Qed.

(** X1: the constraints of table [cities] are kept: when names and
    rowids are unique and no rowid exceeds the [AUTOINCREMENT] counter,
    the same holds after [save_city_coordinates], whatever its arguments
    and whether it saves or refuses, and after
    [populate_initial_cities]. *)
Theorem table_constraints_are_kept
    (now : string) (db : database) (n : string) (lat lon : float) (c : string) :
  well_formed db ->
  well_formed (fst (save_city_coordinates now db n lat lon c))
  /\ well_formed (populate_initial_cities now db).
Proof.
  intros H. split.
  - unfold save_city_coordinates.
    destruct (valid_latitude lat); simpl; [| exact H].
    destruct (valid_longitude lon); simpl; [| exact H].
    now apply insert_or_replace_city_well_formed.
  - now apply populate_initial_cities_well_formed.
Qed.

(** The empty table, Vienna saved into it, and the table the program
    starts with. *)
Lemma table_constraints_are_kept_witness :
  well_formed (fst (save_city_coordinates "2024-03-02 09:00:00" empty_database
                      "Vienna" 48.2%float 16.37%float "Austria"))
  /\ well_formed (populate_initial_cities "2024-03-02 09:00:00" empty_database).
Proof.
  apply (table_constraints_are_kept "2024-03-02 09:00:00" empty_database
           "Vienna" 48.2%float 16.37%float "Austria").
  repeat split; constructor.
Defined.

Lemma find_app {A : Type} (p : A -> bool) (l l' : list A) :
  List.find p (l ++ l')
    = match List.find p l with Some x => Some x | None => List.find p l' end.
Proof.
  induction l as [| x l IH]; simpl; [reflexivity |]. destruct (p x); auto.
Qed.

Lemma find_filter_skip {A : Type} (p q : A -> bool) (l : list A) :
  (forall x, In x l -> q x = false -> p x = false) ->
  List.find p (filter q l) = List.find p l.
Proof.
  induction l as [| x l IH]; simpl; intros H; [reflexivity |].
  destruct (q x) eqn:Eq; simpl.
  - destruct (p x); [reflexivity |]. apply IH. intros y Hy. apply H. now right.
  - rewrite (H x (or_introl eq_refl) Eq). apply IH. intros y Hy. apply H. now right.
Qed.

Lemma find_nothing {A : Type} (p : A -> bool) (l : list A) :
  (forall x, In x l -> p x = false) -> List.find p l = None.
Proof.
  induction l as [| x l IH]; simpl; intros H; [reflexivity |].
  rewrite (H x (or_introl eq_refl)). apply IH. intros y Hy. apply H. now right.
Qed.

Lemma get_city_coordinates_find (db : database) (city_name : string) :
  get_city_coordinates db city_name
    = option_map (fun r => (latitude r, longitude r))
        (List.find (matches city_name) (cities db)).
Proof.
  unfold get_city_coordinates, matches. destruct (List.find _ _); reflexivity.
Qed.

Lemma save_city_coordinates_in_range
    (now : string) (db : database) (n : string) (lat lon : float) (c : string) :
  valid_latitude lat && valid_longitude lon = true ->
  save_city_coordinates now db n lat lon c
    = (insert_or_replace_city now db n lat lon c, true).
Proof.
  intros H. apply andb_true_iff in H. destruct H as [H1 H2].
  unfold save_city_coordinates. now rewrite H1, H2.
Qed.

Lemma matches_refl (n : string) (r : city_row) : name r = n -> matches n r = true.
Proof. intros <-. apply String.eqb_refl. Qed.

(** Reading a [REAL] cell twice is reading it once. *)
Lemma real_column_twice (f : float) : real_column (real_column f) = real_column f.
Proof.
  unfold real_column. destruct (PrimFloat.eqb f 0) eqn:E; [reflexivity |].
  now rewrite E.
Qed.

(** X2: saving then looking up.  When the coordinates are in range and
    no stored row spells the name differently (every row that the
    case-insensitive test accepts for the name holds exactly that name),
    the lookup of the name after [save_city_coordinates] answers the
    coordinates just saved as the [REAL] columns give them back: the
    same binary64 values, except that a negative zero is answered as
    positive zero. *)
Theorem saved_coordinates_are_found
    (now : string) (db : database) (n : string) (lat lon : float) (c : string) :
  valid_latitude lat && valid_longitude lon = true ->
  (forall r, In r (cities db) -> matches n r = true -> name r = n) ->
  get_city_coordinates (fst (save_city_coordinates now db n lat lon c)) n
    = Some (real_column lat, real_column lon).
Proof.
  intros Hv Hsame. rewrite (save_city_coordinates_in_range _ _ _ _ _ _ Hv).
  rewrite get_city_coordinates_find. simpl. rewrite find_app.
  replace (List.find (matches n) (filter _ (cities db))) with (@None city_row).
  - cbn [List.find]. rewrite matches_refl by reflexivity.
    unfold option_map, latitude, longitude. cbn [stored_latitude stored_longitude].
    now rewrite !real_column_twice.
  - symmetry. apply find_nothing. intros r Hr. apply filter_In in Hr.
    destruct Hr as [Hin Hnot]. destruct (matches n r) eqn:Hm; [| reflexivity].
    rewrite (Hsame r Hin Hm), String.eqb_refl in Hnot. discriminate.
Qed.

(** London alone in the table, saved again with a latitude of negative
    zero: the lookup answers positive zero. *)
Lemma saved_coordinates_are_found_witness :
  get_city_coordinates
    (fst (save_city_coordinates "2024-03-02 09:00:00" (mk_db [london_row] 2)
            "London" (-0)%float (-0.12)%float "England")) "London"
    = Some (0%float, (-0.12)%float).
Proof.
  apply (saved_coordinates_are_found "2024-03-02 09:00:00" (mk_db [london_row] 2)
           "London" (-0)%float (-0.12)%float "England").
  - reflexivity.
  - intros r [<- | []] _. reflexivity.
Defined.

(** X3: a second spelling shadows what is saved.  When a stored row
    holds the name in another spelling (the case-insensitive test accepts
    it, the name differs), that row is not replaced, and the lookup of
    the name after a successful [save_city_coordinates] answers the
    coordinates of a row stored before under another spelling, not those
    of the row just written. *)
Theorem other_spelling_shadows_saved
    (now : string) (db : database) (n : string) (lat lon : float) (c : string)
    (r : city_row) :
  valid_latitude lat && valid_longitude lon = true ->
  In r (cities db) -> matches n r = true -> name r <> n ->
  exists r',
    In r' (cities db) /\ name r' <> n /\ matches n r' = true
    /\ get_city_coordinates (fst (save_city_coordinates now db n lat lon c)) n
         = Some (latitude r', longitude r').
Proof.
  intros Hv Hin Hm Hne. rewrite (save_city_coordinates_in_range _ _ _ _ _ _ Hv).
  rewrite get_city_coordinates_find. simpl. rewrite find_app.
  destruct (List.find (matches n) (filter _ (cities db))) as [r' |] eqn:Hfind.
  - apply find_some in Hfind. destruct Hfind as [Hr' Hm'].
    apply filter_In in Hr'. destruct Hr' as [Hin' Hnot].
    exists r'. repeat split; try assumption.
    intros E. rewrite E, String.eqb_refl in Hnot. discriminate.
  - exfalso.
    assert (Hkept : In r (filter (fun x => negb (String.eqb (name x) n)) (cities db))).
    { apply filter_In. split; [exact Hin |].
      apply negb_true_iff, String.eqb_neq, Hne. }
    pose proof (find_none _ _ Hfind r Hkept) as Hf. congruence.
Qed.

(** Vienna is stored as "VIENNA" and as "Vienna"; new coordinates for
    "Vienna" are saved, and the lookup answers those of "VIENNA". *)
Lemma other_spelling_shadows_saved_witness :
  exists r',
    In r' (cities two_viennas) /\ name r' <> "Vienna" /\ matches "Vienna" r' = true
    /\ get_city_coordinates
         (fst (save_city_coordinates "2024-03-02 09:00:00" two_viennas
                 "Vienna" 48.2%float 16.37%float "Austria")) "Vienna"
       = Some (latitude r', longitude r').
Proof.
  apply (other_spelling_shadows_saved "2024-03-02 09:00:00" two_viennas "Vienna"
           48.2%float 16.37%float "Austria"
           (mk_city 1 "VIENNA" 1%float 2%float "" "2024-03-01 10:00:00")).
  - reflexivity.
  - left. reflexivity.
  - reflexivity.
  - discriminate.
Defined.

(** X4: saving one city leaves the lookups of the others alone: for a
    name whose lower-cased form differs from that of the saved name,
    [get_city_coordinates] answers after [save_city_coordinates], whatever
    its arguments, what it answered before; either answer is the pair as
    the [REAL] columns give it back. *)
Theorem other_names_are_untouched
    (now : string) (db : database) (n : string) (lat lon : float) (c : string)
    (m : string) :
  Str.sqlite_lower m <> Str.sqlite_lower n ->
  get_city_coordinates (fst (save_city_coordinates now db n lat lon c)) m
    = get_city_coordinates db m.
Proof.
  intros Hne. unfold save_city_coordinates.
  destruct (valid_latitude lat); simpl; [| reflexivity].
  destruct (valid_longitude lon); simpl; [| reflexivity].
  rewrite !get_city_coordinates_find. simpl. rewrite find_app.
  rewrite find_filter_skip.
  - destruct (List.find (matches m) (cities db)); [reflexivity |].
    cbn [List.find]. unfold matches at 1. simpl.
    replace (String.eqb (Str.sqlite_lower n) (Str.sqlite_lower m)) with false;
      [reflexivity |].
    symmetry. apply String.eqb_neq. congruence.
  - intros x _ Hx. apply negb_false_iff, String.eqb_eq in Hx.
    unfold matches. rewrite Hx. apply String.eqb_neq. congruence.
Qed.

Lemma other_names_are_untouched_witness :
  get_city_coordinates
    (fst (save_city_coordinates "2024-03-02 09:00:00" initial_database
            "London" 51.5%float (-0.12)%float "England")) "paris"
    = get_city_coordinates initial_database "paris".
Proof.
  apply (other_names_are_untouched "2024-03-02 09:00:00" initial_database
           "London" 51.5%float (-0.12)%float "England" "paris").
  intros E. vm_compute in E. discriminate E.
Defined.

Lemma existsb_named_absent (n : string) (rows : list city_row) :
  ~ In n (map name rows) -> existsb (named n) rows = false.
Proof.
  intros H. destruct (existsb (named n) rows) eqn:E; [| reflexivity].
  apply existsb_exists in E. destruct E as (r & Hr & Hn).
  apply String.eqb_eq in Hn. exfalso. apply H. apply in_map_iff. now exists r.
Qed.

Lemma filter_not_named_length (n : string) (rows : list city_row) :
  NoDup (map name rows) ->
  length (filter (not_named n) rows)
    + (if existsb (named n) rows then 1 else 0) = length rows.
Proof.
  induction rows as [| x rows IH]; simpl; intros H; [reflexivity |].
  inversion H as [| ? ? Hx Hrows]; subst. specialize (IH Hrows).
  unfold not_named at 1, named at 1.
  destruct (String.eqb_spec (name x) n) as [E | E]; simpl.
  - subst n. rewrite (existsb_named_absent _ _ Hx) in IH. lia.
  - lia.
Qed.

(** X5: how the table grows.  With unique names and coordinates in
    range, [save_city_coordinates] leaves the number of rows as it is
    when the name is stored already, and adds one row when it is not. *)
Theorem row_count_after_save
    (now : string) (db : database) (n : string) (lat lon : float) (c : string) :
  valid_latitude lat && valid_longitude lon = true ->
  NoDup (map name (cities db)) ->
  length (cities (fst (save_city_coordinates now db n lat lon c)))
    = if existsb (named n) (cities db) then length (cities db)
      else S (length (cities db)).
Proof.
  intros Hv Hn. rewrite (save_city_coordinates_in_range _ _ _ _ _ _ Hv). simpl.
  rewrite length_app. simpl.
  pose proof (filter_not_named_length n (cities db) Hn) as H.
  fold (not_named n).
  destruct (existsb (named n) (cities db)); lia.
Qed.

Lemma initial_names_unique : NoDup (map name (cities initial_database)).
Proof.
  apply (populate_initial_cities_well_formed _ _ empty_database_well_formed).
Qed.

Lemma row_count_after_save_witness :
  length (cities (fst (save_city_coordinates "2024-03-02 09:00:00" initial_database
                         "London" 51.5%float (-0.12)%float "England"))) = 20
  /\ length (cities (fst (save_city_coordinates "2024-03-02 09:00:00"
                            initial_database "Vienna" 48.2%float 16.37%float
                            "Austria"))) = 21.
Proof.
  split.
  - apply (row_count_after_save "2024-03-02 09:00:00" initial_database
             "London" 51.5%float (-0.12)%float "England");
      [reflexivity | exact initial_names_unique].
  - apply (row_count_after_save "2024-03-02 09:00:00" initial_database
             "Vienna" 48.2%float 16.37%float "Austria");
      [reflexivity | exact initial_names_unique].
Defined.

End FinalExtra.

(** ** The console side of the distance calculator *)

Module CliProps.

Import Final Cli.

Section Console.

Variable float_of_string : string -> option float.
Variable haversine_distance : float -> float -> float -> float -> float.
Variable now : string.

Local Abbreviation read_coordinate := (Cli.read_coordinate float_of_string).
Local Abbreviation get_city_coordinates_from_user :=
  (Cli.get_city_coordinates_from_user float_of_string now).
Local Abbreviation coordinates_of := (Cli.coordinates_of float_of_string now).
Local Abbreviation calculate_distance_between_cities :=
  (Cli.calculate_distance_between_cities float_of_string haversine_distance now).
Local Abbreviation handle_distance_calculation :=
  (Cli.handle_distance_calculation float_of_string haversine_distance now).

Lemma read_coordinate_valid (valid : float -> bool) (lines rest : list string)
    (x : float) :
  read_coordinate valid lines = (Some x, rest) -> valid x = true.
Proof.
  induction lines as [| l lines IH]; simpl; [discriminate |].
  destruct (negb (Str.truthy (Str.strip l))); [exact IH |].
  destruct (float_of_string (Str.strip l)) as [f |]; [| exact IH].
  destruct (valid f) eqn:Hv; [| exact IH].
  intros E. injection E as <- _. exact Hv.
Qed.

Lemma from_user_outcome
    (db db' : database) (city_name : string) (lines rest : list string)
    (answer : option (float * float)) :
  get_city_coordinates_from_user db city_name lines = (answer, db', rest) ->
  match answer with
  | Some (lat, lon) =>
      valid_latitude lat = true /\ valid_longitude lon = true
      /\ exists country,
           db' = insert_or_replace_city now db city_name lat lon country
  | None => db' = db
  end.
Proof.
  unfold Cli.get_city_coordinates_from_user.
  destruct (read_coordinate valid_latitude lines) as [[lat |] rest1] eqn:Hlat;
    [| intros E; injection E as <- <- _; reflexivity].
  destruct (read_coordinate valid_longitude rest1) as [[lon |] rest2] eqn:Hlon;
    [| intros E; injection E as <- <- _; reflexivity].
  destruct rest2 as [| l rest3]; [intros E; injection E as <- <- _; reflexivity |].
  apply read_coordinate_valid in Hlat. apply read_coordinate_valid in Hlon.
  rewrite FinalExtra.save_city_coordinates_in_range
    by (now rewrite Hlat, Hlon).
  intros E. injection E as <- <- _. repeat split; try assumption.
  now exists (Str.strip l).
Qed.

Lemma skipn_skipn {A : Type} (j k : nat) (l : list A) :
  skipn j (skipn k l) = skipn (k + j) l.
Proof.
  revert l. induction k as [| k IH]; intros l; simpl; [reflexivity |].
  destruct l as [| x l]; [now rewrite skipn_nil | apply IH].
Qed.

Lemma read_coordinate_consumes (valid : float -> bool) (lines rest : list string)
    (x : option float) :
  read_coordinate valid lines = (x, rest) -> exists k, rest = skipn k lines.
Proof.
  revert rest x. induction lines as [| l lines IH]; simpl; intros rest x.
  - intros E. injection E as _ <-. now exists 0.
  - assert (Hnext : read_coordinate valid lines = (x, rest) ->
                    exists k, rest = skipn k (l :: lines)).
    { intros H. destruct (IH _ _ H) as [k ->]. now exists (S k). }
    destruct (negb (Str.truthy (Str.strip l))); [exact Hnext |].
    destruct (float_of_string (Str.strip l)) as [f |]; [| exact Hnext].
    destruct (valid f); [| exact Hnext].
    intros E. injection E as _ <-. now exists 1.
Qed.


Lemma filter_all {A : Type} (p : A -> bool) (l : list A) :
  (forall x, In x l -> p x = true) -> filter p l = l.
Proof.
  induction l as [| x l IH]; simpl; intros H; [reflexivity |].
  rewrite (H x (or_introl eq_refl)). f_equal. apply IH. intros y Hy. apply H.
  now right.
Qed.

(** A city that the lookup does not find has no row of its name, so
    saving it only adds a row. *)
Lemma insert_when_not_found
    (db : database) (n : string) (lat lon : float) (c : string) :
  get_city_coordinates db n = None ->
  cities (insert_or_replace_city now db n lat lon c)
    = cities db
      ++ [mk_city (next_rowid db) n (real_column lat) (real_column lon) c now].
Proof.
  intros Hnone. unfold insert_or_replace_city. simpl. f_equal.
  apply filter_all. intros r Hr.
  rewrite FinalExtra.get_city_coordinates_find in Hnone.
  destruct (List.find (matches n) (cities db)) eqn:Hfind; [discriminate |].
  pose proof (find_none _ _ Hfind r Hr) as Hm.
  destruct (String.eqb_spec (name r) n) as [E | E]; [| reflexivity].
  rewrite (FinalExtra.matches_refl n r E) in Hm. discriminate.
Qed.

Lemma lookup_survives_append (db db' : database) (l : list city_row)
    (m : string) (c : float * float) :
  cities db' = cities db ++ l ->
  get_city_coordinates db m = Some c -> get_city_coordinates db' m = Some c.
Proof.
  intros Hc. rewrite !FinalExtra.get_city_coordinates_find, Hc, FinalExtra.find_app.
  destruct (List.find (matches m) (cities db)); [auto | discriminate].
Qed.

Lemma found_after_insert
    (db : database) (n : string) (lat lon : float) (c : string) :
  get_city_coordinates (insert_or_replace_city now db n lat lon c) n <> None.
Proof.
  rewrite FinalExtra.get_city_coordinates_find. simpl. rewrite FinalExtra.find_app.
  destruct (List.find (matches n) (filter _ (cities db))); [discriminate |].
  cbn [List.find]. rewrite FinalExtra.matches_refl by reflexivity. discriminate.
Qed.

Lemma coordinates_of_outcome
    (db db' : database) (city : string) (lines rest : list string)
    (answer : option (float * float)) :
  coordinates_of db city lines = (answer, db', rest) ->
  (forall m c, get_city_coordinates db m = Some c ->
               get_city_coordinates db' m = Some c)
  /\ (answer <> None -> get_city_coordinates db' city <> None).
Proof.
  unfold Cli.coordinates_of.
  destruct (get_city_coordinates db city) as [coords |] eqn:Hget.
  - intros E. injection E as <- <- _. split; [auto |]. intros _. congruence.
  - intros Hrun. pose proof (from_user_outcome _ _ _ _ _ _ Hrun) as Hout.
    destruct answer as [[lat lon] |].
    + destruct Hout as (_ & _ & country & ->). split.
      * intros m c.
        apply lookup_survives_append
          with (l := [mk_city (next_rowid db) city (real_column lat)
                        (real_column lon) country now]).
        now apply insert_when_not_found.
      * intros _. apply found_after_insert.
    + subst db'. split; [auto | congruence].
Qed.

(** X7: after a distance was calculated, both cities are in the table:
    when [calculate_distance_between_cities] answers a distance, the
    lookup of either name finds a row in the table it leaves. *)
Theorem calculated_cities_are_known
    (db db' : database) (city1 city2 : string) (lines rest : list string)
    (distance : float) :
  calculate_distance_between_cities db city1 city2 lines
    = (Some distance, db', rest) ->
  get_city_coordinates db' city1 <> None
  /\ get_city_coordinates db' city2 <> None.
Proof.
  unfold Cli.calculate_distance_between_cities.
  destruct (coordinates_of db city1 lines) as [[[coords1 |] db1] rest1] eqn:H1;
    [| discriminate].
  destruct (coordinates_of db1 city2 rest1) as [[[coords2 |] db2] rest2] eqn:H2;
    [| discriminate].
  intros E. injection E as _ <- _.
  destruct (coordinates_of_outcome _ _ _ _ _ _ H1) as [_ Hfound1].
  destruct (coordinates_of_outcome _ _ _ _ _ _ H2) as [Hkeep2 Hfound2].
  split; [| apply Hfound2; discriminate].
  destruct (get_city_coordinates db1 city1) as [c |] eqn:Hc;
    [| exfalso; apply Hfound1; [discriminate | reflexivity]].
  rewrite (Hkeep2 _ _ Hc). discriminate.
Qed.

(** X8: a distance calculation never takes a city away: whatever is
    typed, a lookup that found a pair before
    [handle_distance_calculation] finds the same pair after it; and when
    the handler stops early (a name is empty, both names are the same up
    to case, or the input ends before the second name) the table is
    unchanged. *)
Theorem lookups_survive_calculation
    (db db' : database) (lines rest : list string) (outcome : handled) :
  handle_distance_calculation db lines = (outcome, db', rest) ->
  (forall m c, get_city_coordinates db m = Some c ->
               get_city_coordinates db' m = Some c)
  /\ (match outcome with
      | EmptyCityName | SameCity | InputEnded => db' = db
      | DistanceShown _ | CalculationFailed => True
      end).
Proof.
  unfold Cli.handle_distance_calculation.
  destruct lines as [| l1 rest1]; [intros E; injection E as <- <- _; auto |].
  destruct (negb (Str.truthy (Str.strip l1)));
    [intros E; injection E as <- <- _; auto |].
  destruct rest1 as [| l2 rest2]; [intros E; injection E as <- <- _; auto |].
  destruct (negb (Str.truthy (Str.strip l2)));
    [intros E; injection E as <- <- _; auto |].
  destruct (String.eqb (Str.lower (Str.strip l1)) (Str.lower (Str.strip l2)));
    [intros E; injection E as <- <- _; auto |].
  unfold Cli.calculate_distance_between_cities.
  destruct (coordinates_of db (Str.strip l1) rest2)
    as [[answer1 db1] r1] eqn:H1.
  destruct (coordinates_of_outcome _ _ _ _ _ _ H1) as [Hkeep1 _].
  destruct answer1 as [coords1 |];
    [| intros E; injection E as <- <- _; split; [exact Hkeep1 | exact I]].
  destruct (coordinates_of db1 (Str.strip l2) r1) as [[answer2 db2] r2] eqn:H2.
  destruct (coordinates_of_outcome _ _ _ _ _ _ H2) as [Hkeep2 _].
  destruct answer2 as [coords2 |]; intros E; injection E as <- <- _;
    (split; [intros m c Hm; apply Hkeep2, Hkeep1, Hm | exact I]).
Qed.

End Console.


(** From London to Vienna: London is stored, Vienna is typed in. *)
Lemma calculated_cities_are_known_witness :
  get_city_coordinates
    (insert_or_replace_city "2024-03-02 09:00:00" initial_database "Vienna"
       48.2%float 16.37%float "Austria") "London" <> None
  /\ get_city_coordinates
       (insert_or_replace_city "2024-03-02 09:00:00" initial_database "Vienna"
          48.2%float 16.37%float "Austria") "Vienna" <> None.
Proof.
  apply (calculated_cities_are_known sample_float sample_haversine
           "2024-03-02 09:00:00" initial_database
           (insert_or_replace_city "2024-03-02 09:00:00" initial_database "Vienna"
              48.2%float 16.37%float "Austria")
           "London" "Vienna" ["48.2"; "16.37"; "Austria"] [] 0%float).
  reflexivity.
Defined.

(** From London, which is stored, to Vienna, which is typed in. *)
Lemma lookups_survive_calculation_witness :
  (forall m c, get_city_coordinates initial_database m = Some c ->
               get_city_coordinates
                 (insert_or_replace_city "2024-03-02 09:00:00" initial_database
                    "Vienna" 48.2%float 16.37%float "Austria") m = Some c)
  /\ True.
Proof.
  apply (lookups_survive_calculation sample_float sample_haversine
           "2024-03-02 09:00:00" initial_database
           (insert_or_replace_city "2024-03-02 09:00:00" initial_database "Vienna"
              48.2%float 16.37%float "Austria")
           ["London"; " Vienna "; "48.2"; "16.37"; "Austria"] []
           (DistanceShown 0%float)).
  reflexivity.
Defined.

End CliProps.

(** ** More on the news feed *)

Module FeedExtra.

Import Feed FeedMore.

(** *** What the methods of a record leave alone *)

Lemma same_identity_refl (r : FeedRecord) : same_identity r r.
Proof. destruct r; simpl; auto. Qed.

Lemma same_identity_trans (a b c : FeedRecord) :
  same_identity a b -> same_identity b c -> same_identity a c.
Proof.
  destruct a, b, c; simpl; try tauto; intuition congruence.
Qed.

Section Preserve.

Variable Rr : FeedRecord -> FeedRecord -> Prop.
Variable Rw : World -> World -> Prop.
Hypothesis Rr_identity : forall r r', same_identity r r' -> Rr r r'.
Hypothesis Rr_trans : forall a b c, Rr a b -> Rr b c -> Rr a c.
Hypothesis Rw_refl : forall w, Rw w w.
Hypothesis Rw_trans : forall a b c, Rw a b -> Rw b c -> Rw a c.
Hypothesis Rw_print : forall p, keeps Rw (print p).
Hypothesis Rw_input : forall s, keeps Rw (input s).
Hypothesis Rw_now : keeps Rw datetime_now.

Local Abbreviation R := (related Rr Rw).

Lemma R_refl (o : Obj) : R o o.
Proof. split; [apply Rr_identity, same_identity_refl | apply Rw_refl]. Qed.

Lemma R_trans (a b c : Obj) : R a b -> R b c -> R a c.
Proof. intros [A1 A2] [B1 B2]. split; eauto. Qed.

Lemma preserves_ret {A : Type} (a : A) : preserves R (ret a).
Proof. intros o res o' E. injection E as _ <-. apply R_refl. Qed.

Lemma preserves_raise {A : Type} (e : exn) : preserves R (@raise Obj A e).
Proof. intros o res o' E. injection E as _ <-. apply R_refl. Qed.

Lemma preserves_lift {A : Type} (r : Res A) : preserves R (lift r).
Proof. intros o res o' E. injection E as _ <-. apply R_refl. Qed.

Lemma preserves_bind {A B : Type} (m : M Obj A) (k : A -> M Obj B) :
  preserves R m -> (forall a, preserves R (k a)) -> preserves R (bind m k).
Proof.
  intros Hm Hk o res o'. unfold bind.
  destruct (m o) as [[a | e] o1] eqn:E.
  - intros H. eapply R_trans; [eapply Hm, E | eapply Hk, H].
  - intros H. injection H as _ <-. eapply Hm, E.
Qed.

Lemma preserves_try {A : Type} (m : M Obj A) (h : exn -> M Obj A) :
  preserves R m -> (forall e, preserves R (h e)) -> preserves R (try_except m h).
Proof.
  intros Hm Hh o res o'. unfold try_except.
  destruct (m o) as [[a | e] o1] eqn:E.
  - intros H. injection H as _ <-. eapply Hm, E.
  - intros H. eapply R_trans; [eapply Hm, E | eapply Hh, H].
Qed.

(** A computation that starts by reading the record: it is enough to
    follow the rest from an object that holds that record. *)
Lemma preserves_self_bind {A : Type} (k : FeedRecord -> M Obj A) :
  (forall r w res o', k r (r, w) = (res, o') -> R (r, w) o') ->
  preserves R (bind self k).
Proof. intros H [r w] res o'. unfold bind, self. apply H. Qed.

Lemma preserves_in_world {A : Type} (m : M World A) :
  keeps Rw m -> preserves R (in_world m).
Proof.
  intros Hm [r w] res [r' w']. unfold in_world.
  destruct (m w) as [a w1] eqn:E. intros H. injection H as _ <- <-.
  split; [apply Rr_identity, same_identity_refl | eapply Hm, E].
Qed.

Lemma preserves_lines_left : preserves R lines_left.
Proof. intros [r w] res o' E. injection E as _ <-. apply R_refl. Qed.

Lemma preserves_while (step : M Obj bool) (n : nat) :
  preserves R step -> preserves R (while_input n step).
Proof.
  intros Hs. induction n as [| n IH]; simpl; apply preserves_bind; try exact Hs;
    intros [|]; first [apply preserves_raise | apply preserves_ret | exact IH].
Qed.

(** Assigning a field that is not part of the identity. *)
Lemma preserves_set_self (r r' : FeedRecord) (w : World) (res : Res unit) (o' : Obj) :
  same_identity r r' -> set_self r' (r, w) = (res, o') -> R (r, w) o'.
Proof.
  intros Hid E. injection E as _ <-. split; [apply Rr_identity, Hid | apply Rw_refl].
Qed.

Lemma preserves_setter (set : pyval -> M Obj unit) :
  (forall v r w, exists r', set v (r, w) = (Ok tt, (r', w)) /\ same_identity r r') ->
  forall v, preserves R (set v).
Proof.
  intros H v [r w] res o' E. destruct (H v r w) as (r' & Hrun & Hid).
  rewrite Hrun in E. injection E as _ <-.
  split; [apply Rr_identity, Hid | apply Rw_refl].
Qed.

Lemma set_city_runs (v : pyval) (r : FeedRecord) (w : World) :
  exists r', set_city v (r, w) = (Ok tt, (r', w)) /\ same_identity r r'.
Proof. destruct r; eexists; (split; [reflexivity | simpl; auto]). Qed.

Lemma set_expiration_date_str_runs (v : pyval) (r : FeedRecord) (w : World) :
  exists r', set_expiration_date_str v (r, w) = (Ok tt, (r', w)) /\ same_identity r r'.
Proof. destruct r; eexists; (split; [reflexivity | simpl; auto]). Qed.

Lemma set_severity_runs (v : pyval) (r : FeedRecord) (w : World) :
  exists r', set_severity v (r, w) = (Ok tt, (r', w)) /\ same_identity r r'.
Proof. destruct r; eexists; (split; [reflexivity | simpl; auto]). Qed.

Lemma set_location_runs (v : pyval) (r : FeedRecord) (w : World) :
  exists r', set_location v (r, w) = (Ok tt, (r', w)) /\ same_identity r r'.
Proof. destruct r; eexists; (split; [reflexivity | simpl; auto]). Qed.

Lemma preserves_parse_expiration_date : preserves R parse_expiration_date.
Proof.
  apply preserves_self_bind. intros r w res o'.
  destruct r as [t ts c | t ts s e dl | t ts sv l a];
    try (intros E; injection E as _ <-; apply R_refl).
  unfold bind, lift. destruct (strptime s) as [d | e'];
    [| intros E; injection E as _ <-; apply R_refl].
  simpl. intros E. injection E as _ <-.
  split; [apply Rr_identity; simpl; auto |].
  simpl. eapply (Rw_now w). reflexivity.
Qed.

Lemma preserves_ensure_expiration_date : preserves R ensure_expiration_date.
Proof.
  apply preserves_self_bind. intros r w res o'.
  destruct r as [t ts c | t ts s [e |] dl | t ts sv l a];
    try (intros E; injection E as _ <-; apply R_refl).
  destruct (truthy s); [| intros E; injection E as _ <-; apply R_refl].
  apply preserves_try; [apply preserves_parse_expiration_date |].
  intros e. destruct e; first [apply preserves_ret | apply preserves_raise].
Qed.

Lemma preserves_input_until_given (prompt complaint : string)
    (get : FeedRecord -> pyval) (set : pyval -> M Obj unit) :
  (forall v, preserves R (set v)) ->
  preserves R (input_until_given prompt complaint get set).
Proof.
  intros Hset. unfold input_until_given.
  apply preserves_bind; [apply preserves_in_world, Rw_input | intros x].
  apply preserves_bind; [apply Hset | intros _].
  apply preserves_bind; [apply preserves_lines_left | intros n].
  apply preserves_while.
  apply preserves_self_bind. intros r w res o'.
  destruct (negb (truthy (get r))); [| intros E; injection E as _ <-; apply R_refl].
  apply preserves_bind; [apply preserves_in_world, Rw_print | intros _].
  apply preserves_bind; [apply preserves_in_world, Rw_input | intros y].
  apply preserves_bind; [apply Hset | intros _]. apply preserves_ret.
Qed.

Variable str_of : pyval -> string.
Variable title : string -> string.

Lemma preserves_NewsRecord_get_user_input : preserves R NewsRecord_get_user_input.
Proof.
  apply preserves_self_bind. intros r w res o'.
  destruct (negb (truthy (record_city r)));
    [| intros E; injection E as _ <-; apply R_refl].
  apply preserves_input_until_given, preserves_setter, set_city_runs.
Qed.

Lemma preserves_PrivateAdRecord_get_user_input :
  preserves R (PrivateAdRecord_get_user_input str_of).
Proof.
  apply preserves_self_bind. intros r w res o'.
  destruct r as [t ts c | t ts s e dl | t ts sv l a];
    try (intros E; injection E as _ <-; apply R_refl).
  destruct (negb (truthy s)).
  - apply preserves_bind; [apply preserves_lines_left | intros n].
    apply preserves_while.
    apply preserves_bind; [apply preserves_in_world, Rw_input | intros x].
    apply preserves_bind;
      [apply preserves_setter, set_expiration_date_str_runs | intros _].
    apply preserves_try.
    + apply preserves_bind; [apply preserves_parse_expiration_date | intros _].
      apply preserves_ret.
    + intros e'. destruct e'; try apply preserves_raise.
      apply preserves_bind; [apply preserves_in_world, Rw_print | intros _].
      apply preserves_ret.
  - apply preserves_try; [apply preserves_parse_expiration_date |].
    intros e'. destruct e'; apply preserves_raise.
Qed.

Lemma preserves_WeatherAlertRecord_get_user_input :
  preserves R (WeatherAlertRecord_get_user_input title).
Proof.
  apply preserves_self_bind. intros r w res o'.
  apply preserves_bind.
  - destruct (negb (truthy (record_severity r))); [| apply preserves_ret].
    apply preserves_bind; [apply preserves_in_world, Rw_print | intros _].
    apply preserves_bind; [apply preserves_lines_left | intros n].
    apply preserves_while.
    apply preserves_bind; [apply preserves_in_world, Rw_input | intros x].
    apply preserves_bind; [apply preserves_setter, set_severity_runs | intros _].
    destruct (existsb _ severity_options); [apply preserves_ret |].
    apply preserves_bind; [apply preserves_in_world, Rw_print | intros _].
    apply preserves_ret.
  - intros _. apply preserves_self_bind. intros r1 w1 res1 o1.
    destruct (negb (truthy (record_location r1)));
      [| intros E; injection E as _ <-; apply R_refl].
    apply preserves_input_until_given, preserves_setter, set_location_runs.
Qed.

Lemma preserves_get_user_input : preserves R (get_user_input str_of title).
Proof.
  apply preserves_self_bind. intros r w res o'. destruct r.
  - apply preserves_NewsRecord_get_user_input.
  - apply preserves_PrivateAdRecord_get_user_input.
  - apply preserves_WeatherAlertRecord_get_user_input.
Qed.

Lemma preserves_format_for_publication :
  preserves R (format_for_publication str_of title).
Proof.
  apply preserves_self_bind. intros r w res o'.
  destruct r as [t ts c | t ts s e dl | t ts sv l a].
  - intros E. injection E as _ <-. apply R_refl.
  - apply preserves_bind.
    + destruct e; [apply preserves_ret | apply preserves_get_user_input].
    + intros _. apply preserves_self_bind. intros r1 w1 res1 o1 E.
      destruct r1; injection E as _ <-; apply R_refl.
  - apply preserves_bind.
    + destruct (negb (truthy sv) || negb (truthy l));
        [apply preserves_get_user_input | apply preserves_ret].
    + intros _. apply preserves_self_bind. intros r1 w1 res1 o1 E.
      destruct r1; injection E as _ <-; apply R_refl.
Qed.

End Preserve.

Lemma keeps_any_world {A : Type} (m : M World A) : keeps any_world m.
Proof. intros w res w' _. exact I. Qed.

Lemma keeps_store_print (p : Printed) : keeps same_store (print p).
Proof. intros w res w' E. injection E as _ <-. split; reflexivity. Qed.

Lemma keeps_store_input (s : string) : keeps same_store (input s).
Proof.
  intros w res w'. unfold input. destruct (stdin w); intros E; injection E as _ <-;
    split; reflexivity.
Qed.

Lemma keeps_store_now : keeps same_store datetime_now.
Proof. intros w res w' E. injection E as _ <-. split; reflexivity. Qed.

Lemma any_record_trans (a b c : FeedRecord) :
  any_record a b -> any_record b c -> any_record a c.
Proof. intros _ _. exact I. Qed.

Lemma any_world_trans (a b c : World) :
  any_world a b -> any_world b c -> any_world a c.
Proof. intros _ _. exact I. Qed.

Section Publishing.

Variable sha256_hexdigest : string -> string.
Variable str_of : pyval -> string.
Variable title : string -> string.

Local Abbreviation generate_content_hash :=
  (Feed.generate_content_hash sha256_hexdigest str_of).
Local Abbreviation get_database_data := (Feed.get_database_data sha256_hexdigest str_of).
Local Abbreviation check_duplicate := (Feed.check_duplicate sha256_hexdigest str_of).
Local Abbreviation save_record := (Feed.save_record sha256_hexdigest str_of).
Local Abbreviation publish_record :=
  (Feed.publish_record sha256_hexdigest str_of title).
Local Abbreviation format_for_publication := (Feed.format_for_publication str_of title).

(** Rendering, with the questions it may ask, leaves database and news
    feed file alone. *)
Lemma format_for_publication_keeps_store (r : FeedRecord) (w : World)
    (res : Res string) (r' : FeedRecord) (w' : World) :
  format_for_publication (r, w) = (res, (r', w')) -> same_store w w'.
Proof.
  intros E.
  assert (H : preserves (related any_record same_store) format_for_publication).
  { apply preserves_format_for_publication;
      first [ exact (fun _ _ _ => I) | exact any_record_trans
            | exact FeedProps.same_store_refl | exact FeedProps.same_store_trans
            | exact keeps_store_print | exact keeps_store_input
            | exact keeps_store_now ]. }
  apply (H _ _ _ E).
Qed.

Local Abbreviation Id := (related same_identity any_world).

Ltac identity_side :=
  first [ exact (fun _ _ H => H) | exact same_identity_trans
        | exact (fun _ => I) | exact any_world_trans
        | exact (fun _ => keeps_any_world _) | exact (keeps_any_world _)
        | intros; apply keeps_any_world ].

Lemma identity_bind {A B : Type} (m : M Obj A) (k : A -> M Obj B) :
  preserves Id m -> (forall a, preserves Id (k a)) -> preserves Id (bind m k).
Proof. apply preserves_bind; identity_side. Qed.

Lemma identity_try {A : Type} (m : M Obj A) (h : exn -> M Obj A) :
  preserves Id m -> (forall e, preserves Id (h e)) -> preserves Id (try_except m h).
Proof. apply preserves_try; identity_side. Qed.

Lemma identity_in_world {A : Type} (m : M World A) : preserves Id (in_world m).
Proof. apply preserves_in_world; identity_side. Qed.

Lemma identity_ret {A : Type} (a : A) : preserves Id (ret a).
Proof. apply preserves_ret; identity_side. Qed.

Lemma identity_raise {A : Type} (e : exn) : preserves Id (@raise Obj A e).
Proof. apply preserves_raise; identity_side. Qed.

Lemma identity_self : preserves Id self.
Proof. intros [r w] res o' E. injection E as _ <-. split; [apply same_identity_refl | exact I]. Qed.

Lemma identity_hash_cycle (depth : nat) :
  preserves Id (generate_content_hash depth)
  /\ preserves Id (get_database_data depth).
Proof.
  induction depth as [| d [IHh IHd]]; [split; apply identity_raise |].
  split.
  - simpl. apply identity_bind; [apply identity_self | intros r].
    apply identity_bind; [exact IHd | intros db]. apply identity_ret.
  - simpl. apply identity_bind.
    + apply preserves_ensure_expiration_date; identity_side.
    + intros _. apply identity_bind; [apply identity_self | intros r].
      destruct r; (apply identity_bind; [exact IHh | intros h; apply identity_ret]).
Qed.

Lemma identity_save_record (depth : nat) : preserves Id (save_record depth).
Proof.
  destruct (identity_hash_cycle depth) as [Hh Hd].
  unfold Feed.save_record. apply identity_try.
  - apply identity_bind.
    + unfold Feed.check_duplicate. apply identity_try.
      * apply identity_bind; [apply identity_self | intros r].
        apply identity_bind; [exact Hh | intros h].
        apply identity_bind; [apply identity_in_world | intros c]. apply identity_ret.
      * intros e. apply identity_bind; [apply identity_in_world | intros _].
        apply identity_ret.
    + intros [|].
      * apply identity_bind; [apply identity_self | intros r].
        apply identity_bind; [apply identity_in_world | intros _]. apply identity_ret.
      * apply identity_bind; [apply identity_self | intros r].
        apply identity_bind; [exact Hd | intros db].
        apply identity_bind; [apply identity_in_world | intros i].
        apply identity_bind; [apply identity_self | intros r'].
        apply identity_bind; [apply identity_in_world | intros _]. apply identity_ret.
  - intros e. destruct e;
      (apply identity_bind; [apply identity_in_world | intros _; apply identity_ret]).
Qed.

Lemma identity_publish_record (depth : nat) (save_to_database : bool) :
  preserves Id (publish_record depth save_to_database).
Proof.
  unfold Feed.publish_record, Feed.publish_with. apply identity_try.
  - apply identity_bind.
    + destruct save_to_database; [| apply identity_ret].
      apply identity_bind; [apply identity_save_record | intros ok].
      destruct (negb ok); [| apply identity_ret].
      apply identity_bind; [apply identity_in_world | intros _]. apply identity_ret.
    + intros [|]; [| apply identity_ret].
      apply identity_bind.
      * apply preserves_format_for_publication; identity_side.
      * intros s. apply identity_bind; [apply identity_in_world | intros _].
        apply identity_ret.
  - intros e. apply identity_bind; [apply identity_in_world | intros _].
    apply identity_ret.
Qed.

Lemma append_empty_r (s : string) : (s ++ "")%string = s.
Proof. induction s as [| c s IH]; simpl; [reflexivity | now rewrite IH]. Qed.

Lemma append_associative (a b c : string) :
  ((a ++ b) ++ c)%string = (a ++ (b ++ c))%string.
Proof. induction a as [| x a IH]; simpl; [reflexivity | now rewrite IH]. Qed.

Lemma publish_record_outcome
    (depth : nat) (save_to_database : bool) (r : FeedRecord) (w : World) :
  exists published r' w' appended,
    publish_record depth save_to_database (r, w) = (Ok published, (r', w'))
    /\ database w' = database w
    /\ output_file w' = (output_file w ++ appended)%string
    /\ (published = false -> appended = "")
    /\ (save_to_database = true -> published = false).
Proof.
  destruct save_to_database.
  - destruct (FeedProps.publish_record_is_skipped sha256_hexdigest str_of title
                depth r w) as (r' & w' & Hrun & Hdb & Hfile).
    exists false, r', w', "". rewrite append_empty_r. auto.
  - unfold Feed.publish_record, Feed.publish_with, try_except, bind at 1.
    unfold ret at 1. unfold bind at 1.
    destruct (format_for_publication (r, w)) as [[s | e] [r1 w1]] eqn:E;
      destruct (format_for_publication_keeps_store _ _ _ _ _ E) as [Hdb Hfile].
    + exists true, r1,
        (set_stdout (stdout w1 ++ [PublishedToFile])
           (set_output_file (output_file w1 ++ s) w1)), s.
      split; [reflexivity |]. simpl. rewrite Hfile.
      repeat split; [exact Hdb | discriminate | discriminate].
    + exists false, r1, (set_stdout (stdout w1 ++ [PublishError e]) w1), "".
      split; [reflexivity |]. simpl. rewrite append_empty_r. auto.
Qed.


(** X10: a record keeps its identity through publication: after
    [publish_record], whatever it asked, parsed or failed to store, the
    record is of the same class and has the same text, the same capture
    time and, for a weather alert, the same alert identifier. *)
Theorem publish_record_keeps_identity
    (depth : nat) (save_to_database : bool) (r : FeedRecord) (w : World) :
  same_identity r (fst (snd (publish_record depth save_to_database (r, w)))).
Proof.
  destruct (publish_record depth save_to_database (r, w)) as [res [r' w']] eqn:E.
  apply (identity_publish_record depth save_to_database _ _ _ E).
Qed.

End Publishing.

(** *** The decoders *)

Lemma FeedRecord_init_cases (text : pyval) (w : World) :
  FeedRecord_init text w = (Raise (AttributeError "strip"), w)
  \/ exists s, text = PStr s
       /\ FeedRecord_init text w
            = (Ok (Str.strip s, clock w (ticks w)), set_ticks (S (ticks w)) w).
Proof.
  destruct text; try (left; reflexivity). right. eexists. split; reflexivity.
Qed.

Lemma rstrip_idempotent (s : string) : Str.rstrip (Str.rstrip s) = Str.rstrip s.
Proof.
  induction s as [| c s IH]; simpl; [reflexivity |].
  destruct (Str.rstrip s) as [| c' r] eqn:E.
  - destruct (Str.is_space c) eqn:Hc; simpl; [reflexivity | now rewrite Hc].
  - change (Str.rstrip (String c (String c' r)))
      with (match Str.rstrip (String c' r) with
            | EmptyString =>
                if Str.is_space c then EmptyString else String c EmptyString
            | r0 => String c r0
            end).
    rewrite IH. reflexivity.
Qed.

Lemma lstrip_head (s : string) :
  Str.lstrip s = EmptyString
  \/ exists c r, Str.lstrip s = String c r /\ Str.is_space c = false.
Proof.
  induction s as [| c s IH]; simpl; [now left |].
  destruct (Str.is_space c) eqn:Hc; [exact IH | right; now exists c, s].
Qed.

Lemma strip_idempotent (s : string) : Str.strip (Str.strip s) = Str.strip s.
Proof.
  unfold Str.strip.
  destruct (lstrip_head s) as [E | (c & r & E & Hc)]; rewrite E; [reflexivity |].
  assert (Hkeep : exists r', Str.rstrip (String c r) = String c r').
  { simpl. destruct (Str.rstrip r); [rewrite Hc |]; eexists; reflexivity. }
  destruct Hkeep as [r' Hr']. rewrite Hr'.
  simpl Str.lstrip. rewrite Hc. rewrite <- Hr'. apply rstrip_idempotent.
Qed.

Lemma NewsRecord_init_outcome (text city : pyval) (w : World) :
  decode_outcome here w (NewsRecord_init text city w).
Proof.
  unfold NewsRecord_init, bind.
  destruct (FeedRecord_init_cases text w) as [E | (s & -> & E)]; rewrite E;
    [reflexivity |].
  simpl. repeat split. apply strip_idempotent.
Qed.

Lemma PrivateAdRecord_init_outcome (text date : pyval) (w : World) :
  decode_outcome here w (PrivateAdRecord_init text date w).
Proof.
  unfold PrivateAdRecord_init, bind.
  destruct (FeedRecord_init_cases text w) as [E | (s & -> & E)]; rewrite E;
    [reflexivity |].
  simpl. repeat split. apply strip_idempotent.
Qed.

Lemma WeatherAlertRecord_init_outcome (text severity location : pyval) (w : World) :
  decode_outcome here w (WeatherAlertRecord_init text severity location w).
Proof.
  unfold WeatherAlertRecord_init, bind.
  destruct (FeedRecord_init_cases text w) as [E | (s & -> & E)]; rewrite E;
    [reflexivity |].
  simpl. repeat split. apply strip_idempotent.
Qed.

Lemma from_json_data_outcome (cls : record_class) (data : pyval) (w : World) :
  decode_outcome here w (from_json_data cls data w).
Proof.
  destruct cls; simpl from_json_data.
  - unfold NewsRecord_from_json_data, bind, lift.
    destruct (py_get data "text" _) as [text | e]; [| reflexivity].
    destruct (py_get data "city" _) as [city | e]; [| reflexivity].
    destruct (negb (truthy text)); [reflexivity |].
    destruct (negb (truthy city)); [reflexivity |].
    apply NewsRecord_init_outcome.
  - unfold PrivateAdRecord_from_json_data, bind, lift.
    destruct (py_get data "text" _) as [text | e]; [| reflexivity].
    destruct (py_get data "expiration_date" _) as [date | e]; [| reflexivity].
    destruct (negb (truthy text)); [reflexivity |].
    destruct (negb (truthy date)); [reflexivity |].
    apply PrivateAdRecord_init_outcome.
  - unfold WeatherAlertRecord_from_json_data, bind, lift.
    destruct (py_get data "text" _) as [text | e]; [| reflexivity].
    destruct (py_get data "severity" _) as [sev | e]; [| reflexivity].
    destruct (py_get data "location" _) as [loc | e]; [| reflexivity].
    destruct (negb (truthy text)); [reflexivity |].
    destruct (negb (truthy sev)); [reflexivity |].
    destruct (negb (truthy loc)); [reflexivity |].
    apply WeatherAlertRecord_init_outcome.
Qed.

Lemma from_xml_element_outcome (cls : record_class) (element : Element) (w : World) :
  decode_outcome here w (from_xml_element cls element w).
Proof.
  destruct cls; simpl from_xml_element.
  - unfold NewsRecord_from_xml_element.
    destruct (element_content (find element "text")); [| reflexivity].
    destruct (element_content (find element "city")); [| reflexivity].
    apply NewsRecord_init_outcome.
  - unfold PrivateAdRecord_from_xml_element.
    destruct (element_content (find element "text")); [| reflexivity].
    destruct (element_content (find element "expiration_date")); [| reflexivity].
    apply PrivateAdRecord_init_outcome.
  - unfold WeatherAlertRecord_from_xml_element.
    destruct (element_content (find element "text")); [| reflexivity].
    destruct (element_content (find element "severity")); [| reflexivity].
    destruct (element_content (find element "location")); [| reflexivity].
    apply WeatherAlertRecord_init_outcome.
Qed.

(** X11: a decoder call has no effect but the record.  For every class
    and every input, [from_json_data] and [from_xml_element] either
    raise and leave the world exactly as it was, or build a record whose
    text is stripped and whose timestamp is the one clock reading they
    made, having printed, read, stored and appended nothing (a weather
    alert also draws its four random characters). *)
Theorem decoders_touch_only_the_clock
    (cls : record_class) (data : pyval) (element : Element) (w : World) :
  decode_outcome here w (from_json_data cls data w)
  /\ decode_outcome here w (from_xml_element cls element w).
Proof.
  split; [apply from_json_data_outcome | apply from_xml_element_outcome].
Qed.

Lemma json_envelope_outcome (x : pyval) (w : World) :
  decode_outcome fst w (json_envelope x w).
Proof.
  unfold json_envelope, bind, lift.
  destruct (py_get x "type" _) as [t | e]; [| reflexivity].
  destruct (py_lower t) as [ty | e]; [| reflexivity].
  destruct (py_get x "data" _) as [data | e]; [| reflexivity].
  destruct (mapping_getitem ty) as [cls | e]; [| reflexivity].
  pose proof (from_json_data_outcome cls data w) as H.
  destruct (from_json_data cls data w) as [[r | e] w']; exact H.
Qed.

Lemma xml_envelope_outcome (x : Element) (w : World) :
  decode_outcome fst w (xml_envelope x w).
Proof.
  unfold xml_envelope, bind, lift.
  destruct (mapping_getitem _) as [cls | e]; [| reflexivity].
  pose proof (from_xml_element_outcome cls x w) as H.
  destruct (from_xml_element cls x w) as [[r | e] w']; exact H.
Qed.

(** *** The processors on any collection *)

Section AnyBatch.

Context {X : Type} (envelope : X -> M World (FeedRecord * string)).
Hypothesis envelope_outcome : forall x w, decode_outcome fst w (envelope x w).

Lemma parse_each_never_aborts (xs : list X) :
  forall i records w, exists rs out w',
    parse_each envelope i xs records w = (Ok (records ++ rs), w')
    /\ stdout w' = stdout w ++ out
    /\ length out = length xs
    /\ length rs = length (filter is_processed out).
Proof.
  induction xs as [| x xs IH]; intros i records w.
  - exists [], [], w. simpl. rewrite !app_nil_r. auto.
  - pose proof (envelope_outcome x w) as Hout.
    destruct (envelope x w) as [[[r ty] | e] w1] eqn:E.
    + simpl in Hout. destruct Hout as [(_ & _ & Hstd & _) _].
      rewrite (FeedProps.parse_each_decoded envelope i x xs records w w1 r ty E).
      destruct (IH (S i) (records ++ [r])
                  (set_stdout (stdout w1 ++ [RecordProcessed i ty]) w1))
        as (rs & out & w' & Hrun & Hs & Hl & Hc).
      exists (r :: rs), (RecordProcessed i ty :: out), w'.
      rewrite Hrun, <- app_assoc. simpl. repeat split; try congruence.
      rewrite Hs. destruct w1. simpl in *. rewrite Hstd, <- app_assoc. reflexivity.
    + simpl in Hout. subst w1.
      rewrite (FeedProps.parse_each_failed envelope i x xs records w w e E).
      destruct (IH (S i) records (set_stdout (stdout w ++ [RecordError i e]) w))
        as (rs & out & w' & Hrun & Hs & Hl & Hc).
      exists rs, (RecordError i e :: out), w'.
      rewrite Hrun. simpl. repeat split; try congruence.
      rewrite Hs. destruct w. simpl. rewrite <- app_assoc. reflexivity.
Qed.

End AnyBatch.

(** X12: a collection never aborts the processor, however many of its
    entries are bad.  For [{"records": [...]}] with any list of entries,
    and for [<records>] with any children, the processor answers a list
    of records; after the line that announces the collection it prints
    exactly one report per entry (per [<record>] child), and it answers
    as many records as there are reports of a processed record. *)
Theorem collections_never_abort :
  (forall (d : dict) (xs : list pyval) (w : World),
     lookup "records" d = Some (PList xs) ->
     exists rs out w',
       _parse_json_records (PDict d) w = (Ok rs, w')
       /\ stdout w' = stdout w ++ MultipleFormat (length xs) :: out
       /\ length out = length xs
       /\ length rs = length (filter is_processed out))
  /\
  (forall (root : Element) (w : World),
     tag root = "records" ->
     exists rs out w',
       _parse_xml_records root w = (Ok rs, w')
       /\ stdout w' = stdout w ++ MultipleFormat (length (findall root "record")) :: out
       /\ length out = length (findall root "record")
       /\ length rs = length (filter is_processed out)).
Proof.
  split.
  - intros d xs w Hd.
    destruct (FeedProps.lookup_contains _ _ _ Hd) as [Hin Hget].
    destruct (parse_each_never_aborts json_envelope json_envelope_outcome xs 1 []
                (set_stdout (stdout w ++ [MultipleFormat (length xs)]) w))
      as (rs & out & w' & Hrun & Hs & Hl & Hc).
    exists rs, out, w'. split; [| split; [| auto]].
    + unfold _parse_json_records, bind at 1, lift at 1. rewrite Hin.
      unfold bind at 1, lift at 1. rewrite Hget.
      unfold bind at 1, lift at 1. simpl py_len.
      unfold bind at 1. simpl print. unfold bind at 1, lift. simpl py_iter.
      exact Hrun.
    + rewrite Hs. destruct w. simpl. rewrite <- app_assoc. reflexivity.
  - intros root w Htag.
    destruct (parse_each_never_aborts xml_envelope xml_envelope_outcome
                (findall root "record") 1 []
                (set_stdout (stdout w
                   ++ [MultipleFormat (length (findall root "record"))]) w))
      as (rs & out & w' & Hrun & Hs & Hl & Hc).
    exists rs, out, w'. split; [| split; [| auto]].
    + unfold _parse_xml_records. rewrite Htag. simpl String.eqb. cbv iota.
      unfold bind at 1. simpl print. exact Hrun.
    + rewrite Hs. destruct w. simpl. rewrite <- app_assoc. reflexivity.
Qed.

(** Two bad entries and one good one, in JSON and in XML. *)
Lemma collections_never_abort_witness :
  (exists rs out w',
     _parse_json_records
       (PDict [("records", PList [bad_json; good_json "Second"; video_json])])
       sample_world = (Ok rs, w')
     /\ stdout w' = stdout sample_world ++ MultipleFormat 3 :: out
     /\ length out = 3
     /\ length rs = length (filter is_processed out))
  /\
  (exists rs out w',
     _parse_xml_records
       (mk_element "records" [] None
          [bad_xml; mk_element "note" [] None []; good_xml "Second"; video_xml])
       sample_world = (Ok rs, w')
     /\ stdout w' = stdout sample_world ++ MultipleFormat 3 :: out
     /\ length out = 3
     /\ length rs = length (filter is_processed out)).
Proof.
  destruct collections_never_abort as [Hjson Hxml]. split.
  - apply (Hjson [("records", PList [bad_json; good_json "Second"; video_json])]
             [bad_json; good_json "Second"; video_json] sample_world).
    reflexivity.
  - apply (Hxml (mk_element "records" [] None
                   [bad_xml; mk_element "note" [] None []; good_xml "Second";
                    video_xml]) sample_world).
    reflexivity.
Defined.

(** X13: what is not an envelope is refused as a whole.  A JSON object
    without ["records"] that lacks ["type"] or ["data"], and an XML root
    that is neither [<records>] nor [<record>], raise [ValueError]; a
    JSON object whose ["records"] is a number, a Boolean or [null]
    raises [TypeError]; in each case nothing was printed and the world
    is as before. *)
Theorem malformed_envelopes_raise (w : World) :
  (forall d : dict,
     lookup "records" d = None ->
     lookup "type" d = None \/ lookup "data" d = None ->
     _parse_json_records (PDict d) w
       = (Raise (ValueError
            "Invalid JSON format. Expected 'records' array or single record with 'type' and 'data'"),
          w))
  /\
  (forall (d : dict) (x : pyval),
     lookup "records" d = Some x -> unsized x = true ->
     _parse_json_records (PDict d) w
       = (Raise (TypeError "object has no len()"), w))
  /\
  (forall root : Element,
     tag root <> "records" -> tag root <> "record" ->
     _parse_xml_records root w
       = (Raise (ValueError
            "Invalid XML format. Expected root element 'records' or 'record'"),
          w)).
Proof.
  repeat split.
  - intros d Hr Hty. unfold _parse_json_records, bind, lift. simpl. rewrite Hr.
    destruct Hty as [H | H]; rewrite H; [reflexivity |].
    destruct (lookup "type" d); reflexivity.
  - intros d x Hx Hu. unfold _parse_json_records, bind, lift. simpl. rewrite Hx.
    destruct x; try discriminate Hu; reflexivity.
  - intros root H1 H2. unfold _parse_xml_records.
    apply String.eqb_neq in H1. apply String.eqb_neq in H2. now rewrite H1, H2.
Qed.

Lemma malformed_envelopes_raise_witness :
  _parse_json_records (PDict [("type", PStr "news")]) sample_world
    = (Raise (ValueError
         "Invalid JSON format. Expected 'records' array or single record with 'type' and 'data'"),
       sample_world)
  /\ _parse_json_records (PDict [("records", PInt 5)]) sample_world
    = (Raise (TypeError "object has no len()"), sample_world)
  /\ _parse_xml_records (mk_element "feed" [] None [good_xml "First"]) sample_world
    = (Raise (ValueError
         "Invalid XML format. Expected root element 'records' or 'record'"),
       sample_world).
Proof.
  destruct (malformed_envelopes_raise sample_world) as (Hjson & Hlen & Hxml).
  split; [| split].
  - apply Hjson; [reflexivity | right; reflexivity].
  - apply (Hlen _ (PInt 5)); reflexivity.
  - apply Hxml; discriminate.
Defined.

(** *** Alert identifiers and private ads *)

Lemma alphabet_char (k : nat) :
  is_alert_char (nth (k mod 36) alphabet "A"%char) = true.
Proof.
  pose proof (Nat.mod_upper_bound k 36) as H.
  destruct (k mod 36) as [| j]; [reflexivity |].
  do 35 (destruct j as [| j]; [reflexivity |]). lia.
Qed.

(** X14: every alert identifier is ["WA-"] followed by four characters
    that are upper-case ASCII letters or digits; making it takes four
    draws from the random source and changes nothing else. *)
Theorem alert_id_format (w : World) :
  exists a b c d,
    _generate_alert_id w
      = (Ok ("WA-" ++ string_of_list_ascii [a; b; c; d])%string,
         set_draws (4 + draws w) w)
    /\ forallb is_alert_char [a; b; c; d] = true.
Proof.
  exists (nth (rng w (draws w) mod 36) alphabet "A"%char),
         (nth (rng w (S (draws w)) mod 36) alphabet "A"%char),
         (nth (rng w (S (S (draws w))) mod 36) alphabet "A"%char),
         (nth (rng w (S (S (S (draws w)))) mod 36) alphabet "A"%char).
  split.
  - destruct w. reflexivity.
  - cbn [forallb]. rewrite !alphabet_char. reflexivity.
Qed.

Section Ads.

Variable sha256_hexdigest : string -> string.
Variable str_of : pyval -> string.
Variable title : string -> string.

Local Abbreviation publish_record :=
  (Feed.publish_record sha256_hexdigest str_of title).

Lemma strptime_ymd_nonempty (s : string) (e : datetime) :
  strptime_ymd s = Some e -> Str.truthy s = true.
Proof. destruct s; [discriminate | reflexivity]. Qed.

(** X15: a private ad whose date does not parse cannot be published.
    The decoders accept any non-empty date text; for such a text that
    [strptime] refuses, [publish_record] without persistence answers
    [False], prints the [ValueError] that names the text, and leaves
    record, news feed file and database as they were. *)
Theorem unparsable_date_is_not_published
    (depth : nat) (t s : string) (ts : datetime) (w : World) :
  Str.truthy s = true -> strptime_ymd s = None ->
  publish_record depth false (PrivateAdRecord t ts (PStr s) None 0, w)
    = (Ok false,
       (PrivateAdRecord t ts (PStr s) None 0,
        set_stdout
          (stdout w ++ [PublishError
             (ValueError ("Invalid expiration date format: " ++ s)%string)]) w)).
Proof.
  intros Hs Hparse.
  cbv [Feed.publish_record Feed.publish_with try_except bind ret self lift
       Feed.format_for_publication Feed.get_user_input
       Feed.PrivateAdRecord_get_user_input parse_expiration_date strptime
       truthy negb in_world print raise py_str].
  rewrite Hs, Hparse. reflexivity.
Qed.

(** X16: publishing a private ad counts the days, also backwards.  For
    a date text that [strptime] accepts as [e], [publish_record] without
    persistence reads the clock once, stores [e] and the whole days from
    now to [e] in the record, appends the block that shows them and
    answers [True]; when [e] lies before now the count is negative: past
    dates are published. *)
Theorem valid_date_is_published_with_days
    (depth : nat) (t s : string) (ts e : datetime) (w : World) :
  strptime_ymd s = Some e ->
  let days := timedelta_days e (clock w (ticks w)) in
  publish_record depth false (PrivateAdRecord t ts (PStr s) None 0, w)
    = (Ok true,
       (PrivateAdRecord t ts (PStr s) (Some e) days,
        set_stdout (stdout w ++ [PublishedToFile])
          (set_output_file (output_file w ++ private_ad_block t s days)
             (set_ticks (S (ticks w)) w))))
  /\ ((to_microseconds e < to_microseconds (clock w (ticks w)))%Z -> (days < 0)%Z).
Proof.
  intros Hparse days. split.
  - pose proof (strptime_ymd_nonempty s e Hparse) as Hs.
    cbv [Feed.publish_record Feed.publish_with try_except bind ret self lift
         Feed.format_for_publication Feed.get_user_input
         Feed.PrivateAdRecord_get_user_input parse_expiration_date strptime
         truthy negb in_world print raise py_str set_self datetime_now
         append_to_file].
    rewrite Hs, Hparse. destruct w. reflexivity.
  - intros Hpast. unfold days, timedelta_days.
    apply Z.div_lt_upper_bound; [reflexivity | lia].
Qed.

End Ads.

Lemma unparsable_date_is_not_published_witness :
  Feed.publish_record sample_sha256 sample_str sample_title 1000 false
      (PrivateAdRecord "Sale" noon (PStr "tomorrow") None 0, sample_world)
    = (Ok false,
       (PrivateAdRecord "Sale" noon (PStr "tomorrow") None 0,
        set_stdout
          (stdout sample_world ++ [PublishError
             (ValueError "Invalid expiration date format: tomorrow")])
          sample_world)).
Proof.
  apply (unparsable_date_is_not_published sample_sha256 sample_str sample_title
           1000 "Sale" "tomorrow" noon sample_world); reflexivity.
Defined.

(** An ad that expired on 2020-01-01, published in 2024. *)
Lemma valid_date_is_published_with_days_witness :
  Feed.publish_record sample_sha256 sample_str sample_title 1000 false
      (PrivateAdRecord "Sale" noon (PStr "2020-01-01") None 0, sample_world)
    = (Ok true,
       (PrivateAdRecord "Sale" noon (PStr "2020-01-01")
          (Some (mk_datetime 2020 1 1 0 0 0 0)) (-1522),
        set_stdout (stdout sample_world ++ [PublishedToFile])
          (set_output_file
             (output_file sample_world
                ++ private_ad_block "Sale" "2020-01-01" (-1522))
             (set_ticks (S (ticks sample_world)) sample_world))))
  /\ (-1522 < 0)%Z.
Proof.
  destruct (valid_date_is_published_with_days sample_sha256 sample_str
              sample_title 1000 "Sale" "2020-01-01" noon
              (mk_datetime 2020 1 1 0 0 0 0) sample_world eq_refl) as [Hrun Hneg].
  split; [exact Hrun | apply Hneg; reflexivity].
Defined.

(** *** Duplicate check, bulk publication, counting and clearing *)

Lemma only_ticks_fields (w w' : World) :
  only_ticks w w' ->
  stdin w' = stdin w /\ stdout w' = stdout w /\ database w' = database w.
Proof. intros H. rewrite H. destruct w. auto. Qed.

Section Bulk.

Variable str_of_exn : exn -> string.
Variable sha256_hexdigest : string -> string.
Variable str_of : pyval -> string.
Variable title : string -> string.

Local Abbreviation check_duplicate := (Feed.check_duplicate sha256_hexdigest str_of).
Local Abbreviation publish_record :=
  (Feed.publish_record sha256_hexdigest str_of title).
Local Abbreviation publish_each :=
  (FeedMore.publish_each str_of_exn sha256_hexdigest str_of title).
Local Abbreviation _process_file_records :=
  (FeedMore._process_file_records str_of_exn sha256_hexdigest str_of title).

(** X17: the duplicate check never finds a duplicate.  For every record
    and every database, also one whose table already holds the row,
    [check_duplicate] answers [False]: the exception of the content hash
    is caught and printed, and the table is not even queried. *)
Theorem check_duplicate_never_detects
    (depth : nat) (r : FeedRecord) (w : World) :
  exists e r' w',
    check_duplicate depth (r, w) = (Ok false, (r', w'))
    /\ stdout w' = stdout w ++ [DuplicateCheckError e]
    /\ database w' = database w.
Proof.
  destruct (proj1 (FeedProps.hash_cycle_raises sha256_hexdigest str_of depth) r w)
    as (e & r' & w' & Hrun & Hfr & _).
  destruct (only_ticks_fields _ _ Hfr) as (_ & Hout & Hdb).
  exists e, r', (set_stdout (stdout w' ++ [DuplicateCheckError e]) w'). split.
  - unfold Feed.check_duplicate, try_except, bind at 1. simpl.
    unfold bind at 1. rewrite Hrun. reflexivity.
  - simpl. rewrite Hout. split; [reflexivity | destruct w'; exact Hdb].
Qed.

Lemma publish_each_outcome (depth : nat) (save_to_database : bool)
    (records : list FeedRecord) :
  forall i published skipped w, exists published' skipped' w' appended,
    publish_each depth save_to_database i records published skipped w
      = (Ok (published', skipped'), w')
    /\ published' + skipped' = published + skipped + length records
    /\ database w' = database w
    /\ output_file w' = (output_file w ++ appended)%string
    /\ (save_to_database = true -> published' = published /\ appended = "").
Proof.
  induction records as [| r records IH]; intros i published skipped w.
  - exists published, skipped, w, "". simpl. rewrite append_empty_r.
    repeat split; auto; lia.
  - destruct (publish_record_outcome sha256_hexdigest str_of title depth
                save_to_database r w)
      as (ok & r' & w1 & app1 & Hrun & Hdb1 & Hfile1 & Hnone & Hflag).
    simpl FeedMore.publish_each. unfold bind at 1, try_except, bind at 1, on_record.
    rewrite Hrun. destruct ok.
    + simpl.
      match goal with
      | |- context [publish_each depth save_to_database (S i) records ?p ?s ?w2] =>
          destruct (IH (S i) p s w2)
            as (p' & s' & w' & app2 & Hrest & Hsum & Hdb2 & Hfile2 & Hflag2)
      end.
      exists p', s', w', (app1 ++ app2)%string. rewrite Hrest.
      split; [reflexivity |]. split; [simpl in Hsum; lia |].
      split; [rewrite Hdb2; destruct w1; exact Hdb1 |].
      split.
      * rewrite Hfile2. destruct w1. simpl in *. rewrite Hfile1.
        now rewrite append_associative.
      * intros Hs. specialize (Hflag Hs). discriminate.
    + simpl.
      match goal with
      | |- context [publish_each depth save_to_database (S i) records ?p ?s ?w2] =>
          destruct (IH (S i) p s w2)
            as (p' & s' & w' & app2 & Hrest & Hsum & Hdb2 & Hfile2 & Hflag2)
      end.
      exists p', s', w', app2. rewrite Hrest.
      split; [reflexivity |]. split; [simpl in Hsum; lia |].
      split; [rewrite Hdb2; destruct w1; exact Hdb1 |].
      split.
      * rewrite Hfile2. destruct w1. simpl in *. rewrite Hfile1, (Hnone eq_refl).
        now rewrite append_empty_r.
      * exact Hflag2.
Qed.


Lemma bind_print {A : Type} (p : Printed) (k : unit -> M World A) (w : World) :
  bind (print p) k w = k tt (set_stdout (stdout w ++ [p]) w).
Proof. reflexivity. Qed.

Lemma input_outcome (prompt : string) (w : World) :
  exists res w', input prompt w = (res, w') /\ same_store w w'
    /\ match res with
       | Ok l => exists rest, stdin w = l :: rest
       | Raise _ => stdin w = []
       end.
Proof.
  unfold input. destruct (stdin w) as [| l rest] eqn:E;
    do 2 eexists; (split; [reflexivity | split; [split; reflexivity |]]).
  - reflexivity.
  - now exists rest.
Qed.


End Bulk.


End FeedExtra.

(** ** The variant tag of an envelope *)

Module FeedTags.

Import Feed FeedMore.

Section Refusal.

Context {X : Type} (envelope : X -> M World (FeedRecord * string)).
Hypothesis envelope_outcome : forall x w, decode_outcome fst w (envelope x w).

(** The loop on a collection of any entries, one of which is refused
    without a trace in the world. *)
Lemma parse_each_one_refused (pre post : list X) (bad : X) (e : exn) (w : World) :
  (forall w1, envelope bad w1 = (Raise e, w1)) ->
  exists rs1 rs2 out1 out2 w',
    parse_each envelope 1 (pre ++ bad :: post) [] w = (Ok (rs1 ++ rs2), w')
    /\ stdout w' = stdout w ++ out1 ++ RecordError (S (length pre)) e :: out2
    /\ length out1 = length pre /\ length rs1 = length (filter is_processed out1)
    /\ length out2 = length post /\ length rs2 = length (filter is_processed out2).
Proof.
  intros Hbad.
  destruct (FeedExtra.parse_each_never_aborts envelope envelope_outcome pre 1 [] w)
    as (rs1 & out1 & w1 & Hrun1 & Hs1 & Hl1 & Hc1).
  destruct (FeedExtra.parse_each_never_aborts envelope envelope_outcome post
              (2 + length pre) rs1
              (set_stdout (stdout w1 ++ [RecordError (S (length pre)) e]) w1))
    as (rs2 & out2 & w' & Hrun2 & Hs2 & Hl2 & Hc2).
  exists rs1, rs2, out1, out2, w'. split; [| split; [| auto]].
  - rewrite FeedProps.parse_each_app, (FeedProps.bind_ok _ _ _ _ _ Hrun1).
    simpl app at 1.
    rewrite (FeedProps.parse_each_failed envelope _ bad post _ w1 w1 e (Hbad w1)).
    exact Hrun2.
  - rewrite Hs2. destruct w1. simpl in *. rewrite Hs1, <- !app_assoc. reflexivity.
Qed.

End Refusal.



End FeedTags.

Module StoreExtra.

Import Feed FeedMore.

Lemma lookup_set_table (n m : string) (t : table) (db : Database) :
  lookup n (set_table m t db)
    = if String.eqb m n
      then match lookup m db with Some _ => Some t | None => None end
      else lookup n db.
Proof.
  induction db as [| [k t0] db IH]; simpl.
  - destruct (String.eqb m n); reflexivity.
  - destruct (String.eqb_spec k m) as [-> | Hkm]; simpl.
    + destruct (String.eqb_spec m n) as [-> | Hmn]; [reflexivity |].
      reflexivity.
    + rewrite IH. destruct (String.eqb_spec k n) as [-> | Hkn].
      * destruct (String.eqb_spec m n) as [E | _]; [| reflexivity].
        congruence.
      * reflexivity.
Qed.

Lemma set_table_emptied (db : Database) (m : string) (a : Z) (nn : list string) :
  lookup m db <> None ->
  emptied (set_table m (mk_table [] a nn) db) m
  /\ (forall n, lookup n db <> None ->
                lookup n (set_table m (mk_table [] a nn) db) <> None)
  /\ (forall n, emptied db n -> emptied (set_table m (mk_table [] a nn) db) n).
Proof.
  intros Hm. repeat split.
  - unfold emptied. rewrite lookup_set_table, String.eqb_refl.
    destruct (lookup m db); [| contradiction]. now eexists.
  - intros n Hn. rewrite lookup_set_table.
    destruct (String.eqb m n); [| exact Hn].
    destruct (lookup m db); [discriminate | contradiction].
  - intros n (t & Ht & Hrows). unfold emptied. rewrite lookup_set_table.
    destruct (String.eqb m n); [| now exists t].
    destruct (lookup m db); [| contradiction]. now eexists.
Qed.

Lemma delete_each_empties (l : list (string * (string * list string))) :
  forall db,
    (forall s, In s l -> lookup (fst (snd s)) db <> None) ->
    exists db',
      delete_each l db = Ok db'
      /\ (forall n, lookup n db <> None -> lookup n db' <> None)
      /\ (forall n, emptied db n -> emptied db' n)
      /\ (forall s, In s l -> emptied db' (fst (snd s))).
Proof.
  induction l as [| [key [tname nn]] l IH]; intros db Hall.
  - exists db. simpl. repeat split; auto. intros s [].
  - simpl. pose proof (Hall _ (or_introl eq_refl)) as Hhead. simpl in Hhead.
    destruct (lookup tname db) as [t |] eqn:Ht; [| contradiction].
    assert (Hex : lookup tname db <> None) by (rewrite Ht; discriminate).
    destruct (set_table_emptied db tname (autoincrement t) (not_null t) Hex)
      as (Hnow & Hkeep & Hstay).
    destruct (IH (set_table tname (mk_table [] (autoincrement t) (not_null t)) db))
      as (db' & Hrun & Hkeep' & Hstay' & Hall').
    { intros s Hs. apply Hkeep, Hall. now right. }
    exists db'. repeat split; auto.
    intros s [<- | Hs]; [apply Hstay', Hnow | now apply Hall'].
Qed.

Lemma count_rows_emptied (n : string) (w : World) :
  emptied (database w) n -> count_rows n w = (Ok 0, w).
Proof.
  intros (t & Ht & Hrows). unfold count_rows, bind, get_table.
  rewrite Ht. unfold ret. now rewrite Hrows.
Qed.

Lemma count_each_emptied (l : list (string * (string * list string))) (w : World) :
  (forall s, In s l -> emptied (database w) (fst (snd s))) ->
  count_each l w = (Ok (map (fun s => (fst s, 0)) l), w).
Proof.
  induction l as [| [key [tname nn]] l IH]; intros H; simpl; [reflexivity |].
  unfold bind at 1. rewrite (count_rows_emptied tname w (H _ (or_introl eq_refl))).
  unfold bind at 1. rewrite IH by (intros s Hs; apply H; now right). reflexivity.
Qed.

Lemma lookup_In {V : Type} (k : string) (l : list (string * V)) (v : V) :
  lookup k l = Some v -> In (k, v) l.
Proof.
  induction l as [| [k' v'] l IH]; simpl; [discriminate |].
  destruct (String.eqb_spec k' k) as [-> | _].
  - intros E. injection E as ->. now left.
  - intros H. right. now apply IH.
Qed.

Section Counting.

Variable str_of_exn : exn -> string.

Local Abbreviation get_record_count := (FeedMore.get_record_count str_of_exn).
Local Abbreviation clear_all_records := (FeedMore.clear_all_records str_of_exn).

(** X20: clearing, then counting, gives zero everywhere.  In a database
    that has the three tables, [clear_all_records] answers [True] and
    leaves the news feed file alone; afterwards [get_record_count], asked
    for one type, for all, or for a type that does not exist, answers
    counts that are all 0, and with no type given it names the three
    types. *)
Theorem cleared_tables_count_zero (w : World) :
  has_tables (database w) ->
  exists w',
    clear_all_records w = (Ok true, w')
    /\ output_file w' = output_file w
    /\ get_record_count None w'
         = (Ok [("news", 0); ("private_ad", 0); ("weather_alert", 0)], w')
    /\ forall record_type, exists counts,
         get_record_count record_type w' = (Ok counts, w')
         /\ counts <> [] /\ Forall (fun kv => snd kv = 0) counts.
Proof.
  intros Htables.
  destruct (delete_each_empties table_schemas (database w) Htables)
    as (db' & Hrun & _ & _ & Hempty).
  set (w' := set_stdout (stdout w ++ [Line "All database records cleared successfully"])
               (set_database db' w)).
  assert (Hall : forall s, In s table_schemas -> emptied (database w') (fst (snd s))).
  { intros s Hs. destruct w. apply Hempty, Hs. }
  assert (Hcount : count_each table_schemas w'
                   = (Ok [("news", 0); ("private_ad", 0); ("weather_alert", 0)], w')).
  { now rewrite (count_each_emptied table_schemas w' Hall). }
  exists w'. split; [| split; [destruct w; reflexivity | split]].
  - unfold FeedMore.clear_all_records, try_except, bind at 1, bind at 1.
    rewrite Hrun. reflexivity.
  - unfold FeedMore.get_record_count, try_except. now rewrite Hcount.
  - intros record_type. unfold FeedMore.get_record_count, try_except.
    assert (Hdefault : exists counts,
              (let (r, s') := count_each table_schemas w' in
               match r with
               | Ok a => (Ok a, s')
               | Raise e =>
                   bind (print (Line ("Error getting record counts: "
                                      ++ str_of_exn e)%string))
                        (fun _ => ret []) s'
               end) = (Ok counts, w')
              /\ counts <> [] /\ Forall (fun kv => snd kv = 0) counts).
    { rewrite Hcount. eexists. split; [reflexivity |].
      split; [discriminate | repeat constructor]. }
    destruct record_type as [t |]; [| exact Hdefault].
    destruct (if Str.truthy t then lookup t table_schemas else None)
      as [[tname nn] |] eqn:Hkey; [| exact Hdefault].
    assert (Hin : In (t, (tname, nn)) table_schemas).
    { destruct (Str.truthy t); [now apply lookup_In | discriminate]. }
    unfold bind at 1.
    rewrite (count_rows_emptied tname w' (Hall _ Hin)).
    eexists. split; [reflexivity |]. split; [discriminate | repeat constructor].
Qed.

End Counting.

(** The world whose news table holds one row. *)
Lemma cleared_tables_count_zero_witness :
  exists w',
    FeedMore.clear_all_records sample_str_of_exn world_with_row = (Ok true, w')
    /\ output_file w' = output_file world_with_row
    /\ FeedMore.get_record_count sample_str_of_exn None w'
         = (Ok [("news", 0); ("private_ad", 0); ("weather_alert", 0)], w')
    /\ forall record_type, exists counts,
         FeedMore.get_record_count sample_str_of_exn record_type w'
           = (Ok counts, w')
         /\ counts <> [] /\ Forall (fun kv => snd kv = 0) counts.
Proof.
  apply (cleared_tables_count_zero sample_str_of_exn world_with_row).
  intros s Hs. simpl in Hs.
  destruct Hs as [<- | [<- | [<- | []]]]; discriminate.
Defined.

End StoreExtra.

Module AskExtra.

Import Feed FeedMore.

Lemma init_record (text : pyval) (w : World) (base : string * datetime) (w' : World) :
  FeedRecord_init text w = (Ok base, w') -> exists s, text = PStr s.
Proof. destruct text; try discriminate. now eexists. Qed.

Lemma from_json_data_needs_no_input
    (cls : record_class) (data : pyval) (w w' : World) (r : FeedRecord) :
  from_json_data cls data w = (Ok r, w') -> needs_no_input r = true.
Proof.
  destruct cls; simpl from_json_data.
  - unfold NewsRecord_from_json_data, bind, lift.
    destruct (py_get data "text" _) as [text | e]; [| discriminate].
    destruct (py_get data "city" _) as [city | e]; [| discriminate].
    destruct (negb (truthy text)); [discriminate |].
    destruct (negb (truthy city)); [discriminate |].
    unfold NewsRecord_init, bind.
    destruct (FeedRecord_init text w) as [[base | e] w1]; [| discriminate].
    intros E. injection E as <- _. reflexivity.
  - unfold PrivateAdRecord_from_json_data, bind, lift.
    destruct (py_get data "text" _) as [text | e]; [| discriminate].
    destruct (py_get data "expiration_date" _) as [date | e]; [| discriminate].
    destruct (negb (truthy text)); [discriminate |].
    destruct (truthy date) eqn:Hd; [| discriminate]. cbv [negb].
    unfold PrivateAdRecord_init, bind.
    destruct (FeedRecord_init text w) as [[base | e] w1]; [| discriminate].
    intros E. injection E as <- _. exact Hd.
  - unfold WeatherAlertRecord_from_json_data, bind, lift.
    destruct (py_get data "text" _) as [text | e]; [| discriminate].
    destruct (py_get data "severity" _) as [sev | e]; [| discriminate].
    destruct (py_get data "location" _) as [loc | e]; [| discriminate].
    destruct (negb (truthy text)); [discriminate |].
    destruct (truthy sev) eqn:Hs; [| discriminate]. cbv [negb].
    destruct (truthy loc) eqn:Hl; [| discriminate]. cbv [negb].
    unfold WeatherAlertRecord_init, bind.
    destruct (FeedRecord_init text w) as [[base | e] w1]; [| discriminate].
    destruct (_generate_alert_id w1) as [[aid | e] w2]; [| discriminate].
    intros E. injection E as <- _. simpl. now rewrite Hs, Hl.
Qed.

Section Asking.

Variable sha256_hexdigest : string -> string.
Variable str_of : pyval -> string.
Variable title : string -> string.

Local Abbreviation publish_record :=
  (Feed.publish_record sha256_hexdigest str_of title).
Local Abbreviation save_record := (Feed.save_record sha256_hexdigest str_of).
Local Abbreviation format_for_publication := (Feed.format_for_publication str_of title).

(** Rendering a record that needs no input only reads the clock. *)
Lemma format_without_input (r : FeedRecord) (w : World) :
  needs_no_input r = true ->
  exists res r' w',
    format_for_publication (r, w) = (res, (r', w')) /\ only_ticks w w'.
Proof.
  destruct r as [t ts c | t ts s [e |] dl | t ts sv l a]; simpl; intros H.
  - do 3 eexists. split; [reflexivity | apply FeedProps.only_ticks_refl].
  - do 3 eexists. split; [reflexivity | apply FeedProps.only_ticks_refl].
  - cbv [Feed.format_for_publication bind self Feed.get_user_input
         Feed.PrivateAdRecord_get_user_input try_except parse_expiration_date lift].
    rewrite H. cbv [negb].
    destruct (strptime s) as [d | []];
      do 3 eexists; (split; [reflexivity |]);
      first [apply FeedProps.only_ticks_refl | apply FeedProps.only_ticks_set].
  - apply andb_true_iff in H. destruct H as [Hs Hl].
    cbv [Feed.format_for_publication bind self]. rewrite Hs, Hl. simpl.
    do 3 eexists. split; [reflexivity | apply FeedProps.only_ticks_refl].
Qed.

Lemma save_record_keeps_stdin (depth : nat) (r : FeedRecord) (w : World) :
  exists r' w', save_record depth (r, w) = (Ok false, (r', w')) /\ stdin w' = stdin w.
Proof.
  destruct (proj1 (FeedProps.hash_cycle_raises sha256_hexdigest str_of depth) r w)
    as (e1 & r1 & w1 & Hrun1 & Hfr1 & _).
  set (w1' := set_stdout (stdout w1 ++ [DuplicateCheckError e1]) w1).
  assert (Hdup : Feed.check_duplicate sha256_hexdigest str_of depth (r, w)
                 = (Ok false, (r1, w1'))).
  { unfold Feed.check_duplicate, try_except, bind at 1. simpl.
    unfold bind at 1. rewrite Hrun1. reflexivity. }
  destruct (proj2 (FeedProps.hash_cycle_raises sha256_hexdigest str_of depth) r1 w1')
    as (e2 & r2 & w2 & Hrun2 & Hfr2 & _).
  destruct (FeedExtra.only_ticks_fields _ _ Hfr1) as (Hin1 & _).
  destruct (FeedExtra.only_ticks_fields _ _ Hfr2) as (Hin2 & _).
  assert (Hbody : exists p,
    save_record depth (r, w) = (Ok false, (r2, set_stdout (stdout w2 ++ [p]) w2))).
  { unfold Feed.save_record, try_except, bind at 1. rewrite Hdup.
    unfold bind at 1. simpl. unfold bind at 1. rewrite Hrun2.
    destruct e2; eexists; reflexivity. }
  destruct Hbody as (p & Hbody). exists r2, (set_stdout (stdout w2 ++ [p]) w2).
  split; [exact Hbody |]. simpl. rewrite Hin2. exact Hin1.
Qed.

(** X21: what was decoded from JSON is published without a question.
    A record that [from_json_data] built, of any class, has every field
    that rendering needs, so [publish_record], with or without
    persistence and in any world, does not read from the console: the
    lines waiting on [stdin] are the same afterwards. *)
Theorem json_records_are_published_unasked
    (cls : record_class) (data : pyval) (w w1 : World) (r : FeedRecord)
    (depth : nat) (save_to_database : bool) (w2 : World) :
  from_json_data cls data w = (Ok r, w1) ->
  stdin (snd (snd (publish_record depth save_to_database (r, w2)))) = stdin w2.
Proof.
  intros Hdec. pose proof (from_json_data_needs_no_input _ _ _ _ _ Hdec) as Hready.
  destruct save_to_database.
  - destruct (save_record_keeps_stdin depth r w2) as (r' & w' & Hsave & Hin).
    unfold Feed.publish_record.
    rewrite (FeedProps.publish_with_skips str_of title _ _ _ Hsave). simpl.
    destruct w'. exact Hin.
  - destruct (format_without_input r w2 Hready) as (res & r' & w' & Hrun & Hfr).
    destruct (FeedExtra.only_ticks_fields _ _ Hfr) as (Hin & _).
    unfold Feed.publish_record, Feed.publish_with, try_except, bind at 1.
    unfold ret at 1. unfold bind at 1. rewrite Hrun.
    destruct res; simpl; destruct w'; exact Hin.
Qed.

(** X22: a blank XML location is asked for at publication.  A weather
    alert element whose text and severity have content and whose
    location holds white space only is decoded, with the empty string as
    location.  Publishing that record without persistence then turns to
    the console: when no line is waiting there, a prompt is written, the
    publication answers [False] and the news feed file is not written. *)
Theorem xml_blank_location_is_asked
    (element : Element) (t s l : string) (w w2 : World) (depth : nat) :
  element_content (find element "text") = Some t ->
  element_content (find element "severity") = Some s ->
  element_content (find element "location") = Some l ->
  Str.strip l = "" ->
  stdin w2 = [] ->
  exists r w1,
    from_xml_element WeatherAlertRecord_class element w = (Ok r, w1)
    /\ record_location r = PStr ""
    /\ exists r' w' q,
         publish_record depth false (r, w2) = (Ok false, (r', w'))
         /\ output_file w' = output_file w2
         /\ In (Prompt q) (stdout w')
         /\ In (PublishError EOFError) (stdout w').
Proof.
  intros Ht Hs Hl Hblank Hin.
  unfold from_xml_element, WeatherAlertRecord_from_xml_element.
  rewrite Ht, Hs, Hl, Hblank.
  generalize (Str.strip t) (Str.strip s). intros t' s'.
  do 2 eexists. split; [reflexivity |]. split; [reflexivity |].
  destruct w2 as [ck tk rg dr sq si so fo db]. simpl in Hin. subst si.
  destruct s' as [| c s']; do 3 eexists;
    (split; [reflexivity |]); (split; [reflexivity |]);
    (split; apply in_or_app; [left; apply in_or_app |]; right; now left).
Qed.

End Asking.

Lemma xml_blank_location_is_asked_witness :
  exists r w1,
    from_xml_element WeatherAlertRecord_class blank_location_alert sample_world
      = (Ok r, w1)
    /\ record_location r = PStr ""
    /\ exists r' w' q,
         Feed.publish_record sample_sha256 sample_str sample_title 1000 false
           (r, sample_world) = (Ok false, (r', w'))
         /\ output_file w' = output_file sample_world
         /\ In (Prompt q) (stdout w')
         /\ In (PublishError EOFError) (stdout w').
Proof.
  apply (xml_blank_location_is_asked sample_sha256 sample_str sample_title
           blank_location_alert "Storm" "High" " " sample_world sample_world 1000);
    reflexivity.
Defined.

Lemma json_records_are_published_unasked_witness :
  stdin (snd (snd (Feed.publish_record sample_sha256 sample_str sample_title 1000
                     false
                     (WeatherAlertRecord "Storm" noon (PStr "High") (PStr "Kyiv")
                        "WA-DKRY",
                      set_stdin ["waiting"] sample_world))))
    = stdin (set_stdin ["waiting"] sample_world).
Proof.
  apply (json_records_are_published_unasked sample_sha256 sample_str sample_title
           WeatherAlertRecord_class
           (PDict [("text", PStr " Storm "); ("severity", PStr "High");
                   ("location", PStr "Kyiv")])
           sample_world
           (set_draws 4 (set_ticks 1 sample_world))).
  reflexivity.
Defined.

End AskExtra.
